(** * Billing core of the application: payment router, regional gateway
      service, plan administration and usage quota

    A shallow embedding of
      - [src/lib/server/opaybd.ts]           (class [OpayService]),
      - [src/lib/server/payment-router.ts]   (class [PaymentRouter]),
      - [src/routes/admin/settings/plans/create/+page.server.ts] and
        [src/routes/admin/settings/plans/[id]/+page.server.ts]
        (form actions [create] and [update]),
      - the tables of the drizzle schema these touch,
    followed by the properties proved about them.

    Conventions.
      - An [async] function is a computation in the monad [M]: it reads an
        environment (clock, settings, remote services), threads the
        database, may throw, and emits the events it performs in order.
      - An instant ([Date]) is its [getTime()] value: milliseconds since
        the epoch, in [Z].  The local time zone of the server is UTC.
      - A JavaScript string is a [string] whose characters are code units
        below 256.  A JavaScript [number] that is an amount of money is a
        binary64 value: the rational ([Q]) it denotes, an infinity or
        [NaN]; products are rounded to the nearest binary64 value.
        Integer columns and counters are in [Z].
      - [undefined] and [null] are [None]; where the database tells them
        apart (the [priceId] of the metadata) a flag says which it is.
      - A table is the list of its rows.  A select without [ORDER BY]
        returns them in list order and an update keeps a row in its
        place; the database promises neither, which matters only where
        a query selects several rows and the code takes the first. *)

From Stdlib Require Import ZArith QArith Qround String Ascii List Lia Bool.
From stdpp Require Import gmap strings list pretty.

Local Open Scope string_scope.
Local Open Scope list_scope.
Local Open Scope Z_scope.
Import ListNotations.

(* ===================================================================== *)
(** * JavaScript built-ins used by the code *)
(* ===================================================================== *)

Module Js.

(** Truthiness of a string value that may be absent: [undefined], [null]
    and the empty string are falsy. *)
Definition truthy (v : option string) : bool :=
  match v with
  | Some s => negb (String.eqb s "")
  | None => false
  end.

(** [a || b] on strings that may be absent. *)
Definition or_else (a : option string) (b : option string) : option string :=
  if truthy a then a else b.

(** White space of [String.prototype.trim] and of [parseInt], among the
    code units below 256: TAB, LF, VT, FF, CR, SP and NBSP. *)
Definition is_space (c : ascii) : bool :=
  let n := Z.of_nat (nat_of_ascii c) in
  (n =? 9) || (n =? 10) || (n =? 11) || (n =? 12) || (n =? 13)
  || (n =? 32) || (n =? 160).

Fixpoint trimStart (s : string) : string :=
  match s with
  | String c r => if is_space c then trimStart r else s
  | EmptyString => EmptyString
  end.

Fixpoint rev_append (s acc : string) : string :=
  match s with
  | String c r => rev_append r (String c acc)
  | EmptyString => acc
  end.

Definition reverse (s : string) : string := rev_append s EmptyString.

Definition trimEnd (s : string) : string := reverse (trimStart (reverse s)).

Definition trim (s : string) : string := trimEnd (trimStart s).

(** Value of a digit in radix up to 16, as [parseInt] reads it. *)
Definition digit_value (c : ascii) : option Z :=
  let n := Z.of_nat (nat_of_ascii c) in
  if (48 <=? n) && (n <=? 57) then Some (n - 48)
  else if (97 <=? n) && (n <=? 102) then Some (n - 87)
  else if (65 <=? n) && (n <=? 70) then Some (n - 55)
  else None.

(** Longest prefix of digits of the radix; [None] when it is empty. *)
Fixpoint parse_digits (radix : Z) (s : string) (acc : option Z) : option Z :=
  match s with
  | String c r =>
      match digit_value c with
      | Some d =>
          if d <? radix
          then parse_digits radix r
                 (Some (match acc with Some a => a | None => 0 end * radix + d))
          else acc
      | None => acc
      end
  | EmptyString => acc
  end.

(** [parseInt(s)] without a radix argument; [None] is [NaN].  The value is
    the exact integer: the code stores it in 32-bit integer columns only,
    where every value that JavaScript would round is out of range. *)
Definition parseInt (s : string) : option Z :=
  let s1 := trimStart s in
  let '(sign, s2) :=
    match s1 with
    | String "-" r => (-1, r)
    | String "+" r => (1, r)
    | _ => (1, s1)
    end in
  let '(radix, s3) :=
    match s2 with
    | String "0" (String "x" r) => (16, r)
    | String "0" (String "X" r) => (16, r)
    | _ => (10, s2)
    end in
  match parse_digits radix s3 None with
  | Some v => Some (sign * v)
  | None => None
  end.

(** [isNaN(n) || n < 0], the validation applied to parsed prices. *)
Definition nan_or_negative (n : option Z) : bool :=
  match n with
  | Some v => v <? 0
  | None => true
  end.

Fixpoint is_prefix (p s : string) : bool :=
  match p, s with
  | EmptyString, _ => true
  | String a p', String b s' => Ascii.eqb a b && is_prefix p' s'
  | String _ _, EmptyString => false
  end.

(** [s.split(sep)[0]] for a non-empty separator: the part of [s] before
    the first occurrence of [sep], all of [s] when there is none. *)
Fixpoint split_head (sep s : string) : string :=
  match s with
  | EmptyString => EmptyString
  | String c r => if is_prefix sep s then EmptyString else String c (split_head sep r)
  end.

(** [s.split(sep)] for a one-character separator. *)
Fixpoint split_char (sep : ascii) (s : string) : list string :=
  match s with
  | EmptyString => [EmptyString]
  | String c r =>
      if Ascii.eqb c sep then EmptyString :: split_char sep r
      else match split_char sep r with
           | h :: t => String c h :: t
           | [] => [String c EmptyString]
           end
  end.

(** A Number: a finite binary64 value, kept as the rational it denotes
    (zero without its sign), an infinity, or [NaN]. *)
Inductive number :=
| finite (q : Q)
| infinity (negative : bool)
| NaN.

(** The integer nearest to [p / q] for [q > 0], a tie going to the even
    one. *)
Definition nearest_even (p q : Z) : Z :=
  let f := p / q in
  let r := p mod q in
  if 2 * r <? q then f
  else if q <? 2 * r then f + 1
  else if Z.even f then f else f + 1.

(** The binary64 value nearest to a rational, ties to even (IEEE 754
    roundTiesToEven): 53 significant bits down to the exponent -1022,
    multiples of [2^-1074] below, an infinity from [2^1024 - 2^970] on. *)
Definition binary64 (q : Q) : number :=
  let n := Z.abs (Qnum q) in
  let d := Zpos (Qden q) in
  if n =? 0 then finite 0
  else
    let e0 := Z.log2 n - Z.log2 d in
    let below := if 0 <=? e0 then n <? d * 2 ^ e0 else n * 2 ^ (- e0) <? d in
    (* [2^e <= n / d < 2^(e + 1)] *)
    let e := if below then e0 - 1 else e0 in
    (* the unit in the last place is [2^u] *)
    let u := Z.max e (-1022) - 52 in
    let m := if 0 <=? u then nearest_even n (d * 2 ^ u)
             else nearest_even (n * 2 ^ (- u)) d in
    if (1024 <=? e) || ((u =? 971) && (2 ^ 53 <=? m)) then infinity (Qnum q <? 0)
    else
      let v := if 0 <=? u then inject_Z (m * 2 ^ u) else Qred (m # Z.to_pos (2 ^ (- u))) in
      finite (if Qnum q <? 0 then - v else v)%Q.

(** [x * k] for an integer [k] that is a binary64 value: the product,
    rounded. *)
Definition times (x : number) (k : Z) : number :=
  match x with
  | finite q => binary64 (q * inject_Z k)
  | infinity negative => if k =? 0 then NaN else infinity (xorb negative (k <? 0))
  | NaN => NaN
  end.

(** [Math.round]: the nearest integer, halves towards plus infinity;
    [None] stands for [NaN] and the infinities, which it returns as they
    are. *)
Definition Math_round (x : number) : option Z :=
  match x with
  | finite q => Some (Qfloor (q + (1 # 2)))
  | infinity _ | NaN => None
  end.

(** [Math.ceil(a / b)] for integers [a] and [b > 0].  For the differences
    of two valid [Date]s over [msPerDay] the quotient is below 2^27 and
    the binary64 quotient has the same ceiling as the exact one. *)
Definition Math_ceil_div (a b : Z) : Z := - ((- a) / b).

(** ** [Date] arithmetic (ECMAScript, Date objects), local time zone UTC *)

Definition msPerDay : Z := 86400000.

Definition Day (t : Z) : Z := t / msPerDay.
Definition TimeWithinDay (t : Z) : Z := t mod msPerDay.

(** Number of the first day of the civil month (year [y], month [m] in
    1..12), counted from the epoch. *)
Definition days_from_civil (y m d : Z) : Z :=
  let y' := if m <=? 2 then y - 1 else y in
  let era := y' / 400 in
  let yoe := y' - era * 400 in
  let mp := if 2 <? m then m - 3 else m + 9 in
  let doy := (153 * mp + 2) / 5 + d - 1 in
  let doe := yoe * 365 + yoe / 4 - yoe / 100 + doy in
  era * 146097 + doe - 719468.

(** Year, month (1..12) and day of the month of a day number. *)
Definition civil_from_days (z : Z) : Z * Z * Z :=
  let z' := z + 719468 in
  let era := z' / 146097 in
  let doe := z' - era * 146097 in
  let yoe := (doe - doe / 1460 + doe / 36524 - doe / 146096) / 365 in
  let doy := doe - (365 * yoe + yoe / 4 - yoe / 100) in
  let mp := (5 * doy + 2) / 153 in
  let d := doy - (153 * mp + 2) / 5 + 1 in
  let m := if mp <? 10 then mp + 3 else mp - 9 in
  let y := yoe + era * 400 in
  ((if m <=? 2 then y + 1 else y), m, d).

Definition getFullYear (t : Z) : Z := fst (fst (civil_from_days (Day t))).
(** Months count from 0. *)
Definition getMonth (t : Z) : Z := snd (fst (civil_from_days (Day t))) - 1.
Definition getDate (t : Z) : Z := snd (civil_from_days (Day t)).

(** [MakeDay(year, month, date)] with [month] counted from 0 and allowed
    to leave 0..11, [date] allowed to leave the month. *)
Definition MakeDay (year month date : Z) : Z :=
  let ym := year + month / 12 in
  let mn := month mod 12 in
  days_from_civil ym (mn + 1) 1 + date - 1.

Definition MakeDate (day time : Z) : Z := day * msPerDay + time.

(** [d.setMonth(month)]: the instant of [d] afterwards.  The method works
    on the local time of [d]; with local time zone UTC that is the
    instant itself, and no daylight-saving shift enters the result. *)
Definition setMonth (t month : Z) : Z :=
  MakeDate (MakeDay (getFullYear t) month (getDate t)) (TimeWithinDay t).

(** [d.setFullYear(year)]: the instant of [d] afterwards, with local
    time zone UTC as for [setMonth]. *)
Definition setFullYear (t year : Z) : Z :=
  MakeDate (MakeDay year (getMonth t) (getDate t)) (TimeWithinDay t).

End Js.

(* ===================================================================== *)
(** * The tables of the schema *)
(* ===================================================================== *)

(** [paymentProvider] columns and the router's [PaymentProvider] type. *)
Inductive PaymentProvider := stripe | opaybd.

(** The [status] column of a subscription and [subscriptionStatus] of a
    user. *)
Inductive SubscriptionStatus :=
  active | canceled | incomplete | incomplete_expired | past_due | trialing | unpaid.

(** The [status] column of a payment. *)
Inductive PaymentStatus := succeeded | pending | failed | payment_canceled | refunded.

Definition provider_eqb (a b : PaymentProvider) : bool :=
  match a, b with
  | stripe, stripe | opaybd, opaybd => true
  | _, _ => false
  end.

Definition status_eqb (a b : SubscriptionStatus) : bool :=
  match a, b with
  | active, active | canceled, canceled | incomplete, incomplete
  | incomplete_expired, incomplete_expired | past_due, past_due
  | trialing, trialing | unpaid, unpaid => true
  | _, _ => false
  end.

(** Table [user] (the columns the billing code reads or writes).  The tier
    columns are text: the code writes them from the payment metadata with a
    type cast only. *)
Module User.
Record t := {
  id : string;
  name : option string;
  email : option string;
  subscriptionStatus : option SubscriptionStatus;
  planTier : option string;
}.
End User.

(** Table [pricing_plan]. *)
Module PricingPlan.
Record t := {
  id : string;
  name : string;
  tier : string;
  stripePriceId : string;
  priceAmount : Z;
  priceAmountBdt : option Z;
  currency : string;
  billingInterval : string;
  textGenerationLimit : option Z;
  imageGenerationLimit : option Z;
  videoGenerationLimit : option Z;
  audioGenerationLimit : option Z;
  features : list string;
  isActive : bool;
  createdAt : Z;
  updatedAt : Z;
}.
End PricingPlan.

(** Table [subscription]. *)
Module Subscription.
Record t := {
  id : string;
  userId : string;
  stripeSubscriptionId : string;
  stripePriceId : string;
  planTier : string;
  previousPlanTier : option string;
  status : SubscriptionStatus;
  currentPeriodStart : Z;
  currentPeriodEnd : Z;
  cancelAtPeriodEnd : bool;
  canceledAt : option Z;
  endedAt : option Z;
  planChangedAt : option Z;
  paymentProvider : PaymentProvider;
  opayTransactionId : option string;
  renewalRequired : option bool;
  lastPaymentAmount : option Z;
  renewalReminderSentAt : option Z;
  createdAt : Z;
  updatedAt : Z;
}.
End Subscription.

(** Table [payment_history]. *)
Module PaymentHistory.
Record t := {
  id : string;
  userId : option string;
  stripePaymentIntentId : option string;
  stripeInvoiceId : option string;
  subscriptionId : option string;
  amount : Z;
  currency : string;
  status : PaymentStatus;
  description : option string;
  paymentMethodType : option string;
  last4 : option string;
  brand : option string;
  paidAt : option Z;
  paymentProvider : PaymentProvider;
  opayTransactionId : option string;
  opayPaymentMethod : option string;
  opayPaymentFee : option Z;
  createdAt : Z;
}.
End PaymentHistory.

Inductive Table := users | pricingPlans | subscriptions | paymentHistory.

(** The database: the rows of each table in storage order, and the number
    of identifiers [randomUUID] has handed out so far. *)
Record Database := {
  users_rows : list User.t;
  pricingPlans_rows : list PricingPlan.t;
  subscriptions_rows : list Subscription.t;
  paymentHistory_rows : list PaymentHistory.t;
  uuids_drawn : nat;
}.

(* ===================================================================== *)
(** * The regional gateway's wire data *)
(* ===================================================================== *)

(** The metadata object the code attaches to a payment ([createPayment])
    and expects back ([OpayVerificationResult.metadata]); a field that is
    missing from the object, or [null] in it, is [None].  The code reads
    the fields through truthiness and [===], where a missing key and
    [null] behave alike, except [priceId], which it also hands to an
    [update]: there a missing key leaves the column alone and [null] is
    written.  [priceId_is_null] tells the two apart when [priceId] is
    [None]. *)
Module Metadata.
Record t := {
  userId : option string;
  planId : option string;
  priceId : option string;
  priceId_is_null : bool;
  planTier : option string;
  originalAmountCents : option Z;
  billingInterval : option string;
}.

(** [priceId] is [null]. *)
Definition null_priceId (m : t) : bool :=
  match priceId m with
  | Some _ => false
  | None => priceId_is_null m
  end.
End Metadata.

(** What [data.metadata] can be at run time: an object, a string (the
    gateway sends the object JSON-encoded), or any other JSON value or
    nothing at all ([null], [undefined], a number, a boolean, an array),
    none of which has a [userId] or [planTier] property. *)
Inductive MetadataValue :=
| MetaObject (m : Metadata.t)
| MetaString (raw : string)
| MetaOther.

(** [metadata?.field] *)
Definition meta_field (f : Metadata.t -> option string) (v : MetadataValue) : option string :=
  match v with
  | MetaObject m => f m
  | MetaString _ | MetaOther => None
  end.

(** Body of the JSON answer of [/verify] ([OpayVerificationResult]); the
    status is whatever string the gateway sends. *)
Module Verification.
Record t := {
  status : string;
  cus_name : string;
  cus_email : string;
  amount : string;
  transaction_id : string;
  payment_method : string;
  metadata : MetadataValue;
}.
End Verification.

(** Body of the JSON answer of [/create]. *)
Module CreateResponse.
Record t := {
  status : bool;
  message : option string;
  payment_url : string;
}.
End CreateResponse.

(** Body of the request to [/create]; [meta_data] is sent through
    [JSON.stringify], which is kept as the object it encodes. *)
Module CreateRequest.
Record t := {
  cus_name : string;
  cus_email : option string;
  amount : Q;
  success_url : string;
  cancel_url : string;
  webhook_url : string;
  meta_data : Metadata.t;
}.
End CreateRequest.

(** How a [fetch] followed by [response.json()] can end. *)
Inductive HttpResult (A : Type) :=
| FetchRejected (reason : string)
| HttpNotOk (code : Z) (text : string)
| HttpOk (data : A)
| HttpOkNotJson (reason : string).
Arguments FetchRejected {A} reason.
Arguments HttpNotOk {A} code text.
Arguments HttpOk {A} data.
Arguments HttpOkNotJson {A} reason.

Inductive FetchBody :=
| CreateBody (b : CreateRequest.t)
| VerifyBody (transaction_id : string).

(* ===================================================================== *)
(** * Effects *)
(* ===================================================================== *)

(** A thrown value: an [Error] with its message, the rejection of a
    statement by the database with the constraint it names, or one of the
    framework's [redirect(status, location)] and [error(status, message)]. *)
Inductive Exn :=
| Error (message : string)
| DbError (constraint : string)
| Redirect (status : Z) (location : string)
| HttpError (status : Z) (message : string).

Inductive Res (A : Type) :=
| Ok (a : A)
| Throw (e : Exn).
Arguments Ok {A} a.
Arguments Throw {A} e.

(** What a computation does besides computing, in the order it does it. *)
Inductive Event :=
| console_log (msg : string)
| console_warn (msg : string)
| console_error (msg : string)
| db_select (t : Table)
| db_insert (t : Table)
| db_update (t : Table)
| http_post (url : string) (body : FetchBody)
| stripe_call (method : string).

Definition is_db_write (e : Event) : bool :=
  match e with
  | db_insert _ | db_update _ => true
  | _ => false
  end.

Definition is_network (e : Event) : bool :=
  match e with
  | http_post _ _ | stripe_call _ => true
  | _ => false
  end.

(** Settings of the regional gateway ([getOpaySettings]). *)
Record OpaySettings := { apiKey : option string }.

(** A Stripe checkout session, as far as the router reads it. *)
Module StripeSession.
Record t := { id : string; client_secret : option string }.
End StripeSession.

(** What a [getActiveSubscription] of a provider service returns when it
    finds one. *)
Record ActiveSubscription := {
  subscription : Subscription.t;
  plan : option PricingPlan.t;
}.

(** Parameters of [StripeService.createCheckoutSession]. *)
Record StripeCheckoutParams := {
  sc_userId : string;
  sc_priceId : string;
  sc_successUrl : string;
  sc_cancelUrl : string;
}.

(** The surroundings of one call: the clock, the settings store, the
    remote services and the built-ins that are not modelled above.
    [settings-store.js] and [stripe.js] are not among the sources, so what
    their functions answer is part of the environment. *)
Record Env := {
  (** [new Date()] and the database's [now()] *)
  now : Z;
  (** [getActivePaymentProvider()] *)
  activePaymentProvider : string;
  (** [getOpaySettings()] *)
  opaySettings : Res OpaySettings;
  (** the gateway's answer to a POST on [/create] and on [/verify] *)
  opay_create : CreateRequest.t -> HttpResult CreateResponse.t;
  opay_verify : string -> HttpResult Verification.t;
  (** [JSON.parse] of a metadata string; [None] when it throws *)
  JSON_parse : string -> option MetadataValue;
  (** [new URL(s).origin]; [None] when the constructor throws *)
  URL_origin : string -> option string;
  (** [StripeService.createCheckoutSession] and [.getActiveSubscription] *)
  stripe_createCheckoutSession : StripeCheckoutParams -> Res StripeSession.t;
  stripe_getActiveSubscription : string -> Res (option ActiveSubscription);
  (** the n-th value of [randomUUID()] *)
  randomUUID : nat -> string;
  (** [isDemoModeEnabled()] and [DEMO_MODE_MESSAGES.ADMIN_SAVE_DISABLED] *)
  demoMode : bool;
  ADMIN_SAVE_DISABLED : string;
}.

(** Computations: environment, database in, result, database out, events. *)
Definition M (A : Type) : Type := Env -> Database -> Res A * Database * list Event.

Definition ret {A} (a : A) : M A := fun _ db => (Ok a, db, []).

Definition throw {A} (e : Exn) : M A := fun _ db => (Throw e, db, []).

Definition bind {A B} (m : M A) (k : A -> M B) : M B :=
  fun env db =>
    match m env db with
    | (Ok a, db1, ev1) =>
        let '(r, db2, ev2) := k a env db1 in (r, db2, ev1 ++ ev2)
    | (Throw e, db1, ev1) => (Throw e, db1, ev1)
    end.

(** [try { m } catch { h }] *)
Definition try_catch {A} (m : M A) (h : Exn -> M A) : M A :=
  fun env db =>
    match m env db with
    | (Ok a, db1, ev1) => (Ok a, db1, ev1)
    | (Throw e, db1, ev1) =>
        let '(r, db2, ev2) := h e env db1 in (r, db2, ev1 ++ ev2)
    end.

Definition emit (e : Event) : M unit := fun _ db => (Ok tt, db, [e]).

Definition ask : M Env := fun env db => (Ok env, db, []).

Definition get_db : M Database := fun _ db => (Ok db, db, []).

Definition put_db (db : Database) : M unit := fun _ _ => (Ok tt, db, []).

Definition lift_res {A} (r : Res A) : M A :=
  match r with
  | Ok a => ret a
  | Throw e => throw e
  end.

Notation "'let*' x ':=' m 'in' k" := (bind m (fun x => k))
  (at level 10, x name, m at level 100, k at level 200).

Definition result {A} (x : Res A * Database * list Event) : Res A := fst (fst x).
Definition database {A} (x : Res A * Database * list Event) : Database := snd (fst x).
Definition events {A} (x : Res A * Database * list Event) : list Event := snd x.

(* ===================================================================== *)
(** * The database layer (drizzle statements) *)
(* ===================================================================== *)

Module Db.

Definition with_users (rows : list User.t) (db : Database) : Database :=
  {| users_rows := rows;
     pricingPlans_rows := pricingPlans_rows db;
     subscriptions_rows := subscriptions_rows db;
     paymentHistory_rows := paymentHistory_rows db;
     uuids_drawn := uuids_drawn db |}.

Definition with_pricingPlans (rows : list PricingPlan.t) (db : Database) : Database :=
  {| users_rows := users_rows db;
     pricingPlans_rows := rows;
     subscriptions_rows := subscriptions_rows db;
     paymentHistory_rows := paymentHistory_rows db;
     uuids_drawn := uuids_drawn db |}.

Definition with_subscriptions (rows : list Subscription.t) (db : Database) : Database :=
  {| users_rows := users_rows db;
     pricingPlans_rows := pricingPlans_rows db;
     subscriptions_rows := rows;
     paymentHistory_rows := paymentHistory_rows db;
     uuids_drawn := uuids_drawn db |}.

Definition with_paymentHistory (rows : list PaymentHistory.t) (db : Database) : Database :=
  {| users_rows := users_rows db;
     pricingPlans_rows := pricingPlans_rows db;
     subscriptions_rows := subscriptions_rows db;
     paymentHistory_rows := rows;
     uuids_drawn := uuids_drawn db |}.

Definition with_uuids_drawn (n : nat) (db : Database) : Database :=
  {| users_rows := users_rows db;
     pricingPlans_rows := pricingPlans_rows db;
     subscriptions_rows := subscriptions_rows db;
     paymentHistory_rows := paymentHistory_rows db;
     uuids_drawn := n |}.

(** [db.select().from(t).where(p)]: the rows that satisfy [p], in storage
    order. *)
Definition select_users (p : User.t -> bool) : M (list User.t) :=
  fun _ db => (Ok (List.filter p (users_rows db)), db, [db_select users]).

Definition select_pricingPlans (p : PricingPlan.t -> bool) : M (list PricingPlan.t) :=
  fun _ db => (Ok (List.filter p (pricingPlans_rows db)), db, [db_select pricingPlans]).

Definition select_subscriptions (p : Subscription.t -> bool) : M (list Subscription.t) :=
  fun _ db => (Ok (List.filter p (subscriptions_rows db)), db, [db_select subscriptions]).

(** [db.update(t).set(f).where(p)] *)
Definition set_where {A} (p : A -> bool) (f : A -> A) (rows : list A) : list A :=
  List.map (fun r => if p r then f r else r) rows.

Definition update_users (p : User.t -> bool) (f : User.t -> User.t) : M unit :=
  fun _ db => (Ok tt, with_users (set_where p f (users_rows db)) db, [db_update users]).

(** A value fits a 32-bit [integer] column. *)
Definition int4 (v : Z) : bool := (-2147483648 <=? v) && (v <=? 2147483647).

(** A JavaScript value bound to an [integer] column: the database rejects
    what is not an integer ([NaN], the infinities) or is out of range. *)
Definition integer (v : option Z) : Res Z :=
  match v with
  | Some z => if int4 z then Ok z else Throw (DbError "integer out of range")
  | None => Throw (DbError "invalid input syntax for type integer")
  end.

(** [db.update(subscriptions).set(f).where(p)]; [f] is [Throw] when the
    database rejects a value of the [set].  The rows keep their places in
    the list.  The database does not: a select without [orderBy] may
    return an updated row after the others, so what is said below of the
    first row selected for a user is said of a user with one such row. *)
Definition update_subscriptions (p : Subscription.t -> bool)
    (f : Res (Subscription.t -> Subscription.t)) : M unit :=
  let* _ := emit (db_update subscriptions) in
  match f with
  | Throw e => throw e
  | Ok g =>
      let* db := get_db in
      put_db (with_subscriptions (set_where p g (subscriptions_rows db)) db)
  end.

(** The default of an [id] column: the next value of [randomUUID()]. *)
Definition draw_uuid : M string :=
  fun env db =>
    (Ok (randomUUID env (uuids_drawn db)), with_uuids_drawn (S (uuids_drawn db)) db, []).

Definition user_exists (uid : string) (db : Database) : bool :=
  List.existsb (fun u => String.eqb (User.id u) uid) (users_rows db).

(** [db.insert(subscriptions).values(v)].  [values id] is the row for the
    identifier drawn, [Throw] when the database rejects a value of [v].
    The statement is also rejected when the primary key or
    [stripeSubscriptionId] is taken, or the user does not exist. *)
Definition insert_subscriptions (values : string -> Res Subscription.t) : M unit :=
  let* id := draw_uuid in
  let* _ := emit (db_insert subscriptions) in
  let* db := get_db in
  match values id with
  | Throw e => throw e
  | Ok row =>
      if List.existsb (fun s => String.eqb (Subscription.id s) (Subscription.id row))
           (subscriptions_rows db)
      then throw (DbError "subscription_pkey")
      else if List.existsb
                (fun s => String.eqb (Subscription.stripeSubscriptionId s)
                                     (Subscription.stripeSubscriptionId row))
                (subscriptions_rows db)
      then throw (DbError "subscription_stripeSubscriptionId_unique")
      else if negb (user_exists (Subscription.userId row) db)
      then throw (DbError "subscription_userId_user_id_fk")
      else put_db (with_subscriptions (subscriptions_rows db ++ [row]) db)
  end.

(** [db.insert(paymentHistory).values(v)] *)
Definition insert_paymentHistory (values : string -> Res PaymentHistory.t) : M unit :=
  let* id := draw_uuid in
  let* _ := emit (db_insert paymentHistory) in
  let* db := get_db in
  match values id with
  | Throw e => throw e
  | Ok row =>
      if List.existsb (fun h => String.eqb (PaymentHistory.id h) (PaymentHistory.id row))
           (paymentHistory_rows db)
      then throw (DbError "payment_history_pkey")
      else if match PaymentHistory.userId row with
              | Some uid => negb (user_exists uid db)
              | None => false
              end
      then throw (DbError "payment_history_userId_user_id_fk")
      else if match PaymentHistory.subscriptionId row with
              | Some sid =>
                  negb (List.existsb (fun s => String.eqb (Subscription.id s) sid)
                          (subscriptions_rows db))
              | None => false
              end
      then throw (DbError "payment_history_subscriptionId_subscription_id_fk")
      else put_db (with_paymentHistory (paymentHistory_rows db ++ [row]) db)
  end.

Definition int4_opt (v : option Z) : bool :=
  match v with
  | Some z => int4 z
  | None => true
  end.

Definition plan_in_range (p : PricingPlan.t) : bool :=
  int4 (PricingPlan.priceAmount p) && int4_opt (PricingPlan.priceAmountBdt p)
  && int4_opt (PricingPlan.textGenerationLimit p)
  && int4_opt (PricingPlan.imageGenerationLimit p)
  && int4_opt (PricingPlan.videoGenerationLimit p)
  && int4_opt (PricingPlan.audioGenerationLimit p).

(** [db.insert(pricingPlans).values(v)]: rejected when an integer is out
    of range, or the primary key or [stripePriceId] is taken. *)
Definition insert_pricingPlans (values : string -> PricingPlan.t) : M unit :=
  let* id := draw_uuid in
  let* _ := emit (db_insert pricingPlans) in
  let* db := get_db in
  let row := values id in
  if negb (plan_in_range row) then throw (DbError "integer out of range")
  else if List.existsb (fun p => String.eqb (PricingPlan.id p) (PricingPlan.id row))
            (pricingPlans_rows db)
  then throw (DbError "pricing_plan_pkey")
  else if List.existsb
            (fun p => String.eqb (PricingPlan.stripePriceId p) (PricingPlan.stripePriceId row))
            (pricingPlans_rows db)
  then throw (DbError "pricing_plan_stripePriceId_unique")
  else put_db (with_pricingPlans (pricingPlans_rows db ++ [row]) db).

(** No two rows of the list carry the same [stripePriceId]. *)
Fixpoint priceIds_distinct (rows : list PricingPlan.t) : bool :=
  match rows with
  | [] => true
  | p :: rest =>
      negb (List.existsb
              (fun q => String.eqb (PricingPlan.stripePriceId q) (PricingPlan.stripePriceId p))
              rest)
      && priceIds_distinct rest
  end.

(** [db.update(pricingPlans).set(f).where(p)]; [f] is [Throw] when the
    database rejects a value of the [set] -- it does so before it looks
    for rows -- and the update is rejected when two rows would share a
    [stripePriceId]. *)
Definition update_pricingPlans (p : PricingPlan.t -> bool)
    (f : Res (PricingPlan.t -> PricingPlan.t)) : M unit :=
  let* _ := emit (db_update pricingPlans) in
  match f with
  | Throw e => throw e
  | Ok g =>
      let* db := get_db in
      let rows := set_where p g (pricingPlans_rows db) in
      if negb (priceIds_distinct rows) && priceIds_distinct (pricingPlans_rows db)
      then throw (DbError "pricing_plan_stripePriceId_unique")
      else put_db (with_pricingPlans rows db)
  end.

End Db.

(* ===================================================================== *)
(** * [OpayService] (src/lib/server/opaybd.ts) *)
(* ===================================================================== *)

Definition OPAY_API_BASE : string := "https://verify.opaybd.com/api/payment".

Record OpayPaymentCreateParams := {
  cp_userId : string;
  cp_planId : string;
  cp_priceId : string;
  cp_successUrl : string;
  cp_cancelUrl : string;
}.

(** [OpayCallbackParams]; its [status] field is never read. *)
Record OpayCallbackParams := {
  transactionId : string;
  paymentMethod : string;
  paymentAmount : Js.number;
  paymentFee : Js.number;
}.

Module OpayService.

Definition not_configured : string :=
  "Opaybd credentials not configured. Please configure them in Admin > Payment Methods.".

(** [getHeaders]: the value of the [API-KEY] header. *)
Definition getHeaders : M string :=
  let* env := ask in
  let* settings := lift_res (opaySettings env) in
  match apiKey settings with
  | Some key => if Js.truthy (Some key) then ret key else throw (Error not_configured)
  | None => throw (Error not_configured)
  end.

(** [user.name || user.email?.split('@')[0] || 'Customer'] *)
Definition customer_name (user : User.t) : string :=
  let from_email :=
    match User.email user with
    | Some e => List.head (Js.split_char "@" e)
    | None => None
    end in
  match Js.or_else (Js.or_else (User.name user) from_email) (Some "Customer") with
  | Some n => n
  | None => "Customer"
  end.

Definition no_bdt_price_warning (plan : PricingPlan.t) : string :=
  "Plan " +:+ PricingPlan.name plan +:+ " (" +:+ PricingPlan.tier plan
  +:+ ") has no BDT price configured. Using USD amount as fallback.".

Definition createPayment (params : OpayPaymentCreateParams) : M CreateResponse.t :=
  let* found := Db.select_users (fun u => String.eqb (User.id u) (cp_userId params)) in
  match found with
  | [] => throw (Error "User not found")
  | user :: _ =>
    let* plans :=
      Db.select_pricingPlans (fun p => String.eqb (PricingPlan.id p) (cp_planId params)) in
    match plans with
    | [] => throw (Error "Pricing plan not found")
    | plan :: _ =>
      let* amount :=
        match PricingPlan.priceAmountBdt plan with
        | Some bdt => ret (inject_Z bdt / inject_Z 100)%Q
        | None =>
            let* _ := emit (console_warn (no_bdt_price_warning plan)) in
            ret (inject_Z (PricingPlan.priceAmount plan) / inject_Z 100)%Q
        end in
      let* headers := getHeaders in
      let metadata :=
        {| Metadata.userId := Some (cp_userId params);
           Metadata.planId := Some (cp_planId params);
           Metadata.priceId := Some (cp_priceId params);
           Metadata.priceId_is_null := false;
           Metadata.planTier := Some (PricingPlan.tier plan);
           Metadata.originalAmountCents := Some (PricingPlan.priceAmount plan);
           Metadata.billingInterval := Some (PricingPlan.billingInterval plan) |} in
      let* env := ask in
      match URL_origin env (cp_successUrl params) with
      | None => throw (Error "Invalid URL")
      | Some origin =>
        let webhookUrl := origin +:+ "/api/opaybd/webhook" in
        let body :=
          {| CreateRequest.cus_name := customer_name user;
             CreateRequest.cus_email := User.email user;
             CreateRequest.amount := amount;
             CreateRequest.success_url := cp_successUrl params;
             CreateRequest.cancel_url := cp_cancelUrl params;
             CreateRequest.webhook_url := webhookUrl;
             CreateRequest.meta_data := metadata |} in
        let* _ := emit (http_post (OPAY_API_BASE +:+ "/create") (CreateBody body)) in
        match opay_create env body with
        | FetchRejected reason => throw (Error reason)
        | HttpNotOk code text =>
            let* _ := emit (console_error ("Opaybd create payment error: " +:+ text)) in
            throw (Error ("Opaybd API error: " +:+ pretty code))
        | HttpOkNotJson reason => throw (Error reason)
        | HttpOk data =>
            if negb (CreateResponse.status data)
            then throw (Error
                   (match Js.or_else (CreateResponse.message data)
                            (Some "Failed to create payment with Opaybd") with
                    | Some m => m
                    | None => "Failed to create payment with Opaybd"
                    end))
            else
              let* _ := emit (console_log "Opaybd payment created successfully:") in
              ret data
        end
      end
    end
  end.

Definition with_metadata (v : MetadataValue) (d : Verification.t) : Verification.t :=
  {| Verification.status := Verification.status d;
     Verification.cus_name := Verification.cus_name d;
     Verification.cus_email := Verification.cus_email d;
     Verification.amount := Verification.amount d;
     Verification.transaction_id := Verification.transaction_id d;
     Verification.payment_method := Verification.payment_method d;
     Verification.metadata := v |}.

Definition verifyPayment (transactionId : string) : M Verification.t :=
  let* headers := getHeaders in
  let* env := ask in
  let* _ := emit (http_post (OPAY_API_BASE +:+ "/verify") (VerifyBody transactionId)) in
  match opay_verify env transactionId with
  | FetchRejected reason => throw (Error reason)
  | HttpNotOk code text =>
      let* _ := emit (console_error ("Opaybd verify payment error: " +:+ text)) in
      throw (Error ("Opaybd API error: " +:+ pretty code))
  | HttpOkNotJson reason => throw (Error reason)
  | HttpOk data =>
      match Verification.metadata data with
      | MetaString raw =>
          match JSON_parse env raw with
          | Some v => ret (with_metadata v data)
          | None =>
              let* _ := emit (console_error ("Failed to parse metadata: " +:+ raw)) in
              ret data
          end
      | _ => ret data
      end
  end.

(** The end of the period that starts at [now]: a year later when the
    metadata says ['year'], a month later otherwise. *)
Definition period_end (now : Z) (billingInterval : option string) : Z :=
  match billingInterval with
  | Some i =>
      if String.eqb i "year"
      then Js.setFullYear now (Js.getFullYear now + 1)
      else Js.setMonth now (Js.getMonth now + 1)
  | None => Js.setMonth now (Js.getMonth now + 1)
  end.

Definition is_opay_subscription_of (uid : string) (s : Subscription.t) : bool :=
  String.eqb (Subscription.userId s) uid
  && provider_eqb (Subscription.paymentProvider s) opaybd.

(** The [set] of the update of an existing subscription; an undefined
    [priceId] leaves the column as it is. *)
Definition renew (existingSub : Subscription.t) (priceId : option string) (planTier : string)
    (now periodEnd : Z) (transactionId : string) (amountCents : Z)
    (s : Subscription.t) : Subscription.t :=
  {| Subscription.id := Subscription.id s;
     Subscription.userId := Subscription.userId s;
     Subscription.stripeSubscriptionId := Subscription.stripeSubscriptionId s;
     Subscription.stripePriceId :=
       match priceId with
       | Some p => p
       | None => Subscription.stripePriceId s
       end;
     Subscription.planTier := planTier;
     Subscription.previousPlanTier := Some (Subscription.planTier existingSub);
     Subscription.status := active;
     Subscription.currentPeriodStart := now;
     Subscription.currentPeriodEnd := periodEnd;
     Subscription.cancelAtPeriodEnd := Subscription.cancelAtPeriodEnd s;
     Subscription.canceledAt := Subscription.canceledAt s;
     Subscription.endedAt := Subscription.endedAt s;
     Subscription.planChangedAt :=
       if String.eqb (Subscription.planTier existingSub) planTier
       then Subscription.planChangedAt existingSub
       else Some now;
     Subscription.paymentProvider := Subscription.paymentProvider s;
     Subscription.opayTransactionId := Some transactionId;
     Subscription.renewalRequired := Some false;
     Subscription.lastPaymentAmount := Some amountCents;
     Subscription.renewalReminderSentAt := Subscription.renewalReminderSentAt s;
     Subscription.createdAt := Subscription.createdAt s;
     Subscription.updatedAt := now |}.

(** The [values] of the insert of a new subscription; an undefined
    [priceId] leaves the NOT NULL column [stripePriceId] without a value. *)
Definition fresh_subscription (uid : string) (priceId : option string) (planTier : string)
    (now periodEnd : Z) (transactionId : string) (amountCents : Z)
    (id : string) : Res Subscription.t :=
  match priceId with
  | None => Throw (DbError "null value in column stripePriceId")
  | Some p =>
      Ok {| Subscription.id := id;
              Subscription.userId := uid;
              Subscription.stripeSubscriptionId := "opay_" +:+ transactionId;
              Subscription.stripePriceId := p;
              Subscription.planTier := planTier;
              Subscription.previousPlanTier := None;
              Subscription.status := active;
              Subscription.currentPeriodStart := now;
              Subscription.currentPeriodEnd := periodEnd;
              Subscription.cancelAtPeriodEnd := false;
              Subscription.canceledAt := None;
              Subscription.endedAt := None;
              Subscription.planChangedAt := None;
              Subscription.paymentProvider := opaybd;
              Subscription.opayTransactionId := Some transactionId;
              Subscription.renewalRequired := Some false;
              Subscription.lastPaymentAmount := Some amountCents;
              Subscription.renewalReminderSentAt := None;
              Subscription.createdAt := now;
              Subscription.updatedAt := now |}
  end.

Definition activate (planTier : string) (u : User.t) : User.t :=
  {| User.id := User.id u;
     User.name := User.name u;
     User.email := User.email u;
     User.subscriptionStatus := Some active;
     User.planTier := Some planTier |}.

Definition payment_record (uid : string) (subscriptionId : option string) (planTier : string)
    (now : Z) (params : OpayCallbackParams) (amountCents feeCents : Z)
    (id : string) : PaymentHistory.t :=
  {| PaymentHistory.id := id;
     PaymentHistory.userId := Some uid;
     PaymentHistory.stripePaymentIntentId := None;
     PaymentHistory.stripeInvoiceId := None;
     PaymentHistory.subscriptionId := subscriptionId;
     PaymentHistory.amount := amountCents;
     PaymentHistory.currency := "bdt";
     PaymentHistory.status := succeeded;
     PaymentHistory.description :=
       Some ("Subscription payment for " +:+ planTier +:+ " plan");
     PaymentHistory.paymentMethodType := None;
     PaymentHistory.last4 := None;
     PaymentHistory.brand := None;
     PaymentHistory.paidAt := Some now;
     PaymentHistory.paymentProvider := opaybd;
     PaymentHistory.opayTransactionId := Some (transactionId params);
     PaymentHistory.opayPaymentMethod := Some (paymentMethod params);
     PaymentHistory.opayPaymentFee := Some feeCents;
     PaymentHistory.createdAt := now |}.

(** The part of [handlePaymentSuccess] after the two guards: the
    metadata object [m] has a truthy [userId] and [planTier]. *)
Definition credit (params : OpayCallbackParams) (m : Metadata.t)
    (uid planTier : string) : M unit :=
  let* env := ask in
  let now := now env in
  let periodEnd := period_end now (Metadata.billingInterval m) in
  let* existing := Db.select_subscriptions (is_opay_subscription_of uid) in
  let amountCents := Js.Math_round (Js.times (paymentAmount params) 100) in
  let feeCents := Js.Math_round (Js.times (paymentFee params) 100) in
  let* _ :=
    match existing with
    | existingSub :: _ =>
        let* _ :=
          Db.update_subscriptions
            (fun s => String.eqb (Subscription.id s) (Subscription.id existingSub))
            (match Db.integer amountCents with
             | Ok amount =>
                 if Metadata.null_priceId m
                 then Throw (DbError "null value in column stripePriceId")
                 else Ok (renew existingSub (Metadata.priceId m) planTier now periodEnd
                            (transactionId params) amount)
             | Throw e => Throw e
             end) in
        emit (console_log
                ("Updated existing Opaybd subscription: " +:+ Subscription.id existingSub))
    | [] =>
        let* _ :=
          Db.insert_subscriptions
            (fun id =>
               match Db.integer amountCents with
               | Ok amount =>
                   fresh_subscription uid (Metadata.priceId m) planTier now periodEnd
                     (transactionId params) amount id
               | Throw e => Throw e
               end) in
        emit (console_log ("Created new Opaybd subscription for user: " +:+ uid))
    end in
  let* _ := Db.update_users (fun u => String.eqb (User.id u) uid) (activate planTier) in
  let* found := Db.select_subscriptions (is_opay_subscription_of uid) in
  let subscriptionId :=
    match found with
    | s :: _ => if Js.truthy (Some (Subscription.id s)) then Some (Subscription.id s) else None
    | [] => None
    end in
  let* _ :=
    Db.insert_paymentHistory
      (fun id =>
         match Db.integer amountCents, Db.integer feeCents with
         | Ok amount, Ok fee =>
             Ok (payment_record uid subscriptionId planTier now params amount fee id)
         | Throw e, _ | _, Throw e => Throw e
         end) in
  emit (console_log ("Successfully processed Opaybd payment for user: " +:+ uid)).

Definition handlePaymentSuccess (params : OpayCallbackParams) : M unit :=
  let* _ := emit (console_log
                    ("Processing Opaybd payment success: " +:+ transactionId params)) in
  let* verification := verifyPayment (transactionId params) in
  if negb (String.eqb (Verification.status verification) "COMPLETED")
  then throw (Error ("Payment not completed. Status: " +:+ Verification.status verification))
  else
    let metadata := Verification.metadata verification in
    if negb (Js.truthy (meta_field Metadata.userId metadata))
       || negb (Js.truthy (meta_field Metadata.planTier metadata))
    then throw (Error "Invalid payment metadata")
    else
      match metadata with
      | MetaObject m =>
          match Metadata.userId m, Metadata.planTier m with
          | Some uid, Some planTier => credit params m uid planTier
          | _, _ => throw (Error "Invalid payment metadata")
          end
      | _ => throw (Error "Invalid payment metadata")
      end.

Definition needs_renewal (uid : string) (s : Subscription.t) : bool :=
  String.eqb (Subscription.userId s) uid
  && provider_eqb (Subscription.paymentProvider s) opaybd
  && match Subscription.renewalRequired s with
     | Some b => b
     | None => false
     end
  && status_eqb (Subscription.status s) active.

Definition getSubscriptionNeedingRenewal (userId : string) : M (option Subscription.t) :=
  let* found := Db.select_subscriptions (needs_renewal userId) in
  ret (List.head found).

(** Active, not yet flagged, regional-gateway, period ended before [now]. *)
Definition expired (now : Z) (s : Subscription.t) : bool :=
  provider_eqb (Subscription.paymentProvider s) opaybd
  && status_eqb (Subscription.status s) active
  && match Subscription.renewalRequired s with
     | Some b => negb b
     | None => false
     end
  && (Subscription.currentPeriodEnd s <? now).

Definition flag (now : Z) (s : Subscription.t) : Subscription.t :=
  {| Subscription.id := Subscription.id s;
     Subscription.userId := Subscription.userId s;
     Subscription.stripeSubscriptionId := Subscription.stripeSubscriptionId s;
     Subscription.stripePriceId := Subscription.stripePriceId s;
     Subscription.planTier := Subscription.planTier s;
     Subscription.previousPlanTier := Subscription.previousPlanTier s;
     Subscription.status := Subscription.status s;
     Subscription.currentPeriodStart := Subscription.currentPeriodStart s;
     Subscription.currentPeriodEnd := Subscription.currentPeriodEnd s;
     Subscription.cancelAtPeriodEnd := Subscription.cancelAtPeriodEnd s;
     Subscription.canceledAt := Subscription.canceledAt s;
     Subscription.endedAt := Subscription.endedAt s;
     Subscription.planChangedAt := Subscription.planChangedAt s;
     Subscription.paymentProvider := Subscription.paymentProvider s;
     Subscription.opayTransactionId := Subscription.opayTransactionId s;
     Subscription.renewalRequired := Some true;
     Subscription.lastPaymentAmount := Subscription.lastPaymentAmount s;
     Subscription.renewalReminderSentAt := Subscription.renewalReminderSentAt s;
     Subscription.createdAt := Subscription.createdAt s;
     Subscription.updatedAt := now |}.

Definition markExpiredSubscriptionsForRenewal : M Z :=
  let* env := ask in
  let now := now env in
  let* expiredSubs := Db.select_subscriptions (expired now) in
  if Z.of_nat (length expiredSubs) =? 0 then ret 0
  else
    let* _ := Db.update_subscriptions (expired now) (Ok (flag now)) in
    let* _ := emit (console_log
                      ("Marked " +:+ pretty (Z.of_nat (length expiredSubs))
                       +:+ " Opaybd subscription(s) for renewal")) in
    ret (Z.of_nat (length expiredSubs)).

Definition is_active_opay_subscription_of (uid : string) (s : Subscription.t) : bool :=
  String.eqb (Subscription.userId s) uid
  && provider_eqb (Subscription.paymentProvider s) opaybd
  && status_eqb (Subscription.status s) active.

Definition getActiveSubscription (userId : string) : M (option ActiveSubscription) :=
  let* found := Db.select_subscriptions (is_active_opay_subscription_of userId) in
  match found with
  | [] => ret None
  | sub :: _ =>
      let* plans :=
        Db.select_pricingPlans
          (fun p => String.eqb (PricingPlan.stripePriceId p) (Subscription.stripePriceId sub)) in
      ret (Some {| subscription := sub; plan := List.head plans |})
  end.

Definition isConfigured : M bool :=
  try_catch
    (let* env := ask in
     let* settings := lift_res (opaySettings env) in
     ret (Js.truthy (apiKey settings)))
    (fun _ => ret false).

End OpayService.

(* ===================================================================== *)
(** * [PaymentRouter] (src/lib/server/payment-router.ts) *)
(* ===================================================================== *)

(** [CheckoutResult]: an optional field that is not set, or set to
    [undefined], is [None]. *)
Record CheckoutResult := {
  provider : PaymentProvider;
  clientSecret : option string;
  sessionId : option string;
  paymentUrl : option string;
}.

Record CreateCheckoutParams := {
  userId : string;
  priceId : string;
  planId : string;
  successUrl : string;
  cancelUrl : string;
}.

(** A subscription with the provider it was found under:
    [{...subscription, provider}]. *)
Record RoutedSubscription := {
  found : ActiveSubscription;
  found_provider : PaymentProvider;
}.

Record RenewalInfo := {
  planTier : string;
  daysRemaining : Z;
  expiresAt : Z;
}.

Module PaymentRouter.

Definition getActiveProvider : M string :=
  let* env := ask in ret (activePaymentProvider env).

Definition opay_not_configured : string :=
  "Opaybd is selected but not configured. Please configure Opaybd credentials in Admin > Payment Methods.".

Definition createCheckoutSession (params : CreateCheckoutParams) : M CheckoutResult :=
  let* provider := getActiveProvider in
  let* _ := emit (console_log ("Creating checkout session with provider: " +:+ provider)) in
  if String.eqb provider "opaybd" then
    let* isConfigured := OpayService.isConfigured in
    if negb isConfigured then throw (Error opay_not_configured)
    else
      let origin := Js.split_head "/settings/billing" (successUrl params) in
      let opaySuccessUrl := origin +:+ "/api/opaybd/callback" in
      let opayCancelUrl := origin +:+ "/settings/billing?canceled=true&provider=opaybd" in
      let* result :=
        OpayService.createPayment
          {| cp_userId := userId params;
             cp_planId := planId params;
             cp_priceId := priceId params;
             cp_successUrl := opaySuccessUrl;
             cp_cancelUrl := opayCancelUrl |} in
      ret {| provider := opaybd;
             clientSecret := None;
             sessionId := None;
             paymentUrl := Some (CreateResponse.payment_url result) |}
  else
    let* env := ask in
    let* _ := emit (stripe_call "createCheckoutSession") in
    let* session :=
      lift_res (stripe_createCheckoutSession env
                  {| sc_userId := userId params;
                     sc_priceId := priceId params;
                     sc_successUrl := successUrl params;
                     sc_cancelUrl := cancelUrl params |}) in
    ret {| provider := stripe;
           clientSecret := Js.or_else (StripeSession.client_secret session) None;
           sessionId := Some (StripeSession.id session);
           paymentUrl := None |}.

Definition getActiveSubscription (userId : string) : M (option RoutedSubscription) :=
  let* env := ask in
  let* _ := emit (stripe_call "getActiveSubscription") in
  let* stripeSubscription := lift_res (stripe_getActiveSubscription env userId) in
  match stripeSubscription with
  | Some s => ret (Some {| found := s; found_provider := stripe |})
  | None =>
      let* opaySubscription := OpayService.getActiveSubscription userId in
      match opaySubscription with
      | Some s => ret (Some {| found := s; found_provider := opaybd |})
      | None => ret None
      end
  end.

Definition checkRenewalRequired (userId : string) : M (option RenewalInfo) :=
  let* subscription := OpayService.getSubscriptionNeedingRenewal userId in
  match subscription with
  | None => ret None
  | Some sub =>
      let* env := ask in
      let now := now env in
      let expiresAt := Subscription.currentPeriodEnd sub in
      let diffTime := expiresAt - now in
      let daysRemaining := Js.Math_ceil_div diffTime (1000 * 60 * 60 * 24) in
      ret (Some {| planTier :=
                     if Js.truthy (Some (Subscription.planTier sub))
                     then Subscription.planTier sub else "unknown";
                   daysRemaining := daysRemaining;
                   expiresAt := expiresAt |})
  end.

End PaymentRouter.

(* ===================================================================== *)
(** * Plan administration (routes/admin/settings/plans) *)
(* ===================================================================== *)

Module PlanAdmin.

(** The submitted form: its fields in order; [get] takes the first. *)
Definition FormData := list (string * string).

Fixpoint get (data : FormData) (field : string) : option string :=
  match data with
  | [] => None
  | (k, v) :: rest => if String.eqb k field then Some v else get rest field
  end.

(** What an action returns with [fail(status, {error, ...})]; the echoed
    form fields are left out. *)
Record ActionFailure := { fail_status : Z; fail_error : string }.

(** The values both actions compute from the form before they write. *)
Record PlanValues := {
  v_name : string;
  v_tier : string;
  v_stripePriceId : string;
  v_priceAmount : Z;
  v_priceAmountBdt : option Z;
  v_currency : string;
  v_billingInterval : string;
  v_textLimit : option Z;
  v_imageLimit : option Z;
  v_videoLimit : option Z;
  v_audioLimit : option Z;
  v_features : list string;
}.

(** [x === '' || x === undefined || x === null ? null : parseInt(x)],
    then [NaN] replaced by [null]. *)
Definition parse_limit (field : option string) : option Z :=
  match field with
  | None => None
  | Some s => if String.eqb s "" then None else Js.parseInt s
  end.

(** The optional BDT price: [inl] is the validation failure. *)
Definition parse_priceAmountBdt (field : option string) : string + option Z :=
  match field with
  | Some s =>
      if Js.truthy (Some s) && negb (String.eqb (Js.trim s) "") then
        let n := Js.parseInt s in
        if Js.nan_or_negative n
        then inl "BDT price amount must be a valid positive number"
        else inr n
      else inr None
  | None => inr None
  end.

Definition parse_features (field : option string) : list string :=
  match field with
  | Some s =>
      if Js.truthy (Some s)
      then List.filter (fun f => negb (String.eqb f ""))
             (List.map Js.trim (Js.split_char "010" s))
      else []
  | None => []
  end.

Definition one_of (options : list string) (s : string) : bool :=
  List.existsb (String.eqb s) options.

(** The statements the two actions share, from reading the form to the
    parsed values. *)
Definition validate (data : FormData) : ActionFailure + PlanValues :=
  let name := get data "name" in
  let tier := get data "tier" in
  let stripePriceId := get data "stripePriceId" in
  let priceAmount := get data "priceAmount" in
  let priceAmountBdt := get data "priceAmountBdt" in
  let currency :=
    match Js.or_else (get data "currency") (Some "usd") with
    | Some c => c
    | None => "usd"
    end in
  let billingInterval := get data "billingInterval" in
  match name, tier, stripePriceId, priceAmount, billingInterval with
  | Some name, Some tier, Some stripePriceId, Some priceAmount, Some billingInterval =>
      if negb (Js.truthy (Some name)) || negb (Js.truthy (Some tier))
         || negb (Js.truthy (Some stripePriceId)) || negb (Js.truthy (Some priceAmount))
         || negb (Js.truthy (Some billingInterval))
      then inl {| fail_status := 400; fail_error := "Required fields are missing" |}
      else if negb (one_of ["free"; "starter"; "pro"; "advanced"] tier)
      then inl {| fail_status := 400; fail_error := "Invalid tier selected" |}
      else if negb (one_of ["month"; "year"] billingInterval)
      then inl {| fail_status := 400; fail_error := "Invalid billing interval selected" |}
      else
        match Js.parseInt priceAmount with
        | None =>
            inl {| fail_status := 400;
                   fail_error := "Price amount must be a valid positive number" |}
        | Some priceAmountNum =>
            if priceAmountNum <? 0
            then inl {| fail_status := 400;
                        fail_error := "Price amount must be a valid positive number" |}
            else
              match parse_priceAmountBdt priceAmountBdt with
              | inl e => inl {| fail_status := 400; fail_error := e |}
              | inr priceAmountBdtNum =>
                  inr {| v_name := name;
                         v_tier := tier;
                         v_stripePriceId := stripePriceId;
                         v_priceAmount := priceAmountNum;
                         v_priceAmountBdt := priceAmountBdtNum;
                         v_currency := currency;
                         v_billingInterval := billingInterval;
                         v_textLimit := parse_limit (get data "textGenerationLimit");
                         v_imageLimit := parse_limit (get data "imageGenerationLimit");
                         v_videoLimit := parse_limit (get data "videoGenerationLimit");
                         v_audioLimit := parse_limit (get data "audioGenerationLimit");
                         v_features := parse_features (get data "features") |}
              end
        end
  | _, _, _, _, _ =>
      inl {| fail_status := 400; fail_error := "Required fields are missing" |}
  end.

(** The [catch] of both actions: a redirect is thrown on, anything else
    is logged and answered with a failure. *)
Definition on_error (logged message : string) (e : Exn) : M (option ActionFailure) :=
  match e with
  | Redirect 303 _ => throw e
  | HttpError 303 _ => throw e
  | _ =>
      let* _ := emit (console_error logged) in
      ret (Some {| fail_status := 500; fail_error := message |})
  end.

Definition new_plan (v : PlanValues) (now : Z) (id : string) : PricingPlan.t :=
  {| PricingPlan.id := id;
     PricingPlan.name := v_name v;
     PricingPlan.tier := v_tier v;
     PricingPlan.stripePriceId := v_stripePriceId v;
     PricingPlan.priceAmount := v_priceAmount v;
     PricingPlan.priceAmountBdt := v_priceAmountBdt v;
     PricingPlan.currency := v_currency v;
     PricingPlan.billingInterval := v_billingInterval v;
     PricingPlan.textGenerationLimit := v_textLimit v;
     PricingPlan.imageGenerationLimit := v_imageLimit v;
     PricingPlan.videoGenerationLimit := v_videoLimit v;
     PricingPlan.audioGenerationLimit := v_audioLimit v;
     PricingPlan.features := v_features v;
     PricingPlan.isActive := true;
     PricingPlan.createdAt := now;
     PricingPlan.updatedAt := now |}.

Definition edited_plan (v : PlanValues) (isActive : bool) (now : Z)
    (p : PricingPlan.t) : PricingPlan.t :=
  {| PricingPlan.id := PricingPlan.id p;
     PricingPlan.name := v_name v;
     PricingPlan.tier := v_tier v;
     PricingPlan.stripePriceId := v_stripePriceId v;
     PricingPlan.priceAmount := v_priceAmount v;
     PricingPlan.priceAmountBdt := v_priceAmountBdt v;
     PricingPlan.currency := v_currency v;
     PricingPlan.billingInterval := v_billingInterval v;
     PricingPlan.textGenerationLimit := v_textLimit v;
     PricingPlan.imageGenerationLimit := v_imageLimit v;
     PricingPlan.videoGenerationLimit := v_videoLimit v;
     PricingPlan.audioGenerationLimit := v_audioLimit v;
     PricingPlan.features := v_features v;
     PricingPlan.isActive := isActive;
     PricingPlan.createdAt := PricingPlan.createdAt p;
     PricingPlan.updatedAt := now |}.

(** The integers of the form fit the 32-bit columns they are bound to. *)
Definition values_in_range (v : PlanValues) : bool :=
  Db.int4 (v_priceAmount v) && Db.int4_opt (v_priceAmountBdt v)
  && Db.int4_opt (v_textLimit v) && Db.int4_opt (v_imageLimit v)
  && Db.int4_opt (v_videoLimit v) && Db.int4_opt (v_audioLimit v).

(** The [set] of action [update], as the database takes it. *)
Definition edited (v : PlanValues) (isActive : bool) (now : Z)
  : Res (PricingPlan.t -> PricingPlan.t) :=
  if values_in_range v then Ok (edited_plan v isActive now)
  else Throw (DbError "integer out of range").

(** Action [create]: [Ok (Some f)] is [return fail(...)]; leaving with
    the redirect is [Throw (Redirect 303 _)]. *)
Definition create (data : FormData) : M (option ActionFailure) :=
  let* env := ask in
  if demoMode env
  then ret (Some {| fail_status := 403; fail_error := ADMIN_SAVE_DISABLED env |})
  else
    match validate data with
    | inl failure => ret (Some failure)
    | inr v =>
        try_catch
          (let* _ := Db.insert_pricingPlans (new_plan v (now env)) in
           throw (Redirect 303 "/admin/settings/plans"))
          (on_error "Error creating plan:" "Failed to create plan")
    end.

(** Action [update] of the plan [params.id]. *)
Definition update (id : option string) (data : FormData) : M (option ActionFailure) :=
  let* env := ask in
  if demoMode env
  then ret (Some {| fail_status := 403; fail_error := ADMIN_SAVE_DISABLED env |})
  else
    match id with
    | None => throw (HttpError 404 "Plan not found")
    | Some planId =>
        if negb (Js.truthy (Some planId)) then throw (HttpError 404 "Plan not found")
        else
          let isActive :=
            match get data "isActive" with
            | Some v => String.eqb v "on"
            | None => false
            end in
          match validate data with
          | inl failure => ret (Some failure)
          | inr v =>
              try_catch
                (let* _ :=
                   Db.update_pricingPlans
                     (fun p => String.eqb (PricingPlan.id p) planId)
                     (edited v isActive (now env)) in
                 throw (Redirect 303 "/admin/settings/plans"))
                (on_error "Error updating plan:" "Failed to update plan")
          end
    end.


End PlanAdmin.

(* ===================================================================== *)
(** * Usage quota ([UsageTrackingService]) *)
(* ===================================================================== *)

Module UsageTrackingService.

(** The four metered categories. *)
Inductive Category := text | image | video | audio.

(** The counters of a row of table [usage_tracking]. *)
Record Counters := {
  textGenerationCount : Z;
  imageGenerationCount : Z;
  videoGenerationCount : Z;
  audioGenerationCount : Z;
}.

(** The default of the four counter columns. *)
Definition zero : Counters :=
  {| textGenerationCount := 0; imageGenerationCount := 0;
     videoGenerationCount := 0; audioGenerationCount := 0 |}.

(** Table [usage_tracking]: at most one row per (user, month, year), the
    unique constraint of the schema. *)
Abbreviation Usage := (gmap (string * (Z * Z)) Counters).

Definition count (c : Category) (r : Counters) : Z :=
  match c with
  | text => textGenerationCount r
  | image => imageGenerationCount r
  | video => videoGenerationCount r
  | audio => audioGenerationCount r
  end.

Definition limit (c : Category) (p : PricingPlan.t) : option Z :=
  match c with
  | text => PricingPlan.textGenerationLimit p
  | image => PricingPlan.imageGenerationLimit p
  | video => PricingPlan.videoGenerationLimit p
  | audio => PricingPlan.audioGenerationLimit p
  end.

Definition increment (c : Category) (r : Counters) : Counters :=
  match c with
  | text =>
      {| textGenerationCount := textGenerationCount r + 1;
         imageGenerationCount := imageGenerationCount r;
         videoGenerationCount := videoGenerationCount r;
         audioGenerationCount := audioGenerationCount r |}
  | image =>
      {| textGenerationCount := textGenerationCount r;
         imageGenerationCount := imageGenerationCount r + 1;
         videoGenerationCount := videoGenerationCount r;
         audioGenerationCount := audioGenerationCount r |}
  | video =>
      {| textGenerationCount := textGenerationCount r;
         imageGenerationCount := imageGenerationCount r;
         videoGenerationCount := videoGenerationCount r + 1;
         audioGenerationCount := audioGenerationCount r |}
  | audio =>
      {| textGenerationCount := textGenerationCount r;
         imageGenerationCount := imageGenerationCount r;
         videoGenerationCount := videoGenerationCount r;
         audioGenerationCount := audioGenerationCount r + 1 |}
  end.

(** The typed error the routes catch; they read its [remainingQuota]. *)
Record UsageLimitError := { remainingQuota : Z }.

Section Service.

(** The plan of a user.  How the service finds it (from the user's
    tier) is not described; it is taken as given. *)
Variable planOf : string -> PricingPlan.t.

(** The counter of the category in the row of the month, zero while the
    row does not exist. *)
Definition current (usage : Usage) (userId : string) (month year : Z) (c : Category) : Z :=
  match usage !! (userId, (month, year)) with
  | Some r => count c r
  | None => 0
  end.

(** Modelled from the spec: [src/lib/server/usage-tracking.ts] is not
    among the sources (only its callers are).  Section 4.3: load the
    counter of the current month and year for the category (zero before
    the row exists), load the limit of the user's plan for the
    category; if the limit is non-null and the counter is at least the
    limit, fail with the typed error carrying the remaining quota, [0];
    otherwise return normally, without mutation.  The month and year
    are those of the clock at the call. *)
Definition checkUsageLimit (userId : string) (c : Category) (month year : Z)
    (usage : Usage) : (UsageLimitError + unit) * Usage :=
  match limit c (planOf userId) with
  | Some l =>
      if l <=? current usage userId month year c
      then (inl {| remainingQuota := 0 |}, usage)
      else (inr tt, usage)
  | None => (inr tt, usage)
  end.

(** Modelled from the spec: [src/lib/server/usage-tracking.ts] is not
    among the sources.  Section 4.3: increment the counter of the
    category for the current month and year, creating the row if
    absent (upsert on the unique triple). *)
Definition trackUsage (userId : string) (c : Category) (month year : Z)
    (usage : Usage) : Usage :=
  <[ (userId, (month, year)) :=
       increment c (default zero (usage !! (userId, (month, year)))) ]> usage.

End Service.

End UsageTrackingService.

(* ===================================================================== *)
(** * More built-ins: [parseFloat], [encodeURIComponent] *)
(* ===================================================================== *)


Module JsText.

Definition code (c : ascii) : Z := Z.of_nat (nat_of_ascii c).

Definition is_digit (c : ascii) : bool := (48 <=? code c) && (code c <=? 57).

(** The longest prefix of decimal digits, and what follows it. *)
Fixpoint span_digits (s : string) : string * string :=
  match s with
  | String c r =>
      if is_digit c
      then let '(d, rest) := span_digits r in (String c d, rest)
      else (EmptyString, s)
  | EmptyString => (EmptyString, EmptyString)
  end.

(** The value of a string of decimal digits read after [acc]. *)
Fixpoint digits_value (s : string) (acc : Z) : Z :=
  match s with
  | String c r => digits_value r (acc * 10 + (code c - 48))
  | EmptyString => acc
  end.

(** The [ExponentPart] at the head of [s], 0 when there is none. *)
Definition exponent (s : string) : Z :=
  match s with
  | String c r =>
      if (code c =? 101) || (code c =? 69) then
        let '(sign, r') :=
          match r with
          | String "-" t => (-1, t)
          | String "+" t => (1, t)
          | _ => (1, r)
          end in
        let '(digits, _) := span_digits r' in
        if String.eqb digits "" then 0 else sign * digits_value digits 0
      else 0
  | EmptyString => 0
  end.

(** [parseFloat(s)]: the longest prefix of [s], after leading white space,
    that is a decimal literal or [Infinity], as the nearest binary64 value;
    [NaN] when there is none. *)
Definition parseFloat (s : string) : Js.number :=
  let s1 := Js.trimStart s in
  let '(sign, s2) :=
    match s1 with
    | String "-" r => (-1, r)
    | String "+" r => (1, r)
    | _ => (1, s1)
    end in
  if Js.is_prefix "Infinity" s2 then Js.infinity (sign <? 0)
  else
    let '(int_part, r1) := span_digits s2 in
    let '(frac_part, r2) :=
      match r1 with
      | String "." r => span_digits r
      | _ => (EmptyString, r1)
      end in
    if String.eqb int_part "" && String.eqb frac_part "" then Js.NaN
    else
      let mantissa := sign * digits_value (int_part +:+ frac_part) 0 in
      let scale := exponent r2 - Z.of_nat (String.length frac_part) in
      Js.binary64
        (if 0 <=? scale
         then inject_Z (mantissa * 10 ^ scale)
         else mantissa # Z.to_pos (10 ^ (- scale))).

(** Truthiness of a number: [NaN] and the zeros are falsy. *)
Definition truthy (x : Js.number) : bool :=
  match x with
  | Js.finite q => negb (Qnum q =? 0)
  | Js.infinity _ => true
  | Js.NaN => false
  end.

(** [a || b] on numbers. *)
Definition or_else (a b : Js.number) : Js.number := if truthy a then a else b.

(** [a || b] on strings, [b] a string. *)
Definition or_default (a : option string) (b : string) : string :=
  match a with
  | Some s => if Js.truthy a then s else b
  | None => b
  end.

(** [v === s] for a string [s]. *)
Definition strict_eq (v : option string) (s : string) : bool :=
  match v with
  | Some x => String.eqb x s
  | None => false
  end.

(** The characters [encodeURIComponent] leaves alone. *)
Definition unreserved (c : ascii) : bool :=
  let n := code c in
  ((48 <=? n) && (n <=? 57)) || ((65 <=? n) && (n <=? 90)) || ((97 <=? n) && (n <=? 122))
  || (n =? 45) || (n =? 95) || (n =? 46) || (n =? 33) || (n =? 126) || (n =? 42)
  || (n =? 39) || (n =? 40) || (n =? 41).

Definition hex_digit (n : Z) : ascii :=
  ascii_of_nat (Z.to_nat (if n <? 10 then 48 + n else 55 + n)).

Definition percent (byte : Z) : string :=
  String "%" (String (hex_digit (byte / 16)) (String (hex_digit (byte mod 16)) EmptyString)).

(** [encodeURIComponent(s)]: every other code unit is replaced by the
    escapes of its UTF-8 bytes (two bytes from 128 on). *)
Fixpoint encodeURIComponent (s : string) : string :=
  match s with
  | EmptyString => EmptyString
  | String c r =>
      (if unreserved c then String c EmptyString
       else if code c <? 128 then percent (code c)
       else percent (192 + code c / 64) +:+ percent (128 + code c mod 64))
      +:+ encodeURIComponent r
  end.

End JsText.

(* ===================================================================== *)
(** * The gateway's callback (src/unnamed/part_010, served at /api/opaybd/callback) *)
(* ===================================================================== *)

(** In the framework these handlers run under, [redirect(status, location)]
    and [error(status, message)] do not return: they throw.  The handlers
    call them as statements and rely on that (the callback narrows
    [transactionId] with it and marks its last line as not reached). A
    [catch] without a test for redirects therefore catches them too. *)
Module OpayCallback.

(** [url.searchParams]: the decoded query pairs in order; [get] takes the
    first. *)
Definition SearchParams := list (string * string).

Definition failed_url : string := "/settings/billing?opay_failed=true".

Definition success_url (planTier : string) : string :=
  "/settings/billing?opay_success=true&plan_tier=" +:+ JsText.encodeURIComponent planTier.

Definition pending_url (transactionId : string) : string :=
  "/settings/billing?opay_pending=true&transaction_id="
  +:+ JsText.encodeURIComponent transactionId.

(** [redirect(status, location)] as a statement. *)
Definition redirect (status : Z) (location : string) : M unit :=
  throw (Redirect status location).

Definition GET (searchParams : SearchParams) : M unit :=
  let transactionId := PlanAdmin.get searchParams "transactionId" in
  let paymentMethod := JsText.or_default (PlanAdmin.get searchParams "paymentMethod") "unknown" in
  let paymentAmount :=
    JsText.parseFloat (JsText.or_default (PlanAdmin.get searchParams "paymentAmount") "0") in
  let paymentFee :=
    JsText.parseFloat (JsText.or_default (PlanAdmin.get searchParams "paymentFee") "0") in
  let status := PlanAdmin.get searchParams "status" in
  let* _ := emit (console_log "Opaybd callback received:") in
  match transactionId with
  | None =>
      let* _ := emit (console_error "Opaybd callback missing transactionId") in
      redirect 302 "/settings/billing?error=missing_transaction&provider=opaybd"
  | Some transactionId =>
    if negb (Js.truthy (Some transactionId)) then
      let* _ := emit (console_error "Opaybd callback missing transactionId") in
      redirect 302 "/settings/billing?error=missing_transaction&provider=opaybd"
    else
      let* _ :=
        try_catch
          (if JsText.strict_eq status "success" then
               let* verification := OpayService.verifyPayment transactionId in
               let planTier :=
                 JsText.or_default
                   (meta_field Metadata.planTier (Verification.metadata verification)) "" in
               let* _ :=
                 OpayService.handlePaymentSuccess
                   {| transactionId := transactionId;
                      paymentMethod := paymentMethod;
                      paymentAmount := paymentAmount;
                      paymentFee := paymentFee |} in
               let* _ := emit (console_log
                                 ("Opaybd payment processed successfully: " +:+ transactionId)) in
               redirect 302 (success_url planTier)
           else if JsText.strict_eq status "failed" then
               let* _ := emit (console_log ("Opaybd payment failed: " +:+ transactionId)) in
               redirect 302 failed_url
           else
               let* _ := emit (console_log
                                 ("Opaybd payment pending, verifying with API: "
                                  +:+ transactionId)) in
               try_catch
                 (let* verification := OpayService.verifyPayment transactionId in
                  let planTier :=
                    JsText.or_default
                      (meta_field Metadata.planTier (Verification.metadata verification)) "" in
                  if String.eqb (Verification.status verification) "COMPLETED" then
                    let* _ :=
                      OpayService.handlePaymentSuccess
                        {| transactionId := transactionId;
                           paymentMethod :=
                             JsText.or_default
                               (Some (Verification.payment_method verification)) paymentMethod;
                           paymentAmount :=
                             JsText.or_else
                               (JsText.parseFloat (Verification.amount verification))
                               paymentAmount;
                           paymentFee := paymentFee |} in
                    let* _ := emit (console_log
                                      ("Opaybd payment verified and processed: "
                                       +:+ transactionId)) in
                    redirect 302 (success_url planTier)
                  else if String.eqb (Verification.status verification) "ERROR" then
                    let* _ := emit (console_log
                                      ("Opaybd payment verification returned error: "
                                       +:+ transactionId)) in
                    redirect 302 failed_url
                  else
                    let* _ := emit (console_log
                                      ("Opaybd payment still pending: " +:+ transactionId)) in
                    redirect 302 (pending_url transactionId))
                 (fun verifyError =>
                    let* _ := emit (console_error "Error verifying Opaybd payment:") in
                    redirect 302 (pending_url transactionId)))
          (fun error =>
             let* _ := emit (console_error "Error processing Opaybd callback:") in
             redirect 302 failed_url) in
      redirect 302 "/settings/billing"
  end.

End OpayCallback.

(* ===================================================================== *)
(** * The verification endpoint (routes/api/opaybd/verify/+server.ts) *)
(* ===================================================================== *)

Module OpayVerify.

(** The body of a [json(...)] answer. *)
Record Answer := {
  status : string;
  message : string;
  planTier : option string;
}.

Definition generic_failure : string := "Failed to verify payment. Please try again later.".

(** [error(status, message)] as a statement. *)
Definition error (status : Z) (message : string) : M Answer :=
  throw (HttpError status message).

(** [POST]: [sessionUserId] is [session?.user?.id]; [body] is the
    [transactionId] of the JSON body, [None] when the body does not
    parse. *)
Definition POST (sessionUserId : option string) (body : option (option string)) : M Answer :=
  match sessionUserId with
  | None => error 401 "Unauthorized"
  | Some user =>
    if negb (Js.truthy (Some user)) then error 401 "Unauthorized"
    else
      try_catch
        (match body with
         | None => throw (A := Answer) (Error "Unexpected token in JSON")
         | Some transactionId =>
           match transactionId with
           | None => error 400 "Transaction ID is required"
           | Some transactionId =>
             if negb (Js.truthy (Some transactionId))
             then error 400 "Transaction ID is required"
             else
               let* _ := emit (console_log ("Verifying Opaybd payment: " +:+ transactionId)) in
               let* verification := OpayService.verifyPayment transactionId in
               if String.eqb (Verification.status verification) "COMPLETED" then
                 let owner := meta_field Metadata.userId (Verification.metadata verification) in
                 if negb (JsText.strict_eq owner user)
                 then
                   let* _ := emit (console_warn "Payment verification userId mismatch:") in
                   error 403 "This payment does not belong to your account"
                 else
                   let* _ :=
                     OpayService.handlePaymentSuccess
                       {| transactionId := transactionId;
                          paymentMethod :=
                            JsText.or_default
                              (Some (Verification.payment_method verification)) "unknown";
                          paymentAmount :=
                            JsText.or_else
                              (JsText.parseFloat (Verification.amount verification))
                              (Js.finite 0);
                          paymentFee := Js.finite 0 |} in
                   ret {| status := "success";
                          message := "Payment verified and processed successfully";
                          planTier :=
                            meta_field Metadata.planTier (Verification.metadata verification) |}
               else if String.eqb (Verification.status verification) "PENDING" then
                 ret {| status := "pending";
                        message := "Payment is still pending. Please try again later.";
                        planTier := None |}
               else
                 ret {| status := "failed";
                        message := "Payment verification failed or was rejected.";
                        planTier := None |}
           end
         end)
        (fun err =>
           let* _ := emit (console_error "Error verifying Opaybd payment:") in
           error 500 generic_failure)
  end.

End OpayVerify.

(* ===================================================================== *)
(** * The plan list's action (routes/admin/settings/plans/+page.server.ts) *)
(* ===================================================================== *)

Module PlanList.

Definition free_plan (now : Z) (id : string) : PricingPlan.t :=
  {| PricingPlan.id := id;
     PricingPlan.name := "Free plan";
     PricingPlan.tier := "free";
     PricingPlan.stripePriceId := "free_plan_default";
     PricingPlan.priceAmount := 0;
     PricingPlan.priceAmountBdt := None;
     PricingPlan.currency := "usd";
     PricingPlan.billingInterval := "month";
     PricingPlan.textGenerationLimit := Some 50;
     PricingPlan.imageGenerationLimit := Some 25;
     PricingPlan.videoGenerationLimit := Some 10;
     PricingPlan.audioGenerationLimit := Some 10;
     PricingPlan.features := ["Free plan"];
     PricingPlan.isActive := true;
     PricingPlan.createdAt := now;
     PricingPlan.updatedAt := now |}.

(** Action [seedFreePlan]. *)
Definition seedFreePlan : M (option PlanAdmin.ActionFailure) :=
  let* env := ask in
  if demoMode env
  then ret (Some {| PlanAdmin.fail_status := 403;
                    PlanAdmin.fail_error := ADMIN_SAVE_DISABLED env |})
  else
    try_catch
      (let* _ := Db.insert_pricingPlans (free_plan (now env)) in
       throw (Redirect 303 "/admin/settings/plans"))
      (PlanAdmin.on_error "Error seeding free plan:" "Failed to seed free plan").

End PlanList.

(* ===================================================================== *)
(** * Payment settings (routes/admin/settings/payment-methods) *)
(* ===================================================================== *)

Module PaymentMethodsAdmin.

(** The fields of the submitted form. *)
Record Form := {
  activeProvider : option string;
  environment : option string;
  stripePublishableKey : option string;
  stripeSecretKey : option string;
  stripeWebhookSecret : option string;
  opayApiKey : option string;
}.

Definition read (data : PlanAdmin.FormData) : Form :=
  {| activeProvider := PlanAdmin.get data "activeProvider";
     environment := PlanAdmin.get data "environment";
     stripePublishableKey := PlanAdmin.get data "stripePublishableKey";
     stripeSecretKey := PlanAdmin.get data "stripeSecretKey";
     stripeWebhookSecret := PlanAdmin.get data "stripeWebhookSecret";
     opayApiKey := PlanAdmin.get data "opayApiKey" |}.

(** [key && !key.startsWith(prefix)] *)
Definition bad_prefix (key : option string) (prefix : string) : bool :=
  match key with
  | Some k => Js.truthy key && negb (Js.is_prefix prefix k)
  | None => false
  end.

(** The validations of action [update], in order: the message of the
    first that fails (each is answered with status 400). *)
Definition validate (f : Form) : option string :=
  match activeProvider f with
  | None => Some "Invalid payment provider selection"
  | Some provider =>
    if negb (Js.truthy (Some provider)) || negb (PlanAdmin.one_of ["stripe"; "opaybd"] provider)
    then Some "Invalid payment provider selection"
    else
      match environment f with
      | None => Some "Invalid Stripe environment selection"
      | Some env =>
        if negb (Js.truthy (Some env)) || negb (PlanAdmin.one_of ["test"; "live"] env)
        then Some "Invalid Stripe environment selection"
        else
          let pk := if String.eqb env "test" then "pk_test_" else "pk_live_" in
          let sk := if String.eqb env "test" then "sk_test_" else "sk_live_" in
          if bad_prefix (stripePublishableKey f) pk
          then Some ("Stripe publishable key must start with " +:+ pk)
          else if bad_prefix (stripeSecretKey f) sk
          then Some ("Stripe secret key must start with " +:+ sk)
          else if bad_prefix (stripeWebhookSecret f) "whsec_"
          then Some "Stripe webhook secret must start with whsec_"
          else if String.eqb provider "opaybd" && negb (Js.truthy (opayApiKey f))
          then Some "Opaybd API Key is required when Opaybd is the active provider"
          else None
      end
  end.

(** The settings as they are stored ([getPaymentSettings],
    [getOpaySettings], [getActivePaymentProvider]). *)
Record Current := {
  cur_activeProvider : string;
  cur_environment : option string;
  cur_stripe_publishable_key : option string;
  cur_stripe_secret_key : option string;
  cur_stripe_webhook_secret : option string;
  cur_opay_api_key : option string;
}.

Definition or_empty (v : option string) : string := JsText.or_default v "".

(** [shouldSaveValue(newValue, currentValue)] *)
Definition shouldSaveValue (newValue currentValue : option string) : bool :=
  let trimmedNew := Js.trim (or_empty newValue) in
  let trimmedCurrent := Js.trim (or_empty currentValue) in
  Js.truthy (Some trimmedNew) && negb (String.eqb trimmedNew trimmedCurrent).

(** An entry of [settingsToSave]: key and value. *)
Definition Setting := (string * string)%type.

Definition save_if (b : bool) (key value : string) : list Setting :=
  if b then [(key, value)] else [].

(** [settingsToSave] of action [update], for a form that passed the
    validations. *)
Definition settingsToSave (f : Form) (cur : Current) : list Setting :=
  save_if (Js.truthy (activeProvider f)
           && negb (String.eqb (or_empty (activeProvider f)) (cur_activeProvider cur)))
    "active_payment_provider" (or_empty (activeProvider f))
  ++ save_if (Js.truthy (environment f)
              && negb (String.eqb (or_empty (environment f)) (or_empty (cur_environment cur))))
       "environment" (or_empty (environment f))
  ++ save_if (shouldSaveValue (stripePublishableKey f) (cur_stripe_publishable_key cur))
       "stripe_publishable_key" (Js.trim (or_empty (stripePublishableKey f)))
  ++ save_if (shouldSaveValue (stripeSecretKey f) (cur_stripe_secret_key cur))
       "stripe_secret_key" (Js.trim (or_empty (stripeSecretKey f)))
  ++ save_if (shouldSaveValue (stripeWebhookSecret f) (cur_stripe_webhook_secret cur))
       "stripe_webhook_secret" (Js.trim (or_empty (stripeWebhookSecret f)))
  ++ save_if (shouldSaveValue (opayApiKey f) (cur_opay_api_key cur))
       "opay_api_key" (Js.trim (or_empty (opayApiKey f))).

End PaymentMethodsAdmin.


(* ===================================================================== *)
(** * The checkout endpoint (src/unnamed/part_004) *)
(* ===================================================================== *)

Module Checkout.

(** The body of the [json(...)] answer, by provider. *)
Inductive Answer :=
| to_opaybd (redirectUrl : option string)
| to_stripe (clientSecret sessionId : option string).

Definition failure : string := "Failed to create checkout session".

(** [error(status, message)]: it throws, so the [return] in front of it
    returns nothing. *)
Definition error (status : Z) (message : string) : M Answer :=
  throw (HttpError status message).

Section Route.

(** [isValidPriceId] and [getPlanByPriceId] of
    [$lib/server/pricing-plans-seeder.js]. *)
Variable isValidPriceId : string -> M bool.
Variable getPlanByPriceId : string -> M (option PricingPlan.t).

(** [POST]: [sessionUserId] is [session?.user?.id]; [body] is the
    [priceId] of the JSON body when it is a string, [Some None] when it is
    absent or not a string, [None] when the body does not parse; [origin]
    is [url.origin]. *)
Definition POST (sessionUserId : option string) (body : option (option string))
    (origin : string) : M Answer :=
  try_catch
    (match sessionUserId with
     | None => error 401 "Unauthorized"
     | Some user =>
       if negb (Js.truthy (Some user)) then error 401 "Unauthorized"
       else
         match body with
         | None => throw (A := Answer) (Error "Unexpected token in JSON")
         | Some None => error 400 "Price ID is required"
         | Some (Some priceId) =>
           if negb (Js.truthy (Some priceId)) then error 400 "Price ID is required"
           else
             let* isValid := isValidPriceId priceId in
             if negb isValid then error 400 "Invalid price ID"
             else
               let* plan := getPlanByPriceId priceId in
               match plan with
               | None => error 400 "Plan not found for price ID"
               | Some plan =>
                 let* result :=
                   PaymentRouter.createCheckoutSession
                     {| userId := user;
                        priceId := priceId;
                        planId := PricingPlan.id plan;
                        successUrl :=
                          origin +:+ "/settings/billing?session_id={CHECKOUT_SESSION_ID}";
                        cancelUrl := origin +:+ "/settings/billing?canceled=true" |} in
                 match provider result with
                 | opaybd => ret (to_opaybd (paymentUrl result))
                 | stripe => ret (to_stripe (clientSecret result) (sessionId result))
                 end
               end
         end
     end)
    (fun err =>
       let* _ := emit (console_error "Error creating checkout session:") in
       error 500 failure).

End Route.

End Checkout.
(* ===================================================================== *)
(** * A concrete deployment, for the examples *)
(* ===================================================================== *)

Module Sample.

Definition alice : User.t :=
  {| User.id := "u1"; User.name := Some "Alice"; User.email := Some "alice@example.com";
     User.subscriptionStatus := Some incomplete; User.planTier := Some "free" |}.

(** A monthly plan with a BDT price and one without. *)
Definition pro : PricingPlan.t :=
  {| PricingPlan.id := "plan-pro"; PricingPlan.name := "Pro"; PricingPlan.tier := "pro";
     PricingPlan.stripePriceId := "price_pro"; PricingPlan.priceAmount := 1999;
     PricingPlan.priceAmountBdt := Some 220000; PricingPlan.currency := "usd";
     PricingPlan.billingInterval := "month";
     PricingPlan.textGenerationLimit := None; PricingPlan.imageGenerationLimit := Some 100;
     PricingPlan.videoGenerationLimit := Some 10; PricingPlan.audioGenerationLimit := Some 3;
     PricingPlan.features := ["Everything"]; PricingPlan.isActive := true;
     PricingPlan.createdAt := 0; PricingPlan.updatedAt := 0 |}.

Definition starter : PricingPlan.t :=
  {| PricingPlan.id := "plan-starter"; PricingPlan.name := "Starter";
     PricingPlan.tier := "starter";
     PricingPlan.stripePriceId := "price_starter"; PricingPlan.priceAmount := 999;
     PricingPlan.priceAmountBdt := None; PricingPlan.currency := "usd";
     PricingPlan.billingInterval := "year";
     PricingPlan.textGenerationLimit := Some 50; PricingPlan.imageGenerationLimit := Some 0;
     PricingPlan.videoGenerationLimit := Some 0; PricingPlan.audioGenerationLimit := Some 0;
     PricingPlan.features := []; PricingPlan.isActive := true;
     PricingPlan.createdAt := 0; PricingPlan.updatedAt := 0 |}.

Definition db0 : Database :=
  {| users_rows := [alice];
     pricingPlans_rows := [pro; starter];
     subscriptions_rows := [];
     paymentHistory_rows := [];
     uuids_drawn := 0 |}.

Definition meta_pro : Metadata.t :=
  {| Metadata.userId := Some "u1"; Metadata.planId := Some "plan-pro";
     Metadata.priceId := Some "price_pro"; Metadata.priceId_is_null := false;
     Metadata.planTier := Some "pro";
     Metadata.originalAmountCents := Some 1999; Metadata.billingInterval := Some "month" |}.

(** The gateway's answer about a transaction, with the metadata still
    JSON-encoded; the text ["{meta_pro}"] stands for the encoding of
    [meta_pro]. *)
Definition answer (status : string) : Verification.t :=
  {| Verification.status := status; Verification.cus_name := "Alice";
     Verification.cus_email := "alice@example.com"; Verification.amount := "2200";
     Verification.transaction_id := "tx1"; Verification.payment_method := "bKash";
     Verification.metadata := MetaString "{meta_pro}" |}.

(** [2024-01-31T00:00:00Z] and the next day. *)
Definition jan31 : Z := 1706659200000.
Definition feb01 : Z := 1706745600000.

(** A deployment: the selected provider, the gateway's API key, the client
    secret of the Stripe sessions, the subscription Stripe reports, the
    clock, the status the gateway reports for every transaction, and
    whether the metadata string parses. *)
Definition deployment (provider : string) (key : option string)
    (secret : option string) (stripeSub : option ActiveSubscription)
    (now : Z) (status : string) (decodes : bool) : Env :=
  {| now := now;
     activePaymentProvider := provider;
     opaySettings := Ok {| apiKey := key |};
     opay_create := fun _ =>
       HttpOk {| CreateResponse.status := true; CreateResponse.message := None;
                 CreateResponse.payment_url := "https://pay.opaybd.com/p/1" |};
     opay_verify := fun _ => HttpOk (answer status);
     JSON_parse := fun s =>
       if decodes && String.eqb s "{meta_pro}" then Some (MetaObject meta_pro) else None;
     URL_origin := fun s => Some (Js.split_head "/api/" s);
     stripe_createCheckoutSession := fun _ =>
       Ok {| StripeSession.id := "cs_1"; StripeSession.client_secret := secret |};
     stripe_getActiveSubscription := fun _ => Ok stripeSub;
     randomUUID := fun n => "uuid-" +:+ pretty n;
     demoMode := false;
     ADMIN_SAVE_DISABLED := "Saving is disabled in demo mode" |}.

(** The gateway selected and configured. *)
Definition env_at (now : Z) (status : string) (decodes : bool) : Env :=
  deployment "opaybd" (Some "key") (Some "cs_1_secret") None now status decodes.

Definition checkout : CreateCheckoutParams :=
  {| userId := "u1"; priceId := "price_pro"; planId := "plan-pro";
     successUrl := "https://app.example.com/settings/billing?session_id={CHECKOUT_SESSION_ID}";
     cancelUrl := "https://app.example.com/settings/billing?canceled=true" |}.

(** A subscription row of [uid] under [provider], ending at [periodEnd]. *)
Definition subscription_of (id uid : string) (provider : PaymentProvider)
    (renewalRequired : bool) (periodEnd : Z) : Subscription.t :=
  {| Subscription.id := id; Subscription.userId := uid;
     Subscription.stripeSubscriptionId := "sub_" +:+ id;
     Subscription.stripePriceId := "price_pro"; Subscription.planTier := "pro";
     Subscription.previousPlanTier := None; Subscription.status := active;
     Subscription.currentPeriodStart := 0; Subscription.currentPeriodEnd := periodEnd;
     Subscription.cancelAtPeriodEnd := false; Subscription.canceledAt := None;
     Subscription.endedAt := None; Subscription.planChangedAt := None;
     Subscription.paymentProvider := provider; Subscription.opayTransactionId := None;
     Subscription.renewalRequired := Some renewalRequired;
     Subscription.lastPaymentAmount := None; Subscription.renewalReminderSentAt := None;
     Subscription.createdAt := 0; Subscription.updatedAt := 0 |}.

Definition with_subscriptions (rows : list Subscription.t) : Database :=
  Db.with_subscriptions rows db0.

(** The form of a new plan, with the BDT price field left blank. *)
Definition basic_form : PlanAdmin.FormData :=
  [("name", "Basic"); ("tier", "starter"); ("stripePriceId", "price_basic");
   ("priceAmount", "500"); ("priceAmountBdt", "  "); ("billingInterval", "month");
   ("audioGenerationLimit", "5")].

(** What the validations make of [basic_form]. *)
Definition basic_values : PlanAdmin.PlanValues :=
  {| PlanAdmin.v_name := "Basic"; PlanAdmin.v_tier := "starter";
     PlanAdmin.v_stripePriceId := "price_basic"; PlanAdmin.v_priceAmount := 500;
     PlanAdmin.v_priceAmountBdt := None; PlanAdmin.v_currency := "usd";
     PlanAdmin.v_billingInterval := "month";
     PlanAdmin.v_textLimit := None; PlanAdmin.v_imageLimit := None;
     PlanAdmin.v_videoLimit := None; PlanAdmin.v_audioLimit := Some 5;
     PlanAdmin.v_features := [] |}.

Definition pay_for (planId priceId : string) : OpayPaymentCreateParams :=
  {| cp_userId := "u1"; cp_planId := planId; cp_priceId := priceId;
     cp_successUrl := "https://app.example.com/api/opaybd/callback";
     cp_cancelUrl := "https://app.example.com/settings/billing?canceled=true&provider=opaybd" |}.

Definition callback : OpayCallbackParams :=
  {| transactionId := "tx1"; paymentMethod := "bKash";
     paymentAmount := Js.finite (2200 # 1); paymentFee := Js.finite (33 # 1) |}.




End Sample.

(* ===================================================================== *)
(** * Properties *)
(* ===================================================================== *)

Definition no_db_write (evs : list Event) : Prop :=
  Forall (fun e => is_db_write e = false) evs.

(** The metadata has no truthy [userId] or no truthy [planTier]. *)
Definition lacks_user_or_tier (v : MetadataValue) : Prop :=
  Js.truthy (meta_field Metadata.userId v) = false
  \/ Js.truthy (meta_field Metadata.planTier v) = false.



(** No user holds two regional-gateway subscriptions. *)
Definition one_opay_subscription_each (rows : list Subscription.t) : Prop :=
  forall uid,
    (length (List.filter (OpayService.is_opay_subscription_of uid) rows) <= 1)%nat.

(** The separator does not begin inside [o] when [o] is followed by
    [rest]. *)
Fixpoint clear_of (sep o rest : string) : bool :=
  match o with
  | EmptyString => true
  | String c o' => negb (Js.is_prefix sep (o +:+ rest)) && clear_of sep o' rest
  end.

(** The payment a callback with [status=success] asks to credit. *)
Definition callback_params (searchParams : OpayCallback.SearchParams) (tx : string)
  : OpayCallbackParams :=
  {| transactionId := tx;
     paymentMethod :=
       JsText.or_default (PlanAdmin.get searchParams "paymentMethod") "unknown";
     paymentAmount :=
       JsText.parseFloat
         (JsText.or_default (PlanAdmin.get searchParams "paymentAmount") "0");
     paymentFee :=
       JsText.parseFloat
         (JsText.or_default (PlanAdmin.get searchParams "paymentFee") "0") |}.

(** The payment a callback without a final status asks to credit once the
    gateway has reported it completed. *)
Definition verified_params (searchParams : OpayCallback.SearchParams) (tx : string)
    (v : Verification.t) : OpayCallbackParams :=
  {| transactionId := tx;
     paymentMethod :=
       JsText.or_default (Some (Verification.payment_method v))
         (JsText.or_default (PlanAdmin.get searchParams "paymentMethod") "unknown");
     paymentAmount :=
       JsText.or_else (JsText.parseFloat (Verification.amount v))
         (JsText.parseFloat
            (JsText.or_default (PlanAdmin.get searchParams "paymentAmount") "0"));
     paymentFee :=
       JsText.parseFloat
         (JsText.or_default (PlanAdmin.get searchParams "paymentFee") "0") |}.

(** The payment the endpoint asks to credit for a completed
    verification. *)
Definition endpoint_params (tx : string) (v : Verification.t) : OpayCallbackParams :=
  {| transactionId := tx;
     paymentMethod := JsText.or_default (Some (Verification.payment_method v)) "unknown";
     paymentAmount :=
       JsText.or_else (JsText.parseFloat (Verification.amount v)) (Js.finite 0);
     paymentFee := Js.finite 0 |}.

Definition server_error : Res OpayVerify.Answer :=
  Throw (HttpError 500 OpayVerify.generic_failure).

(** The stored value a key of [settingsToSave] is compared with. *)
Definition current_of (cur : PaymentMethodsAdmin.Current) (key : string) : option string :=
  if String.eqb key "active_payment_provider"
  then Some (PaymentMethodsAdmin.cur_activeProvider cur)
  else if String.eqb key "environment"
  then Some (PaymentMethodsAdmin.or_empty (PaymentMethodsAdmin.cur_environment cur))
  else if String.eqb key "stripe_publishable_key"
  then Some (Js.trim (PaymentMethodsAdmin.or_empty
                        (PaymentMethodsAdmin.cur_stripe_publishable_key cur)))
  else if String.eqb key "stripe_secret_key"
  then Some (Js.trim (PaymentMethodsAdmin.or_empty
                        (PaymentMethodsAdmin.cur_stripe_secret_key cur)))
  else if String.eqb key "stripe_webhook_secret"
  then Some (Js.trim (PaymentMethodsAdmin.or_empty
                        (PaymentMethodsAdmin.cur_stripe_webhook_secret cur)))
  else if String.eqb key "opay_api_key"
  then Some (Js.trim (PaymentMethodsAdmin.or_empty
                        (PaymentMethodsAdmin.cur_opay_api_key cur)))
  else None.

(** A regional-gateway subscription that is active and flagged for
    renewal. *)
Definition flagged (s : Subscription.t) : bool :=
  provider_eqb (Subscription.paymentProvider s) opaybd
  && status_eqb (Subscription.status s) active
  && match Subscription.renewalRequired s with
     | Some b => b
     | None => false
     end.

(** Every flagged subscription ended before [t]. *)
Definition flagged_are_past (t : Z) (rows : list Subscription.t) : Prop :=
  forall s, In s rows -> flagged s = true -> Subscription.currentPeriodEnd s < t.

(** Case analysis on every [Res] scrutinee and every condition in sight. *)
Ltac crunch :=
  repeat (cbv beta iota zeta;
          match goal with
          | |- context [match ?x with Ok _ => _ | Throw _ => _ end] =>
              lazymatch x with
              | Ok _ => fail
              | Throw _ => fail
              | context [match _ with Ok _ => _ | Throw _ => _ end] => fail
              | _ => destruct x eqn:?
              end
          | |- context [if ?b then _ else _] =>
              lazymatch b with
              | true => fail
              | false => fail
              | _ => destruct b eqn:?
              end
          end);
  cbv beta iota zeta.

(** Unfold [credit] and the statements it runs, and nothing else. *)
Ltac open_credit :=
  cbv beta iota zeta delta
    [OpayService.credit Db.select_subscriptions Db.update_subscriptions
     Db.insert_subscriptions Db.update_users Db.insert_paymentHistory Db.draw_uuid
     bind try_catch ret throw emit ask get_db put_db lift_res].

Ltac run := unfold bind, try_catch, ret, throw, emit, ask, get_db, put_db, lift_res,
                   result, database, events in *; simpl in *.

Ltac step := cbv beta iota zeta delta
  [bind try_catch ret throw emit ask get_db put_db lift_res result database events].

(** ** [verifyPayment] only talks to the gateway *)

Lemma verifyPayment_database tx env db :
  database (OpayService.verifyPayment tx env db) = db.
Proof.
  unfold OpayService.verifyPayment, OpayService.getHeaders. run.
  destruct (opaySettings env) as [s|e]; simpl; [|reflexivity].
  destruct (apiKey s) as [k|]; simpl; [|reflexivity].
  destruct (negb (k =? ""))%string; simpl; [|reflexivity].
  destruct (opay_verify env tx) as [r|c t|d|r]; simpl; try reflexivity.
  destruct (Verification.metadata d) as [m|raw|]; simpl; try reflexivity.
  destruct (JSON_parse env raw); reflexivity.
Qed.

Lemma verifyPayment_no_db_write tx env db :
  no_db_write (events (OpayService.verifyPayment tx env db)).
Proof.
  unfold no_db_write, OpayService.verifyPayment, OpayService.getHeaders. run.
  destruct (opaySettings env) as [s|e]; simpl; [|constructor].
  destruct (apiKey s) as [k|]; simpl; [|constructor].
  destruct (negb (k =? ""))%string; simpl; [|constructor].
  destruct (opay_verify env tx) as [r|c t|d|r]; simpl; repeat constructor.
  destruct (Verification.metadata d) as [m|raw|]; simpl; repeat constructor.
  destruct (JSON_parse env raw); simpl; repeat constructor.
Qed.

(** [handlePaymentSuccess] up to the end of its two guards, in terms of
    what [verifyPayment] did. *)
Lemma handlePaymentSuccess_unfold params env db :
  OpayService.handlePaymentSuccess params env db =
  let started := console_log ("Processing Opaybd payment success: " +:+ transactionId params) in
  match OpayService.verifyPayment (transactionId params) env db with
  | (Throw e, db1, ev) => (Throw e, db1, started :: ev)
  | (Ok v, db1, ev) =>
      if negb (String.eqb (Verification.status v) "COMPLETED")
      then (Throw (Error ("Payment not completed. Status: " +:+ Verification.status v)),
            db1, started :: ev)
      else if negb (Js.truthy (meta_field Metadata.userId (Verification.metadata v)))
              || negb (Js.truthy (meta_field Metadata.planTier (Verification.metadata v)))
      then (Throw (Error "Invalid payment metadata"), db1, started :: ev)
      else
        match Verification.metadata v with
        | MetaObject m =>
            match Metadata.userId m, Metadata.planTier m with
            | Some uid, Some tier =>
                let '(r, db2, ev2) := OpayService.credit params m uid tier env db1 in
                (r, db2, started :: ev ++ ev2)
            | _, _ => (Throw (Error "Invalid payment metadata"), db1, started :: ev)
            end
        | _ => (Throw (Error "Invalid payment metadata"), db1, started :: ev)
        end
  end.
Proof.
  unfold OpayService.handlePaymentSuccess.
  unfold bind at 1. unfold emit at 1. cbv beta iota zeta.
  unfold bind at 1.
  destruct (OpayService.verifyPayment (transactionId params) env db) as [[[v|e] db1] ev];
    [|reflexivity].
  cbv beta iota zeta.
  destruct (negb (Verification.status v =? "COMPLETED")%string).
  { unfold throw. simpl. rewrite app_nil_r. reflexivity. }
  destruct (negb (Js.truthy (meta_field Metadata.userId (Verification.metadata v)))
            || negb (Js.truthy (meta_field Metadata.planTier (Verification.metadata v)))).
  { unfold throw. simpl. rewrite app_nil_r. reflexivity. }
  destruct (Verification.metadata v) as [m|raw|];
    try (unfold throw; simpl; rewrite app_nil_r; reflexivity).
  destruct (Metadata.userId m), (Metadata.planTier m);
    try (unfold throw; simpl; rewrite app_nil_r; reflexivity).
  destruct (OpayService.credit params m s s0 env db1) as [[r db2] ev2]. reflexivity.
Qed.

(** ** C1: a payment whose verification is not completed changes nothing *)

(** C1.  [handlePaymentSuccess] starts by verifying the payment with
    [verifyPayment]: whatever the input, its events are its opening log
    line, then those of [verifyPayment], then the rest.  When the status
    that verification returns is not ['COMPLETED'], it throws the error
    that names that status, having done nothing but the log line and the
    verification: the database is the one it started from (no subscription
    inserted or updated, no user changed, no payment recorded) and no
    event is a write. *)
Theorem handlePaymentSuccess_not_completed
    (params : OpayCallbackParams) (env : Env) (db : Database) (v : Verification.t) :
  result (OpayService.verifyPayment (transactionId params) env db) = Ok v ->
  Verification.status v <> "COMPLETED" ->
  let verify := OpayService.verifyPayment (transactionId params) env db in
  let run := OpayService.handlePaymentSuccess params env db in
  (forall params' env' db',
     exists rest,
       events (OpayService.handlePaymentSuccess params' env' db') =
       console_log ("Processing Opaybd payment success: " +:+ transactionId params')
       :: events (OpayService.verifyPayment (transactionId params') env' db') ++ rest)
  /\ result run = Throw (Error ("Payment not completed. Status: " +:+ Verification.status v))
  /\ database run = db
  /\ events run =
       console_log ("Processing Opaybd payment success: " +:+ transactionId params)
       :: events verify
  /\ no_db_write (events run).
Proof.
  intros Hv Hs verify run.
  split.
  { intros p' e' d'. rewrite handlePaymentSuccess_unfold. cbv zeta.
    destruct (OpayService.verifyPayment (transactionId p') e' d') as [[[v'|x] db1] ev];
      [|exists []; simpl; now rewrite app_nil_r].
    destruct (negb (Verification.status v' =? "COMPLETED")%string);
      [exists []; simpl; now rewrite app_nil_r|].
    destruct (negb _ || negb _); [exists []; simpl; now rewrite app_nil_r|].
    destruct (Verification.metadata v') as [m| |];
      try (exists []; simpl; now rewrite app_nil_r).
    destruct (Metadata.userId m), (Metadata.planTier m);
      try (exists []; simpl; now rewrite app_nil_r).
    destruct (OpayService.credit p' m s s0 e' db1) as [[r db2] ev2].
    exists ev2. reflexivity. }
  pose proof (verifyPayment_database (transactionId params) env db) as Hdb.
  pose proof (verifyPayment_no_db_write (transactionId params) env db) as Hev.
  subst run verify. rewrite handlePaymentSuccess_unfold. cbv zeta.
  destruct (OpayService.verifyPayment (transactionId params) env db) as [[r db1] ev].
  unfold result, database, events in *. simpl in *. subst r db1.
  apply String.eqb_neq in Hs. rewrite Hs. simpl.
  repeat split; try reflexivity.
  constructor; [reflexivity | exact Hev].
Qed.

(** The gateway still reports [PENDING] for Alice's transaction. *)
Lemma handlePaymentSuccess_not_completed_witness :
  result (OpayService.handlePaymentSuccess Sample.callback
            (Sample.env_at Sample.jan31 "PENDING" true) Sample.db0)
  = Throw (Error "Payment not completed. Status: PENDING")
  /\ database (OpayService.handlePaymentSuccess Sample.callback
                 (Sample.env_at Sample.jan31 "PENDING" true) Sample.db0)
     = Sample.db0.
Proof.
  pose proof (handlePaymentSuccess_not_completed Sample.callback
                (Sample.env_at Sample.jan31 "PENDING" true) Sample.db0
                (OpayService.with_metadata (MetaObject Sample.meta_pro)
                   (Sample.answer "PENDING"))) as H.
  cbv zeta in H.
  destruct H as (_ & Hr & Hd & _).
  - vm_compute. reflexivity.
  - simpl. discriminate.
  - split; [exact Hr | exact Hd].
Defined.

(** ** C10: metadata without a user or a tier credits nothing *)

(** A metadata string that [JSON.parse] rejects is logged and handed on
    as it came. *)
Lemma verifyPayment_undecoded tx env db key data raw :
  opaySettings env = Ok {| apiKey := Some key |} ->
  key <> "" ->
  opay_verify env tx = HttpOk data ->
  Verification.metadata data = MetaString raw ->
  JSON_parse env raw = None ->
  result (OpayService.verifyPayment tx env db) = Ok data.
Proof.
  intros Hs Hk Hv Hm Hp.
  unfold OpayService.verifyPayment, OpayService.getHeaders. run.
  rewrite Hs. simpl. apply String.eqb_neq in Hk. rewrite Hk. simpl.
  rewrite Hv. simpl. rewrite Hm. rewrite Hp. reflexivity.
Qed.

Lemma undecoded_lacks_user_or_tier v raw :
  v = MetaString raw -> lacks_user_or_tier v.
Proof. intros ->. left. reflexivity. Qed.

(** C10, as amended.  When the metadata that verification returns has no
    (truthy) [userId] or no [planTier] -- an undecoded string has neither --
    [handlePaymentSuccess] throws and writes nothing: the database is
    unchanged and no event is a write.  The error is ['Invalid payment
    metadata'] when the status is ['COMPLETED']; for any other status the
    status guard, which comes first, throws its own error. *)
Theorem handlePaymentSuccess_invalid_metadata
    (params : OpayCallbackParams) (env : Env) (db : Database) (v : Verification.t) :
  result (OpayService.verifyPayment (transactionId params) env db) = Ok v ->
  lacks_user_or_tier (Verification.metadata v) ->
  let run := OpayService.handlePaymentSuccess params env db in
  (Verification.status v = "COMPLETED" ->
   result run = Throw (Error "Invalid payment metadata"))
  /\ (Verification.status v <> "COMPLETED" ->
      result run = Throw (Error ("Payment not completed. Status: " +:+ Verification.status v)))
  /\ database run = db
  /\ no_db_write (events run).
Proof.
  intros Hv Hm run.
  pose proof (verifyPayment_database (transactionId params) env db) as Hdb.
  pose proof (verifyPayment_no_db_write (transactionId params) env db) as Hev.
  assert (Hguard :
    negb (Js.truthy (meta_field Metadata.userId (Verification.metadata v)))
    || negb (Js.truthy (meta_field Metadata.planTier (Verification.metadata v))) = true).
  { destruct Hm as [H|H]; rewrite H; simpl; [reflexivity | apply orb_true_r]. }
  subst run. rewrite handlePaymentSuccess_unfold. cbv zeta.
  destruct (OpayService.verifyPayment (transactionId params) env db) as [[r db1] ev].
  unfold result, database, events in *. simpl in *. subst r db1.
  destruct (String.eqb_spec (Verification.status v) "COMPLETED") as [Hs|Hs]; simpl.
  - rewrite Hguard. simpl.
    repeat split; try reflexivity; try congruence.
    constructor; [reflexivity | exact Hev].
  - repeat split; try reflexivity; try congruence.
    constructor; [reflexivity | exact Hev].
Qed.

(** The gateway reports [COMPLETED] but the metadata string does not
    parse: nothing is credited. *)
Lemma handlePaymentSuccess_invalid_metadata_witness :
  result (OpayService.handlePaymentSuccess Sample.callback
            (Sample.env_at Sample.jan31 "COMPLETED" false) Sample.db0)
  = Throw (Error "Invalid payment metadata")
  /\ database (OpayService.handlePaymentSuccess Sample.callback
                 (Sample.env_at Sample.jan31 "COMPLETED" false) Sample.db0)
     = Sample.db0.
Proof.
  pose proof (handlePaymentSuccess_invalid_metadata Sample.callback
                (Sample.env_at Sample.jan31 "COMPLETED" false) Sample.db0
                (Sample.answer "COMPLETED")) as H.
  cbv zeta in H.
  destruct H as (Hr & _ & Hd & _).
  - vm_compute. reflexivity.
  - left. reflexivity.
  - split; [apply Hr; reflexivity | exact Hd].
Defined.

(** The statement of C10 as written fails: with undecoded metadata and a
    payment still [PENDING], the error thrown is the status guard's, not
    ['Invalid payment metadata']. *)
Lemma handlePaymentSuccess_invalid_metadata_counterexample :
  ~ (forall params env db v,
       result (OpayService.verifyPayment (transactionId params) env db) = Ok v ->
       lacks_user_or_tier (Verification.metadata v) ->
       result (OpayService.handlePaymentSuccess params env db)
       = Throw (Error "Invalid payment metadata")).
Proof.
  intros H.
  specialize (H Sample.callback (Sample.env_at Sample.jan31 "PENDING" false) Sample.db0
                (Sample.answer "PENDING")).
  assert (Hrun :
    result (OpayService.handlePaymentSuccess Sample.callback
              (Sample.env_at Sample.jan31 "PENDING" false) Sample.db0)
    = Throw (Error "Payment not completed. Status: PENDING")) by (vm_compute; reflexivity).
  rewrite Hrun in H.
  assert (Habs : Throw (A := unit) (Error "Payment not completed. Status: PENDING")
                 = Throw (Error "Invalid payment metadata")).
  { apply H; [vm_compute; reflexivity | left; reflexivity]. }
  discriminate Habs.
Qed.

(** ** C3: a second call for the same payment renews in place *)

Lemma length_set_where {A} (p : A -> bool) (f : A -> A) (l : list A) :
  length (Db.set_where p f l) = length l.
Proof. unfold Db.set_where. apply length_map. Qed.

Lemma filter_set_where {A} (p q : A -> bool) (f : A -> A) (l : list A) :
  (forall x, p (f x) = p x) ->
  List.filter p (Db.set_where q f l) = Db.set_where q f (List.filter p l).
Proof.
  intros Hp. unfold Db.set_where. induction l as [|x l IH]; simpl; [reflexivity|].
  destruct (q x) eqn:Hq; [rewrite Hp|]; destruct (p x); simpl; rewrite ?Hq, IH; reflexivity.
Qed.

Lemma renew_keeps_owner uid e pid tier now pe tx amt s :
  OpayService.is_opay_subscription_of uid (OpayService.renew e pid tier now pe tx amt s)
  = OpayService.is_opay_subscription_of uid s.
Proof. reflexivity. Qed.

(** With a regional-gateway subscription of the user in place and an
    amount the database accepts, [credit] rewrites the rows that carry the
    subscription's identifier and inserts none, whether or not the rest of
    the call goes through. *)
Lemma credit_existing params m uid tier env db existing rest amount :
  List.filter (OpayService.is_opay_subscription_of uid) (subscriptions_rows db)
  = existing :: rest ->
  Db.integer (Js.Math_round (Js.times (paymentAmount params) 100)) = Ok amount ->
  Metadata.null_priceId m = false ->
  let run := OpayService.credit params m uid tier env db in
  subscriptions_rows (database run) =
    Db.set_where
      (fun s => String.eqb (Subscription.id s) (Subscription.id existing))
      (OpayService.renew existing (Metadata.priceId m) tier (now env)
         (OpayService.period_end (now env) (Metadata.billingInterval m))
         (transactionId params) amount)
      (subscriptions_rows db)
  /\ ~ In (db_insert subscriptions) (events run).
Proof.
  intros Hf Ha Hnull run. subst run.
  unfold OpayService.credit, Db.select_subscriptions, Db.update_subscriptions,
    Db.update_users, Db.insert_paymentHistory, Db.draw_uuid.
  run. rewrite Hf. simpl. rewrite Ha. simpl. rewrite Hnull. simpl.
  rewrite filter_set_where by (intros; apply renew_keeps_owner).
  rewrite Hf. simpl. rewrite String.eqb_refl.
  destruct (Db.integer (Js.Math_round (Js.times (paymentFee params) 100))); simpl;
  repeat match goal with
         | |- context [if ?b then _ else _] => destruct b; simpl
         end;
  (split; [reflexivity | intros H; repeat (destruct H as [H|H]; [discriminate|]); exact H]).
Qed.

(** A [credit] that went through was given an amount the database
    accepts. *)
Lemma credit_ok_amount params m uid tier env db :
  result (OpayService.credit params m uid tier env db) = Ok tt ->
  exists amount,
    Db.integer (Js.Math_round (Js.times (paymentAmount params) 100)) = Ok amount.
Proof.
  destruct (Db.integer (Js.Math_round (Js.times (paymentAmount params) 100)))
    as [amount|e] eqn:Ha; [eauto|].
  unfold OpayService.credit, Db.select_subscriptions, Db.update_subscriptions,
    Db.insert_subscriptions, Db.update_users, Db.insert_paymentHistory, Db.draw_uuid.
  run. rewrite Ha.
  destruct (List.filter _ (subscriptions_rows db)); simpl; discriminate.
Qed.

(** A [credit] that went through for a user with a regional-gateway
    subscription was not given a [null] price identifier. *)
Lemma credit_ok_priceId params m uid tier env db existing rest :
  List.filter (OpayService.is_opay_subscription_of uid) (subscriptions_rows db)
  = existing :: rest ->
  result (OpayService.credit params m uid tier env db) = Ok tt ->
  Metadata.null_priceId m = false.
Proof.
  intros Hf.
  destruct (Metadata.null_priceId m) eqn:Hnull; [|reflexivity].
  unfold OpayService.credit, Db.select_subscriptions, Db.update_subscriptions,
    Db.insert_subscriptions, Db.update_users, Db.insert_paymentHistory, Db.draw_uuid.
  run. rewrite Hf. simpl. rewrite Hnull.
  destruct (Db.integer (Js.Math_round (Js.times (paymentAmount params) 100)));
    simpl; discriminate.
Qed.

(** After a [credit] that went through, the user has a regional-gateway
    subscription. *)
Lemma credit_ok_subscribed params m uid tier env db :
  result (OpayService.credit params m uid tier env db) = Ok tt ->
  List.filter (OpayService.is_opay_subscription_of uid)
    (subscriptions_rows (database (OpayService.credit params m uid tier env db))) <> [].
Proof.
  intros Hok.
  destruct (credit_ok_amount _ _ _ _ _ _ Hok) as [amount Ha].
  revert Hok.
  destruct (List.filter (OpayService.is_opay_subscription_of uid) (subscriptions_rows db))
    as [|existing rest] eqn:Hf.
  - unfold OpayService.credit, Db.select_subscriptions, Db.update_subscriptions,
      Db.insert_subscriptions, OpayService.fresh_subscription,
      Db.update_users, Db.insert_paymentHistory, Db.draw_uuid.
    run. rewrite Hf. simpl. rewrite Ha. simpl.
    destruct (Metadata.priceId m) as [pid|]; simpl; [|discriminate].
    destruct (Db.integer (Js.Math_round (Js.times (paymentFee params) 100))); simpl;
    repeat match goal with
           | |- context [if ?b then _ else _] => destruct b eqn:?; simpl; try discriminate
           end;
    intros _; rewrite List.filter_app; simpl;
    unfold OpayService.is_opay_subscription_of; simpl; rewrite String.eqb_refl; simpl;
    intros H; apply app_eq_nil in H; destruct H; discriminate.
  - intros Hok.
    pose proof (credit_ok_priceId _ _ _ _ _ _ _ _ Hf Hok) as Hnull.
    destruct (credit_existing params m uid tier env db existing rest amount Hf Ha Hnull)
      as [-> _].
    rewrite filter_set_where by (intros; apply renew_keeps_owner).
    rewrite Hf. simpl. discriminate.
Qed.

(** A call of [handlePaymentSuccess] that went through was a [credit] for
    the user and tier of the verified metadata. *)
Lemma handlePaymentSuccess_ok params env db v :
  result (OpayService.handlePaymentSuccess params env db) = Ok tt ->
  result (OpayService.verifyPayment (transactionId params) env db) = Ok v ->
  exists m uid tier,
    Verification.metadata v = MetaObject m
    /\ Metadata.userId m = Some uid /\ Metadata.planTier m = Some tier
    /\ Js.truthy (Some uid) = true
    /\ result (OpayService.credit params m uid tier env db) = Ok tt
    /\ database (OpayService.handlePaymentSuccess params env db)
       = database (OpayService.credit params m uid tier env db).
Proof.
  intros Hok Hv.
  pose proof (verifyPayment_database (transactionId params) env db) as Hdb.
  rewrite handlePaymentSuccess_unfold in *. cbv zeta in *.
  destruct (OpayService.verifyPayment (transactionId params) env db) as [[r db1] ev].
  unfold result, database in Hv, Hdb. simpl in Hv, Hdb. subst r db1.
  destruct (negb (Verification.status v =? "COMPLETED")%string); [discriminate|].
  destruct (negb _ || negb _) eqn:Hg; [discriminate|].
  destruct (Verification.metadata v) as [m| |]; try discriminate.
  simpl in Hg.
  destruct (Metadata.userId m) as [uid|] eqn:Hu; try discriminate.
  destruct (Metadata.planTier m) as [tier|] eqn:Ht; try discriminate.
  apply orb_false_elim in Hg. destruct Hg as [Hg _]. apply negb_false_iff in Hg.
  exists m, uid, tier.
  destruct (OpayService.credit params m uid tier env db) as [[r db2] ev2].
  unfold result, database in *. simpl in *. repeat split; auto.
Qed.


Lemma set_where_id_others (id0 : string) (f : Subscription.t -> Subscription.t)
    (rows : list Subscription.t) :
  Forall2 (fun old new => Subscription.id old <> id0 -> new = old)
    rows (Db.set_where (fun s => String.eqb (Subscription.id s) id0) f rows).
Proof.
  unfold Db.set_where.
  induction rows as [|row rows IH]; simpl; constructor; [|exact IH].
  intros Hne. apply String.eqb_neq in Hne. rewrite Hne. reflexivity.
Qed.


(** ** C4: the regional gateway selected but not configured *)

Lemma isConfigured_spec env db :
  OpayService.isConfigured env db =
  (Ok (match opaySettings env with
       | Ok s => Js.truthy (apiKey s)
       | Throw _ => false
       end), db, []).
Proof.
  unfold OpayService.isConfigured. run.
  destruct (opaySettings env); reflexivity.
Qed.

(** [createCheckoutSession], branch by branch. *)
Lemma createCheckoutSession_unfold params env db :
  PaymentRouter.createCheckoutSession params env db =
  let line := console_log ("Creating checkout session with provider: "
                           +:+ activePaymentProvider env) in
  if String.eqb (activePaymentProvider env) "opaybd" then
    if negb (match opaySettings env with
             | Ok s => Js.truthy (apiKey s)
             | Throw _ => false
             end)
    then (Throw (Error PaymentRouter.opay_not_configured), db, [line])
    else
      match OpayService.createPayment
              {| cp_userId := userId params;
                 cp_planId := planId params;
                 cp_priceId := priceId params;
                 cp_successUrl :=
                   Js.split_head "/settings/billing" (successUrl params)
                   +:+ "/api/opaybd/callback";
                 cp_cancelUrl :=
                   Js.split_head "/settings/billing" (successUrl params)
                   +:+ "/settings/billing?canceled=true&provider=opaybd" |}
              env db with
      | (Ok data, db1, ev) =>
          (Ok {| provider := opaybd; clientSecret := None; sessionId := None;
                 paymentUrl := Some (CreateResponse.payment_url data) |},
           db1, line :: ev)
      | (Throw e, db1, ev) => (Throw e, db1, line :: ev)
      end
  else
    match stripe_createCheckoutSession env
            {| sc_userId := userId params; sc_priceId := priceId params;
               sc_successUrl := successUrl params; sc_cancelUrl := cancelUrl params |} with
    | Ok session =>
        (Ok {| provider := stripe;
               clientSecret := Js.or_else (StripeSession.client_secret session) None;
               sessionId := Some (StripeSession.id session);
               paymentUrl := None |},
         db, [line; stripe_call "createCheckoutSession"])
    | Throw e => (Throw e, db, [line; stripe_call "createCheckoutSession"])
    end.
Proof.
  unfold PaymentRouter.createCheckoutSession, PaymentRouter.getActiveProvider.
  unfold bind at 1. unfold bind at 1. unfold ask at 1. unfold ret at 1. cbv beta iota zeta.
  unfold bind at 1. unfold emit at 1. cbv beta iota zeta.
  destruct (String.eqb (activePaymentProvider env) "opaybd").
  - unfold bind at 1. rewrite isConfigured_spec. cbv beta iota zeta.
    destruct (negb _); [reflexivity|].
    unfold bind at 1.
    destruct (OpayService.createPayment _ env db) as [[[d|e] db1] ev];
      unfold ret; simpl; rewrite ?app_nil_r; reflexivity.
  - run. destruct (stripe_createCheckoutSession env _); reflexivity.
Qed.

(** C4.  When the active provider is ['opaybd'] and the gateway has no
    API key (the settings cannot be read, or hold no key, or an empty
    one), [createCheckoutSession] throws the configuration error that
    sends the administrator to Admin > Payment Methods.  All it has done
    by then is log one line: no request to the gateway, no call to Stripe,
    no database access; the database is unchanged. *)
Theorem createCheckoutSession_opaybd_unconfigured
    (params : CreateCheckoutParams) (env : Env) (db : Database) :
  activePaymentProvider env = "opaybd" ->
  (forall s, opaySettings env = Ok s -> Js.truthy (apiKey s) = false) ->
  let run := PaymentRouter.createCheckoutSession params env db in
  result (OpayService.isConfigured env db) = Ok false
  /\ result run =
       Throw (Error "Opaybd is selected but not configured. Please configure Opaybd credentials in Admin > Payment Methods.")
  /\ database run = db
  /\ events run = [console_log "Creating checkout session with provider: opaybd"]
  /\ Forall (fun e => is_network e = false) (events run).
Proof.
  intros Hp Hk run.
  assert (Hc : OpayService.isConfigured env db = (Ok false, db, [])).
  { rewrite isConfigured_spec. destruct (opaySettings env) as [s|e]; [|reflexivity].
    rewrite (Hk s eq_refl). reflexivity. }
  split; [rewrite Hc; reflexivity|].
  subst run. rewrite createCheckoutSession_unfold. cbv zeta.
  rewrite Hp. change (("opaybd" =? "opaybd")%string) with true. cbv iota.
  rewrite isConfigured_spec in Hc. injection Hc as Hc. rewrite Hc.
  unfold result, database, events. simpl.
  repeat split; repeat constructor.
Qed.

(** The gateway is selected and its API key was never entered. *)
Lemma createCheckoutSession_opaybd_unconfigured_witness :
  result (PaymentRouter.createCheckoutSession Sample.checkout
            (Sample.deployment "opaybd" None None None Sample.jan31 "PENDING" true)
            Sample.db0)
  = Throw (Error PaymentRouter.opay_not_configured).
Proof.
  pose proof (createCheckoutSession_opaybd_unconfigured Sample.checkout
                (Sample.deployment "opaybd" None None None Sample.jan31 "PENDING" true)
                Sample.db0) as H.
  cbv zeta in H.
  destruct H as (_ & Hr & _).
  - reflexivity.
  - intros s Hs. injection Hs as <-. reflexivity.
  - exact Hr.
Defined.

(** ** C5: the shape of the checkout result *)

(** The statement of C5 as written fails: for a Stripe session without a
    client secret the code returns [clientSecret: undefined]. *)
Lemma createCheckoutSession_clientSecret_counterexample :
  ~ (forall params env db session,
       activePaymentProvider env <> "opaybd" ->
       stripe_createCheckoutSession env
         {| sc_userId := userId params; sc_priceId := priceId params;
            sc_successUrl := successUrl params; sc_cancelUrl := cancelUrl params |}
       = Ok session ->
       exists r secret id,
         result (PaymentRouter.createCheckoutSession params env db) = Ok r
         /\ provider r = stripe /\ clientSecret r = Some secret
         /\ sessionId r = Some id /\ paymentUrl r = None).
Proof.
  intros H.
  destruct (H Sample.checkout
              (Sample.deployment "stripe" (Some "key") None None Sample.jan31 "PENDING" true)
              Sample.db0
              {| StripeSession.id := "cs_1"; StripeSession.client_secret := None |})
    as (r & secret & id & Hr & _ & Hs & _).
  - discriminate.
  - reflexivity.
  - vm_compute in Hr. injection Hr as <-. discriminate Hs.
Qed.

(** C5, as amended.  When the active provider is anything but ['opaybd']
    and Stripe creates the session, [createCheckoutSession] returns
    provider ['stripe'] with the session's id as [sessionId], no
    [paymentUrl], and as [clientSecret] the session's client secret when
    that is a non-empty string ([undefined] otherwise).  When the active
    provider is ['opaybd'], the gateway is configured and [createPayment]
    returns, the result is provider ['opaybd'] with the payment URL the
    gateway answered and neither [clientSecret] nor [sessionId].  Whatever
    the provider, a result that is returned has one of these two shapes. *)
Theorem createCheckoutSession_result
    (params : CreateCheckoutParams) (env : Env) (db : Database) :
  let run := PaymentRouter.createCheckoutSession params env db in
  (activePaymentProvider env <> "opaybd" ->
   forall session,
     stripe_createCheckoutSession env
       {| sc_userId := userId params; sc_priceId := priceId params;
          sc_successUrl := successUrl params; sc_cancelUrl := cancelUrl params |}
     = Ok session ->
     result run =
       Ok {| provider := stripe;
             clientSecret :=
               if Js.truthy (StripeSession.client_secret session)
               then StripeSession.client_secret session else None;
             sessionId := Some (StripeSession.id session);
             paymentUrl := None |})
  /\ (activePaymentProvider env = "opaybd" ->
      result (OpayService.isConfigured env db) = Ok true ->
      forall data,
        result (OpayService.createPayment
                  {| cp_userId := userId params;
                     cp_planId := planId params;
                     cp_priceId := priceId params;
                     cp_successUrl :=
                       Js.split_head "/settings/billing" (successUrl params)
                       +:+ "/api/opaybd/callback";
                     cp_cancelUrl :=
                       Js.split_head "/settings/billing" (successUrl params)
                       +:+ "/settings/billing?canceled=true&provider=opaybd" |}
                  env db) = Ok data ->
        result run =
          Ok {| provider := opaybd;
                clientSecret := None;
                sessionId := None;
                paymentUrl := Some (CreateResponse.payment_url data) |})
  /\ (forall r, result run = Ok r ->
      match provider r with
      | stripe =>
          activePaymentProvider env <> "opaybd"
          /\ (exists id, sessionId r = Some id) /\ paymentUrl r = None
      | opaybd =>
          activePaymentProvider env = "opaybd"
          /\ (exists url, paymentUrl r = Some url)
          /\ clientSecret r = None /\ sessionId r = None
      end).
Proof.
  intros run. subst run. rewrite createCheckoutSession_unfold. cbv zeta.
  rewrite isConfigured_spec.
  destruct (String.eqb_spec (activePaymentProvider env) "opaybd") as [Hp|Hp].
  - split; [intros Hn; contradiction|].
    split.
    + intros _ Hc data Hd. unfold result in Hc. simpl in Hc. injection Hc as Hc.
      rewrite Hc. simpl negb. cbv iota.
      destruct (OpayService.createPayment _ env db) as [[r db1] ev].
      unfold result in Hd. simpl in Hd. subst r. reflexivity.
    + intros r.
      destruct (negb _); [discriminate|].
      destruct (OpayService.createPayment _ env db) as [[[d|e] db1] ev];
        unfold result; simpl; [|discriminate].
      intros Hr. injection Hr as <-. simpl. eauto.
  - split.
    + intros _ session Hs. rewrite Hs. reflexivity.
    + split; [intros Hn; contradiction|].
      intros r.
      destruct (stripe_createCheckoutSession env _) as [session|e];
        unfold result; simpl; [|discriminate].
      intros Hr. injection Hr as <-. simpl. eauto.
Qed.

(** A checkout under Stripe, and one under the configured gateway. *)
Lemma createCheckoutSession_result_witness :
  result (PaymentRouter.createCheckoutSession Sample.checkout
            (Sample.deployment "stripe" None (Some "cs_1_secret") None
               Sample.jan31 "PENDING" true)
            Sample.db0)
  = Ok {| provider := stripe; clientSecret := Some "cs_1_secret";
          sessionId := Some "cs_1"; paymentUrl := None |}
  /\ result (PaymentRouter.createCheckoutSession Sample.checkout
               (Sample.env_at Sample.jan31 "PENDING" true) Sample.db0)
     = Ok {| provider := opaybd; clientSecret := None;
             sessionId := None; paymentUrl := Some "https://pay.opaybd.com/p/1" |}.
Proof.
  split.
  - pose proof (createCheckoutSession_result Sample.checkout
                  (Sample.deployment "stripe" None (Some "cs_1_secret") None
                     Sample.jan31 "PENDING" true) Sample.db0) as H.
    cbv zeta in H. destruct H as (H & _ & _).
    apply (H ltac:(discriminate)
             {| StripeSession.id := "cs_1"; StripeSession.client_secret := Some "cs_1_secret" |}).
    reflexivity.
  - pose proof (createCheckoutSession_result Sample.checkout
                  (Sample.env_at Sample.jan31 "PENDING" true) Sample.db0) as H.
    cbv zeta in H. destruct H as (_ & H & _).
    apply (H eq_refl eq_refl
             {| CreateResponse.status := true; CreateResponse.message := None;
                CreateResponse.payment_url := "https://pay.opaybd.com/p/1" |}).
    vm_compute. reflexivity.
Defined.

(** ** C6: Stripe is looked up first *)

Lemma provider_eqb_eq a b : provider_eqb a b = true <-> a = b.
Proof. destruct a, b; simpl; split; intros H; try reflexivity; discriminate. Qed.

Lemma status_eqb_eq a b : status_eqb a b = true <-> a = b.
Proof. destruct a, b; simpl; split; intros H; try reflexivity; discriminate. Qed.

Lemma filter_nil_iff {A} (p : A -> bool) (l : list A) :
  List.filter p l = [] <-> forall x, In x l -> p x = false.
Proof.
  induction l as [|a l IH]; simpl.
  - split; [intros _ x []|reflexivity].
  - destruct (p a) eqn:Ha; split.
    + discriminate.
    + intros H. specialize (H a (or_introl eq_refl)). congruence.
    + intros H x [<-|Hx]; [exact Ha | apply IH; assumption].
    + intros H. apply IH. intros x Hx. apply H. right. exact Hx.
Qed.

Lemma is_active_opay_subscription_of_true uid s :
  OpayService.is_active_opay_subscription_of uid s = true <->
  Subscription.userId s = uid /\ Subscription.paymentProvider s = opaybd
  /\ Subscription.status s = active.
Proof.
  unfold OpayService.is_active_opay_subscription_of.
  rewrite !andb_true_iff, String.eqb_eq, provider_eqb_eq, status_eqb_eq. tauto.
Qed.

Lemma OpayService_getActiveSubscription_unfold uid env db :
  OpayService.getActiveSubscription uid env db =
  match List.filter (OpayService.is_active_opay_subscription_of uid) (subscriptions_rows db) with
  | [] => (Ok None, db, [db_select subscriptions])
  | sub :: _ =>
      (Ok (Some {| subscription := sub;
                   plan := List.head
                             (List.filter
                                (fun p => String.eqb (PricingPlan.stripePriceId p)
                                            (Subscription.stripePriceId sub))
                                (pricingPlans_rows db)) |}),
       db, [db_select subscriptions; db_select pricingPlans])
  end.
Proof.
  unfold OpayService.getActiveSubscription, Db.select_subscriptions, Db.select_pricingPlans.
  run. destruct (List.filter _ (subscriptions_rows db)); reflexivity.
Qed.

Lemma getActiveSubscription_unfold uid env db :
  PaymentRouter.getActiveSubscription uid env db =
  match stripe_getActiveSubscription env uid with
  | Ok (Some s) =>
      (Ok (Some {| found := s; found_provider := stripe |}), db,
       [stripe_call "getActiveSubscription"])
  | Ok None =>
      match List.filter (OpayService.is_active_opay_subscription_of uid)
              (subscriptions_rows db) with
      | [] => (Ok None, db, [stripe_call "getActiveSubscription"; db_select subscriptions])
      | sub :: _ =>
          (Ok (Some {| found :=
                         {| subscription := sub;
                            plan := List.head
                                      (List.filter
                                         (fun p => String.eqb (PricingPlan.stripePriceId p)
                                                     (Subscription.stripePriceId sub))
                                         (pricingPlans_rows db)) |};
                       found_provider := opaybd |}),
           db,
           [stripe_call "getActiveSubscription"; db_select subscriptions;
            db_select pricingPlans])
      end
  | Throw e => (Throw e, db, [stripe_call "getActiveSubscription"])
  end.
Proof.
  unfold PaymentRouter.getActiveSubscription.
  unfold bind at 1. unfold ask at 1. cbv beta iota zeta.
  unfold bind at 1. unfold emit at 1. cbv beta iota zeta.
  unfold bind at 1.
  destruct (stripe_getActiveSubscription env uid) as [[s|]|e]; simpl lift_res;
    try reflexivity.
  unfold ret at 1. cbv beta iota zeta.
  unfold bind at 1. rewrite OpayService_getActiveSubscription_unfold.
  destruct (List.filter _ (subscriptions_rows db)); reflexivity.
Qed.

(** C6.  [getActiveSubscription] asks Stripe first.  If Stripe has a
    subscription for the user it is returned with provider ['stripe'] and
    the regional gateway's table is not even read -- so a user with active
    subscriptions under both providers gets the Stripe one.  Only if
    Stripe has none is the gateway's subscription looked up, and returned
    with provider ['opaybd'].  The result is [null] exactly when Stripe
    has none and no row is an active regional-gateway subscription of the
    user.  The database is never changed. *)
Theorem getActiveSubscription_stripe_first (uid : string) (env : Env) (db : Database) :
  let run := PaymentRouter.getActiveSubscription uid env db in
  (exists rest, events run = stripe_call "getActiveSubscription" :: rest)
  /\ database run = db
  /\ (forall s,
        stripe_getActiveSubscription env uid = Ok (Some s) ->
        result run = Ok (Some {| found := s; found_provider := stripe |})
        /\ events run = [stripe_call "getActiveSubscription"])
  /\ (stripe_getActiveSubscription env uid = Ok None ->
      (forall sub rest,
         List.filter (OpayService.is_active_opay_subscription_of uid) (subscriptions_rows db)
         = sub :: rest ->
         exists plan,
           result run = Ok (Some {| found := {| subscription := sub; plan := plan |};
                                    found_provider := opaybd |}))
      /\ In (db_select subscriptions) (events run))
  /\ (result run = Ok None <->
      stripe_getActiveSubscription env uid = Ok None
      /\ forall s, In s (subscriptions_rows db) ->
           ~ (Subscription.userId s = uid /\ Subscription.paymentProvider s = opaybd
              /\ Subscription.status s = active)).
Proof.
  intros run. subst run. rewrite getActiveSubscription_unfold.
  destruct (stripe_getActiveSubscription env uid) as [[s|]|e].
  - unfold result, database, events. simpl.
    split; [eauto|]. split; [reflexivity|].
    split; [intros s' Hs'; injection Hs' as <-; auto|].
    split; [discriminate|].
    split; [discriminate | intros [? _]; discriminate].
  - destruct (List.filter _ (subscriptions_rows db)) as [|sub rest] eqn:Hf;
      unfold result, database, events; simpl.
    + split; [eauto|]. split; [reflexivity|].
      split; [discriminate|].
      split; [split; [discriminate | auto]|].
      split; [intros _|reflexivity].
      split; [reflexivity|].
      intros s Hin Hs. apply is_active_opay_subscription_of_true in Hs.
      rewrite filter_nil_iff in Hf. rewrite (Hf s Hin) in Hs. discriminate.
    + split; [eauto|]. split; [reflexivity|].
      split; [discriminate|].
      split.
      { split; [|auto]. intros sub' rest' Heq. injection Heq as <- <-. eauto. }
      split; [discriminate|].
      intros [_ Hnone]. exfalso.
      assert (Hin : In sub (List.filter (OpayService.is_active_opay_subscription_of uid)
                              (subscriptions_rows db))) by (rewrite Hf; left; reflexivity).
      apply List.filter_In in Hin. destruct Hin as [Hin Hp].
      apply (Hnone sub Hin). apply is_active_opay_subscription_of_true. exact Hp.
  - unfold result, database, events. simpl.
    split; [eauto|]. split; [reflexivity|].
    split; [discriminate|].
    split; [discriminate|].
    split; [discriminate | intros [? _]; discriminate].
Qed.

(** Alice holds an active subscription under each provider: the router
    answers with the Stripe one. *)
Lemma getActiveSubscription_stripe_first_witness :
  let stripe_sub :=
    {| subscription := Sample.subscription_of "s-stripe" "u1" stripe false Sample.feb01;
       plan := Some Sample.pro |} in
  result (PaymentRouter.getActiveSubscription "u1"
            (Sample.deployment "stripe" (Some "key") None (Some stripe_sub)
               Sample.jan31 "PENDING" true)
            (Sample.with_subscriptions
               [Sample.subscription_of "s-opay" "u1" opaybd false Sample.feb01]))
  = Ok (Some {| found := stripe_sub; found_provider := stripe |}).
Proof.
  intros stripe_sub.
  pose proof (getActiveSubscription_stripe_first "u1"
                (Sample.deployment "stripe" (Some "key") None (Some stripe_sub)
                   Sample.jan31 "PENDING" true)
                (Sample.with_subscriptions
                   [Sample.subscription_of "s-opay" "u1" opaybd false Sample.feb01])) as H.
  cbv zeta in H. destruct H as (_ & _ & H & _).
  apply (H stripe_sub). reflexivity.
Defined.

(** ** C7: the renewal countdown *)

Lemma needs_renewal_true uid s :
  OpayService.needs_renewal uid s = true <->
  Subscription.userId s = uid /\ Subscription.paymentProvider s = opaybd
  /\ Subscription.renewalRequired s = Some true /\ Subscription.status s = active.
Proof.
  unfold OpayService.needs_renewal.
  rewrite !andb_true_iff, String.eqb_eq, provider_eqb_eq, status_eqb_eq.
  destruct (Subscription.renewalRequired s) as [[|]|]; intuition congruence.
Qed.

Lemma Math_ceil_div_spec a b d :
  0 < b -> (Js.Math_ceil_div a b = d <-> (d - 1) * b < a <= d * b).
Proof.
  intros Hb. unfold Js.Math_ceil_div.
  pose proof (Z.div_mod (- a) b ltac:(lia)) as Hdm.
  pose proof (Z.mod_pos_bound (- a) b Hb) as Hm.
  split; intros H; nia.
Qed.

Lemma checkRenewalRequired_unfold uid env db :
  PaymentRouter.checkRenewalRequired uid env db =
  (Ok (match List.filter (OpayService.needs_renewal uid) (subscriptions_rows db) with
       | [] => None
       | sub :: _ =>
           Some {| planTier :=
                     if Js.truthy (Some (Subscription.planTier sub))
                     then Subscription.planTier sub else "unknown";
                   daysRemaining :=
                     Js.Math_ceil_div (Subscription.currentPeriodEnd sub - now env)
                       (1000 * 60 * 60 * 24);
                   expiresAt := Subscription.currentPeriodEnd sub |}
       end),
   db, [db_select subscriptions]).
Proof.
  unfold PaymentRouter.checkRenewalRequired, OpayService.getSubscriptionNeedingRenewal,
    Db.select_subscriptions.
  run. destruct (List.filter _ (subscriptions_rows db)); reflexivity.
Qed.

(** C7.  [checkRenewalRequired] only reads the subscriptions: the
    database is unchanged, so a second call on it answers the same.  It
    returns [null] when no row is a regional-gateway subscription of the
    user with [renewalRequired] true and status ['active'].  Otherwise,
    for the first such row, it returns its tier (['unknown'] if empty),
    its period end as [expiresAt], and as [daysRemaining] the ceiling of
    (period end - now) / 86,400,000: the integer [d] with
    [(d - 1) * 86400000 < end - now <= d * 86400000], negative once the
    period has ended -- 3 for a period that ends in exactly three days,
    -2 for one that ended exactly two days ago. *)
Theorem checkRenewalRequired_countdown (uid : string) (env : Env) (db : Database) :
  let run := PaymentRouter.checkRenewalRequired uid env db in
  database run = db
  /\ events run = [db_select subscriptions]
  /\ PaymentRouter.checkRenewalRequired uid env (database run) = run
  /\ ((forall s, In s (subscriptions_rows db) ->
         ~ (Subscription.userId s = uid /\ Subscription.paymentProvider s = opaybd
            /\ Subscription.renewalRequired s = Some true
            /\ Subscription.status s = active)) ->
      result run = Ok None)
  /\ (forall sub rest,
        List.filter (OpayService.needs_renewal uid) (subscriptions_rows db) = sub :: rest ->
        exists info,
          result run = Ok (Some info)
          /\ planTier info = (if String.eqb (Subscription.planTier sub) ""
                              then "unknown" else Subscription.planTier sub)
          /\ expiresAt info = Subscription.currentPeriodEnd sub
          /\ (daysRemaining info - 1) * 86400000
             < Subscription.currentPeriodEnd sub - now env
             <= daysRemaining info * 86400000
          /\ (Subscription.currentPeriodEnd sub = now env + 3 * 86400000 ->
              daysRemaining info = 3)
          /\ (Subscription.currentPeriodEnd sub = now env - 2 * 86400000 ->
              daysRemaining info = -2)).
Proof.
  intros run. subst run. rewrite !checkRenewalRequired_unfold.
  unfold result, database, events. simpl.
  split; [reflexivity|]. split; [reflexivity|]. split; [reflexivity|].
  split.
  - intros Hnone.
    destruct (List.filter _ (subscriptions_rows db)) as [|sub rest] eqn:Hf; [reflexivity|].
    exfalso.
    assert (Hin : In sub (List.filter (OpayService.needs_renewal uid) (subscriptions_rows db)))
      by (rewrite Hf; left; reflexivity).
    apply List.filter_In in Hin. destruct Hin as [Hin Hp].
    apply (Hnone sub Hin). apply needs_renewal_true. exact Hp.
  - intros sub rest ->.
    eexists. split; [reflexivity|]. simpl.
    split; [destruct (Subscription.planTier sub =? "")%string; reflexivity|].
    split; [reflexivity|].
    assert (Hceil : forall d,
              Js.Math_ceil_div (Subscription.currentPeriodEnd sub - now env) 86400000 = d <->
              (d - 1) * 86400000 < Subscription.currentPeriodEnd sub - now env <= d * 86400000)
      by (intros d; apply Math_ceil_div_spec; lia).
    split; [apply Hceil; reflexivity|].
    split; intros He; apply Hceil; lia.
Qed.

(** Alice's flagged subscription ends in exactly three days, Bob's ended
    exactly two days ago. *)
Lemma checkRenewalRequired_countdown_witness :
  let db := Sample.with_subscriptions
              [Sample.subscription_of "s1" "u1" opaybd true (Sample.jan31 + 3 * 86400000);
               Sample.subscription_of "s2" "u2" opaybd true (Sample.jan31 - 2 * 86400000)] in
  let env := Sample.env_at Sample.jan31 "PENDING" true in
  result (PaymentRouter.checkRenewalRequired "u1" env db)
  = Ok (Some {| planTier := "pro"; daysRemaining := 3;
                expiresAt := Sample.jan31 + 3 * 86400000 |})
  /\ result (PaymentRouter.checkRenewalRequired "u2" env db)
     = Ok (Some {| planTier := "pro"; daysRemaining := -2;
                   expiresAt := Sample.jan31 - 2 * 86400000 |})
  /\ result (PaymentRouter.checkRenewalRequired "u3" env db) = Ok None.
Proof.
  intros db env.
  pose proof (checkRenewalRequired_countdown "u1" env db) as H1.
  pose proof (checkRenewalRequired_countdown "u2" env db) as H2.
  pose proof (checkRenewalRequired_countdown "u3" env db) as H3.
  cbv zeta in H1, H2, H3.
  destruct H1 as (_ & _ & _ & _ & H1). destruct H2 as (_ & _ & _ & _ & H2).
  destruct H3 as (_ & _ & _ & H3 & _).
  split; [|split].
  - destruct (H1 _ _ eq_refl) as ([t d e] & Hr & Ht & He & _ & Hd & _).
    simpl in *. rewrite Hr, Ht, He, (Hd eq_refl). reflexivity.
  - destruct (H2 _ _ eq_refl) as ([t d e] & Hr & Ht & He & _ & _ & Hd).
    simpl in *. rewrite Hr, Ht, He, (Hd eq_refl). reflexivity.
  - apply H3. intros s [<-|[<-|[]]] (Hu & _); discriminate Hu.
Defined.

(** ** C9: the sweep that flags expired subscriptions *)

Lemma expired_true now s :
  OpayService.expired now s = true <->
  Subscription.paymentProvider s = opaybd /\ Subscription.status s = active
  /\ Subscription.renewalRequired s = Some false
  /\ Subscription.currentPeriodEnd s < now.
Proof.
  unfold OpayService.expired.
  rewrite !andb_true_iff, provider_eqb_eq, status_eqb_eq, Z.ltb_lt.
  destruct (Subscription.renewalRequired s) as [[|]|]; simpl; intuition congruence.
Qed.

Lemma set_where_none {A} (p : A -> bool) (f : A -> A) (l : list A) :
  List.filter p l = [] -> Db.set_where p f l = l.
Proof.
  rewrite filter_nil_iff. unfold Db.set_where.
  induction l as [|a l IH]; intros H; simpl; [reflexivity|].
  rewrite (H a (or_introl eq_refl)), IH; [reflexivity|].
  intros x Hx. apply H. right. exact Hx.
Qed.

Lemma with_subscriptions_same db :
  Db.with_subscriptions (subscriptions_rows db) db = db.
Proof. destruct db; reflexivity. Qed.

Lemma markExpiredSubscriptionsForRenewal_unfold env db :
  OpayService.markExpiredSubscriptionsForRenewal env db =
  let n := Z.of_nat (length (List.filter (OpayService.expired (now env))
                               (subscriptions_rows db))) in
  if n =? 0 then (Ok 0, db, [db_select subscriptions])
  else (Ok n,
        Db.with_subscriptions
          (Db.set_where (OpayService.expired (now env)) (OpayService.flag (now env))
             (subscriptions_rows db)) db,
        [db_select subscriptions; db_update subscriptions;
         console_log ("Marked " +:+ pretty n +:+ " Opaybd subscription(s) for renewal")]).
Proof.
  unfold OpayService.markExpiredSubscriptionsForRenewal, Db.select_subscriptions,
    Db.update_subscriptions.
  run. destruct (Z.of_nat _ =? 0); reflexivity.
Qed.

(** The sweep in one equation: the count it returns and the table it
    leaves. *)
Lemma markExpiredSubscriptionsForRenewal_effect env db :
  result (OpayService.markExpiredSubscriptionsForRenewal env db)
  = Ok (Z.of_nat (length (List.filter (OpayService.expired (now env))
                            (subscriptions_rows db))))
  /\ database (OpayService.markExpiredSubscriptionsForRenewal env db)
     = Db.with_subscriptions
         (Db.set_where (OpayService.expired (now env)) (OpayService.flag (now env))
            (subscriptions_rows db)) db.
Proof.
  rewrite markExpiredSubscriptionsForRenewal_unfold. cbv zeta.
  destruct (Z.eqb_spec (Z.of_nat (length (List.filter (OpayService.expired (now env))
                                            (subscriptions_rows db)))) 0) as [H0|H0];
    unfold result, database; simpl.
  - rewrite H0. split; [reflexivity|].
    rewrite set_where_none; [symmetry; apply with_subscriptions_same|].
    destruct (List.filter _ _); [reflexivity | discriminate].
  - split; reflexivity.
Qed.

(** C9.  [markExpiredSubscriptionsForRenewal] sets [renewalRequired] (and
    [updatedAt]) on exactly the rows that are regional-gateway, ['active'],
    with [renewalRequired] false and a period end before now; every other
    row, and every other table, is as before; it returns how many rows it
    flagged.  Run again -- at the same instant, or later as long as no
    period end fell in between -- it finds nothing to flag: it returns 0
    and leaves the database alone. *)
Theorem markExpiredSubscriptionsForRenewal_sweep (env env2 : Env) (db : Database) :
  let run := OpayService.markExpiredSubscriptionsForRenewal env db in
  let due s :=
    Subscription.paymentProvider s = opaybd /\ Subscription.status s = active
    /\ Subscription.renewalRequired s = Some false
    /\ Subscription.currentPeriodEnd s < now env in
  Forall2 (fun old new =>
             (due old -> new = OpayService.flag (now env) old
                         /\ Subscription.renewalRequired new = Some true)
             /\ (~ due old -> new = old))
    (subscriptions_rows db) (subscriptions_rows (database run))
  /\ users_rows (database run) = users_rows db
  /\ pricingPlans_rows (database run) = pricingPlans_rows db
  /\ paymentHistory_rows (database run) = paymentHistory_rows db
  /\ result run = Ok (Z.of_nat (length (List.filter (OpayService.expired (now env))
                                          (subscriptions_rows db))))
  /\ (forall s, OpayService.expired (now env) s = true <-> due s)
  /\ ((forall s, In s (subscriptions_rows db) ->
         ~ (now env <= Subscription.currentPeriodEnd s < now env2)) ->
      result (OpayService.markExpiredSubscriptionsForRenewal env2 (database run)) = Ok 0
      /\ database (OpayService.markExpiredSubscriptionsForRenewal env2 (database run))
         = database run).
Proof.
  intros run due.
  destruct (markExpiredSubscriptionsForRenewal_effect env db) as [Hr Hd].
  fold run in Hr, Hd.
  assert (Hdue : forall s, OpayService.expired (now env) s = true <-> due s)
    by (intros s; apply expired_true).
  rewrite Hd, Hr. simpl.
  split.
  { unfold Db.set_where. clear Hr Hd.
    induction (subscriptions_rows db) as [|s rows IH]; simpl; constructor; [|exact IH].
    destruct (OpayService.expired (now env) s) eqn:He.
    - split; [intros _; split; reflexivity|]. intros Hn. exfalso. apply Hn, Hdue, He.
    - split; [|reflexivity]. intros Hs. apply Hdue in Hs. congruence. }
  do 5 (split; [reflexivity || exact Hdue|]).
  intros Hgap.
  assert (Hnone :
    List.filter (OpayService.expired (now env2))
      (Db.set_where (OpayService.expired (now env)) (OpayService.flag (now env))
         (subscriptions_rows db)) = []).
  { apply filter_nil_iff. intros x Hx. unfold Db.set_where in Hx.
    apply in_map_iff in Hx. destruct Hx as (s & <- & Hs).
    destruct (OpayService.expired (now env) s) eqn:He.
    - unfold OpayService.expired, OpayService.flag. simpl.
      rewrite andb_false_r. reflexivity.
    - destruct (OpayService.expired (now env2) s) eqn:He2; [|reflexivity].
      exfalso. apply expired_true in He2. destruct He2 as (Hp & Hst & Hrr & Hlt).
      apply (Hgap s Hs). split; [|exact Hlt].
      destruct (Z.le_gt_cases (now env) (Subscription.currentPeriodEnd s)) as [Hle|Hgt];
        [exact Hle|].
      assert (OpayService.expired (now env) s = true)
        by (apply expired_true; repeat split; assumption || lia).
      congruence. }
  destruct (markExpiredSubscriptionsForRenewal_effect env2
              (Db.with_subscriptions
                 (Db.set_where (OpayService.expired (now env)) (OpayService.flag (now env))
                    (subscriptions_rows db)) db)) as [Hr2 Hd2].
  simpl in Hr2, Hd2. rewrite Hnone in Hr2.
  split; [exact Hr2|]. rewrite Hd2.
  rewrite (set_where_none _ _ _ Hnone). reflexivity.
Qed.

(** Three subscriptions on 1 February: Alice's ended on 31 January and is
    flagged; Bob's ends in March; Carol's Stripe one is not looked at. *)
Lemma markExpiredSubscriptionsForRenewal_sweep_witness :
  let db := Sample.with_subscriptions
              [Sample.subscription_of "s1" "u1" opaybd false Sample.jan31;
               Sample.subscription_of "s2" "u2" opaybd false 1709337600000;
               Sample.subscription_of "s3" "u3" stripe false Sample.jan31] in
  let env := Sample.env_at Sample.feb01 "PENDING" true in
  let run := OpayService.markExpiredSubscriptionsForRenewal env db in
  result run = Ok 1
  /\ List.map Subscription.renewalRequired (subscriptions_rows (database run))
     = [Some true; Some false; Some false]
  /\ result (OpayService.markExpiredSubscriptionsForRenewal env (database run)) = Ok 0.
Proof.
  intros db env run.
  pose proof (markExpiredSubscriptionsForRenewal_sweep env env db) as H.
  cbv zeta in H. destruct H as (_ & _ & _ & _ & Hr & _ & Hagain).
  destruct Hagain as [Hr2 _]; [intros s _ Hs; lia|].
  split; [exact Hr|]. split; [vm_compute; reflexivity | exact Hr2].
Defined.

(** ** C8: the amount charged, and the empty BDT price *)





(** [create], branch by branch. *)
Lemma create_unfold data env db :
  PlanAdmin.create data env db =
  if demoMode env
  then (Ok (Some {| PlanAdmin.fail_status := 403;
                    PlanAdmin.fail_error := ADMIN_SAVE_DISABLED env |}), db, [])
  else
    match PlanAdmin.validate data with
    | inl failure => (Ok (Some failure), db, [])
    | inr v =>
        let row := PlanAdmin.new_plan v (now env) (randomUUID env (uuids_drawn db)) in
        let db' := Db.with_uuids_drawn (S (uuids_drawn db)) db in
        let failed :=
          (Ok (Some {| PlanAdmin.fail_status := 500;
                       PlanAdmin.fail_error := "Failed to create plan" |}),
           db', [db_insert pricingPlans; console_error "Error creating plan:"]) in
        if negb (Db.plan_in_range row) then failed
        else if List.existsb (fun p => String.eqb (PricingPlan.id p) (PricingPlan.id row))
                  (pricingPlans_rows db')
        then failed
        else if List.existsb
                  (fun p => String.eqb (PricingPlan.stripePriceId p)
                                       (PricingPlan.stripePriceId row))
                  (pricingPlans_rows db')
        then failed
        else (Throw (Redirect 303 "/admin/settings/plans"),
              Db.with_pricingPlans (pricingPlans_rows db' ++ [row]) db',
              [db_insert pricingPlans])
    end.
Proof.
  unfold PlanAdmin.create. step.
  destruct (demoMode env); [reflexivity|].
  destruct (PlanAdmin.validate data) as [f|v]; [reflexivity|].
  unfold Db.insert_pricingPlans, Db.draw_uuid, PlanAdmin.on_error. step.
  destruct (negb (Db.plan_in_range _)); [reflexivity|].
  destruct (List.existsb _ _); [reflexivity|].
  destruct (List.existsb _ _); reflexivity.
Qed.

(** [update], branch by branch. *)
Lemma update_unfold id data env db :
  PlanAdmin.update id data env db =
  if demoMode env
  then (Ok (Some {| PlanAdmin.fail_status := 403;
                    PlanAdmin.fail_error := ADMIN_SAVE_DISABLED env |}), db, [])
  else
    match id with
    | None => (Throw (HttpError 404 "Plan not found"), db, [])
    | Some planId =>
        if negb (Js.truthy (Some planId))
        then (Throw (HttpError 404 "Plan not found"), db, [])
        else
          match PlanAdmin.validate data with
          | inl failure => (Ok (Some failure), db, [])
          | inr v =>
              let isActive :=
                match PlanAdmin.get data "isActive" with
                | Some x => String.eqb x "on"
                | None => false
                end in
              let p := fun q => String.eqb (PricingPlan.id q) planId in
              let f := PlanAdmin.edited_plan v isActive (now env) in
              let rows := Db.set_where p f (pricingPlans_rows db) in
              let failed :=
                (Ok (Some {| PlanAdmin.fail_status := 500;
                             PlanAdmin.fail_error := "Failed to update plan" |}),
                 db, [db_update pricingPlans; console_error "Error updating plan:"]) in
              if negb (PlanAdmin.values_in_range v)
              then failed
              else if negb (Db.priceIds_distinct rows)
                      && Db.priceIds_distinct (pricingPlans_rows db)
              then failed
              else (Throw (Redirect 303 "/admin/settings/plans"),
                    Db.with_pricingPlans rows db, [db_update pricingPlans])
          end
    end.
Proof.
  unfold PlanAdmin.update. step.
  destruct (demoMode env); [reflexivity|].
  destruct id as [planId|]; [|reflexivity].
  destruct (negb (Js.truthy (Some planId))); [reflexivity|].
  destruct (PlanAdmin.validate data) as [f|v]; [reflexivity|].
  unfold Db.update_pricingPlans, PlanAdmin.on_error, PlanAdmin.edited.
  destruct (PlanAdmin.values_in_range v); cbn [negb]; step; [|reflexivity].
  destruct (negb _ && _); reflexivity.
Qed.












(** ** C2: the usage quota *)

Lemma current_trackUsage usage userId c month year :
  UsageTrackingService.current
    (UsageTrackingService.trackUsage userId c month year usage) userId month year c
  = UsageTrackingService.current usage userId month year c + 1.
Proof.
  unfold UsageTrackingService.current, UsageTrackingService.trackUsage.
  rewrite lookup_insert_eq.
  destruct (usage !! (userId, (month, year))) as [r|]; destruct c; reflexivity.
Qed.

Lemma current_after_tracking usage userId c month year (k : nat) :
  UsageTrackingService.current
    (Nat.iter k (UsageTrackingService.trackUsage userId c month year) usage)
    userId month year c
  = UsageTrackingService.current usage userId month year c + Z.of_nat k.
Proof.
  induction k as [|k IH].
  - simpl. lia.
  - rewrite Nat.iter_succ, current_trackUsage, IH. lia.
Qed.

(** C2.  [checkUsageLimit] never changes the counters.  It fails exactly
    when the plan of the user has a non-null limit for the category and
    the counter of the month has reached it, and the error it fails with
    carries remaining quota 0.  Hence with a null limit it never fails,
    whatever the counter; and with a limit [l], starting from a counter of
    zero, it succeeds after every number of [trackUsage] calls below [l]
    and fails after exactly [l] of them. *)
Theorem checkUsageLimit_quota
    (planOf : string -> PricingPlan.t) (userId : string)
    (c : UsageTrackingService.Category) (month year : Z)
    (usage : gmap (string * (Z * Z)) UsageTrackingService.Counters) :
  let check := UsageTrackingService.checkUsageLimit planOf userId c month year in
  let track := UsageTrackingService.trackUsage userId c month year in
  snd (check usage) = usage
  /\ (fst (check usage) = inl {| UsageTrackingService.remainingQuota := 0 |} <->
      exists l, UsageTrackingService.limit c (planOf userId) = Some l
                /\ l <= UsageTrackingService.current usage userId month year c)
  /\ (forall e, fst (check usage) = inl e -> UsageTrackingService.remainingQuota e = 0)
  /\ (fst (check usage) = inr tt <-> ~ exists e, fst (check usage) = inl e)
  /\ (UsageTrackingService.limit c (planOf userId) = None -> fst (check usage) = inr tt)
  /\ (forall l,
        UsageTrackingService.limit c (planOf userId) = Some l ->
        UsageTrackingService.current usage userId month year c = 0 ->
        forall k : nat,
          (Z.of_nat k < l -> fst (check (Nat.iter k track usage)) = inr tt)
          /\ (Z.of_nat k = l ->
              fst (check (Nat.iter k track usage))
              = inl {| UsageTrackingService.remainingQuota := 0 |})).
Proof.
  intros check track. subst check track.
  unfold UsageTrackingService.checkUsageLimit.
  destruct (UsageTrackingService.limit c (planOf userId)) as [l|] eqn:Hl.
  - destruct (Z.leb_spec l (UsageTrackingService.current usage userId month year c))
      as [Hle|Hgt]; simpl.
    + split; [reflexivity|].
      split; [split; [intros _; eauto | reflexivity]|].
      split; [intros e He; injection He as <-; reflexivity|].
      split; [split; [discriminate | intros Hn; exfalso; apply Hn; eauto]|].
      split; [discriminate|].
      intros l' Hl' H0 k. injection Hl' as <-.
      rewrite current_after_tracking, H0.
      split; intros Hk.
      * destruct (Z.leb_spec l (0 + Z.of_nat k)); [lia | reflexivity].
      * destruct (Z.leb_spec l (0 + Z.of_nat k)); [reflexivity | lia].
    + split; [reflexivity|].
      split; [split; [discriminate | intros (l' & Hl' & Hle); injection Hl' as <-; lia]|].
      split; [discriminate|].
      split; [split; [intros _ [e He]; discriminate | reflexivity]|].
      split; [discriminate|].
      intros l' Hl' H0 k. injection Hl' as <-.
      rewrite current_after_tracking, H0.
      split; intros Hk.
      * destruct (Z.leb_spec l (0 + Z.of_nat k)); [lia | reflexivity].
      * destruct (Z.leb_spec l (0 + Z.of_nat k)); [reflexivity | lia].
  - simpl.
    split; [reflexivity|].
    split; [split; [discriminate | intros (l' & Hl' & _); discriminate]|].
    split; [discriminate|].
    split; [split; [intros _ [e He]; discriminate | reflexivity]|].
    split; [reflexivity|].
    intros l'. discriminate.
Qed.

(** The pro plan allows three audio generations a month: the check passes
    after two, and fails after the third. *)
Lemma checkUsageLimit_quota_witness :
  let check := UsageTrackingService.checkUsageLimit (fun _ => Sample.pro) "u1"
                 UsageTrackingService.audio 2 2024 in
  let track := UsageTrackingService.trackUsage "u1" UsageTrackingService.audio 2 2024 in
  fst (check (track (track ∅))) = inr tt
  /\ fst (check (track (track (track ∅))))
     = inl {| UsageTrackingService.remainingQuota := 0 |}.
Proof.
  intros check track.
  pose proof (checkUsageLimit_quota (fun _ => Sample.pro) "u1"
                UsageTrackingService.audio 2 2024 ∅) as H.
  cbv zeta in H. destruct H as (_ & _ & _ & _ & _ & H).
  specialize (H 3 eq_refl eq_refl).
  split.
  - apply (H 2%nat). lia.
  - apply (H 3%nat). reflexivity.
Defined.

(* ===================================================================== *)
(** * Further properties of the billing code *)
(* ===================================================================== *)

(** ** What a successful [handlePaymentSuccess] leaves behind *)

(** The subscriptions [credit] leaves, whatever its outcome: the table as
    it was, or the renewed rows of the existing subscription, or one new
    row of the user appended when the user had none. *)
Lemma credit_subscriptions params m uid tier env db :
  let run := OpayService.credit params m uid tier env db in
  let before := subscriptions_rows db in
  subscriptions_rows (database run) = before
  \/ (exists existing rest amount,
        List.filter (OpayService.is_opay_subscription_of uid) before = existing :: rest
        /\ Db.integer (Js.Math_round (Js.times (paymentAmount params) 100)) = Ok amount
        /\ subscriptions_rows (database run)
           = Db.set_where
               (fun s => String.eqb (Subscription.id s) (Subscription.id existing))
               (OpayService.renew existing (Metadata.priceId m) tier (now env)
                  (OpayService.period_end (now env) (Metadata.billingInterval m))
                  (transactionId params) amount)
               before)
  \/ (exists row amount,
        List.filter (OpayService.is_opay_subscription_of uid) before = []
        /\ Db.integer (Js.Math_round (Js.times (paymentAmount params) 100)) = Ok amount
        /\ OpayService.fresh_subscription uid (Metadata.priceId m) tier (now env)
             (OpayService.period_end (now env) (Metadata.billingInterval m))
             (transactionId params) amount (randomUUID env (uuids_drawn db)) = Ok row
        /\ List.existsb (fun s => String.eqb (Subscription.id s) (Subscription.id row)) before
           = false
        /\ Db.user_exists uid db = true
        /\ subscriptions_rows (database run) = before ++ [row]).
Proof.
  intros run before. subst run before.
  destruct (List.filter (OpayService.is_opay_subscription_of uid) (subscriptions_rows db))
    as [|existing rest] eqn:Hf.
  - open_credit. rewrite Hf.
    crunch; try congruence; unfold database; cbn [fst snd];
      try (left; reflexivity);
      right; right; eexists _, _;
      (split; [reflexivity|]); (split; [reflexivity|]);
      (split; [first [eassumption | reflexivity]|]);
      (split; [match goal with H : existsb _ _ = false |- _ => exact H end|]);
      (split; [|reflexivity]);
      match goal with
      | H : OpayService.fresh_subscription _ _ _ _ _ _ _ _ = Ok ?row,
        Hx : negb (Db.user_exists _ _) = false |- _ =>
          apply negb_false_iff in Hx;
          unfold OpayService.fresh_subscription in H;
          destruct (Metadata.priceId m); [injection H as <-; exact Hx | discriminate]
      end.
  - destruct (Db.integer (Js.Math_round (Js.times (paymentAmount params) 100)))
      as [amount|e] eqn:Ha.
    + destruct (Metadata.null_priceId m) eqn:Hnull.
      * left. open_credit. rewrite Hf, Ha, Hnull. reflexivity.
      * right. left. exists existing, rest, amount.
        split; [reflexivity|]. split; [reflexivity|].
        apply (credit_existing params m uid tier env db existing rest amount Hf Ha Hnull).
    + left. open_credit. rewrite Hf, Ha. reflexivity.
Qed.

(** The subscription a [credit] that went through leaves for the user: a
    new row appended when the user had none, the first of the renewed
    rows otherwise. *)
Lemma credit_ok_subscription params m uid tier env db :
  result (OpayService.credit params m uid tier env db) = Ok tt ->
  let after := subscriptions_rows (database (OpayService.credit params m uid tier env db)) in
  exists s rest amount,
    List.filter (OpayService.is_opay_subscription_of uid) after = s :: rest
    /\ Db.integer (Js.Math_round (Js.times (paymentAmount params) 100)) = Ok amount
    /\ Subscription.status s = active
    /\ Subscription.renewalRequired s = Some false
    /\ Subscription.planTier s = tier
    /\ Subscription.currentPeriodStart s = now env
    /\ Subscription.currentPeriodEnd s
       = OpayService.period_end (now env) (Metadata.billingInterval m)
    /\ Subscription.opayTransactionId s = Some (transactionId params)
    /\ Subscription.lastPaymentAmount s = Some amount
    /\ ((List.filter (OpayService.is_opay_subscription_of uid) (subscriptions_rows db) = []
         /\ after = subscriptions_rows db ++ [s]
         /\ Subscription.stripeSubscriptionId s = "opay_" +:+ transactionId params
         /\ Subscription.id s = randomUUID env (uuids_drawn db))
        \/ (exists existing others,
              List.filter (OpayService.is_opay_subscription_of uid) (subscriptions_rows db)
              = existing :: others
              /\ Subscription.id s = Subscription.id existing
              /\ Subscription.previousPlanTier s = Some (Subscription.planTier existing)
              /\ Forall2 (fun old new =>
                            Subscription.id old <> Subscription.id existing -> new = old)
                   (subscriptions_rows db) after)).
Proof.
  intros Hok after. subst after.
  destruct (credit_ok_amount _ _ _ _ _ _ Hok) as [amount Ha].
  destruct (List.filter (OpayService.is_opay_subscription_of uid) (subscriptions_rows db))
    as [|existing rest] eqn:Hf.
  - destruct (credit_subscriptions params m uid tier env db) as [Hsame|[Hcase|Hcase]];
      cbv zeta in *.
    + exfalso. apply (credit_ok_subscribed _ _ _ _ _ _ Hok). rewrite Hsame. exact Hf.
    + destruct Hcase as (existing & rest & amount' & Hf' & _). congruence.
    + destruct Hcase as (row & amount' & _ & Ha' & Hrow & Hid & Hux & Hrows).
      rewrite Ha in Ha'. injection Ha' as <-.
      rewrite Hrows, List.filter_app, Hf.
      unfold OpayService.fresh_subscription in Hrow.
      destruct (Metadata.priceId m) as [pid|]; [|discriminate].
      injection Hrow as <-.
      cbn [List.filter].
      unfold OpayService.is_opay_subscription_of at 1.
      cbn [Subscription.userId Subscription.paymentProvider provider_eqb].
      rewrite String.eqb_refl. cbn [andb app].
      eexists _, _, amount. split; [reflexivity|]. split; [exact Ha|].
      repeat (split; [reflexivity|]).
      left. repeat split; reflexivity.
  - pose proof (credit_ok_priceId _ _ _ _ _ _ _ _ Hf Hok) as Hnull.
    destruct (credit_existing params m uid tier env db existing rest amount Hf Ha Hnull)
      as [Hrows _].
    rewrite Hrows.
    rewrite filter_set_where by (intros; apply renew_keeps_owner).
    rewrite Hf. simpl. rewrite String.eqb_refl.
    eexists _, _, amount. split; [reflexivity|]. split; [exact Ha|].
    repeat (split; [reflexivity|]).
    right. exists existing, rest. split; [reflexivity|].
    split; [reflexivity|]. split; [reflexivity|].
    apply set_where_id_others.
Qed.

(** What a [credit] that went through did to the other tables: the user's
    rows carry the tier, one payment is appended, the plans are as they
    were. *)
Lemma credit_ok_records params m uid tier env db :
  result (OpayService.credit params m uid tier env db) = Ok tt ->
  let after := database (OpayService.credit params m uid tier env db) in
  users_rows after
  = Db.set_where (fun u => String.eqb (User.id u) uid) (OpayService.activate tier)
      (users_rows db)
  /\ pricingPlans_rows after = pricingPlans_rows db
  /\ exists amount fee id,
       Db.integer (Js.Math_round (Js.times (paymentAmount params) 100)) = Ok amount
       /\ Db.integer (Js.Math_round (Js.times (paymentFee params) 100)) = Ok fee
       /\ paymentHistory_rows after
          = paymentHistory_rows db
            ++ [OpayService.payment_record uid
                  match List.filter (OpayService.is_opay_subscription_of uid)
                          (subscriptions_rows after) with
                  | s :: _ =>
                      if Js.truthy (Some (Subscription.id s))
                      then Some (Subscription.id s) else None
                  | [] => None
                  end
                  tier (now env) params amount fee id].
Proof.
  intros Hok after. subst after. revert Hok.
  destruct (List.filter (OpayService.is_opay_subscription_of uid) (subscriptions_rows db))
    as [|existing rest] eqn:Hf;
    open_credit; rewrite Hf; crunch; unfold result, database; cbn [fst snd];
    intros Hok; try discriminate Hok;
    (split; [reflexivity|]); (split; [reflexivity|]);
    eexists _, _, _; (split; [reflexivity|]); (split; [reflexivity|]); reflexivity.
Qed.


(** A call that went through had a verification to go by. *)
Lemma handlePaymentSuccess_ok_verified params env db :
  result (OpayService.handlePaymentSuccess params env db) = Ok tt ->
  exists v, result (OpayService.verifyPayment (transactionId params) env db) = Ok v.
Proof.
  intros Hok. rewrite handlePaymentSuccess_unfold in Hok. cbv zeta in Hok.
  destruct (OpayService.verifyPayment (transactionId params) env db) as [[[v|e] db1] ev];
    [exists v; reflexivity | discriminate Hok].
Qed.

(** The database [handlePaymentSuccess] leaves is the one it found, or
    the one a [credit] leaves. *)
Lemma handlePaymentSuccess_database params env db :
  database (OpayService.handlePaymentSuccess params env db) = db
  \/ exists m uid tier,
       database (OpayService.handlePaymentSuccess params env db)
       = database (OpayService.credit params m uid tier env db).
Proof.
  pose proof (verifyPayment_database (transactionId params) env db) as Hdb.
  rewrite handlePaymentSuccess_unfold. cbv zeta.
  destruct (OpayService.verifyPayment (transactionId params) env db) as [[[v|e] db1] ev];
    unfold database in Hdb; simpl in Hdb; subst db1; [|left; reflexivity].
  destruct (negb _); [left; reflexivity|].
  destruct (negb _ || negb _); [left; reflexivity|].
  destruct (Verification.metadata v) as [m| |]; try (left; reflexivity).
  destruct (Metadata.userId m) as [uid|]; [|left; reflexivity].
  destruct (Metadata.planTier m) as [tier|]; [|left; reflexivity].
  right. exists m, uid, tier.
  destruct (OpayService.credit params m uid tier env db) as [[r db2] ev2]. reflexivity.
Qed.

(** Per user: a payment never brings the number of regional-gateway
    subscriptions of a user above one. *)
Lemma handlePaymentSuccess_at_most_one params env db (u : string) :
  (length (List.filter (OpayService.is_opay_subscription_of u) (subscriptions_rows db))
   <= 1)%nat ->
  (length (List.filter (OpayService.is_opay_subscription_of u)
             (subscriptions_rows
                (database (OpayService.handlePaymentSuccess params env db)))) <= 1)%nat.
Proof.
  intros Hinv.
  destruct (handlePaymentSuccess_database params env db) as [->|(m & uid & tier & ->)];
    [exact Hinv|].
  destruct (credit_subscriptions params m uid tier env db) as [Hsame|[Hcase|Hcase]];
    cbv zeta in *.
  - rewrite Hsame. exact Hinv.
  - destruct Hcase as (existing & rest & amount & _ & _ & ->).
    rewrite filter_set_where by (intros; apply renew_keeps_owner).
    rewrite length_set_where. apply Hinv.
  - destruct Hcase as (row & amount & Hnone & _ & Hrow & _ & _ & ->).
    rewrite List.filter_app, length_app.
    assert (Hu : Subscription.userId row = uid).
    { unfold OpayService.fresh_subscription in Hrow.
      destruct (Metadata.priceId m); [injection Hrow as <-; reflexivity | discriminate]. }
    simpl. unfold OpayService.is_opay_subscription_of at 2. rewrite Hu.
    destruct (String.eqb_spec uid u) as [->|Hne]; simpl.
    + rewrite Hnone. destruct (provider_eqb _ _); simpl; lia.
    + lia.
Qed.



(** X2.  When [handlePaymentSuccess] returns it has appended exactly one
    row to [payment_history] and changed no earlier one: a ['succeeded']
    payment in ['bdt'] under provider ['opaybd'] for the user of the
    metadata, described by the plan tier, dated now, carrying the
    transaction id and payment method of the call, and as amount and fee
    [Math.round] of the binary64 products of the call's amount and fee
    with 100, both of which fit a 32-bit column.  If the user held at most
    one regional-gateway subscription, the row names the one the user
    holds now. *)
Theorem handlePaymentSuccess_records_payment
    (params : OpayCallbackParams) (env : Env) (db : Database) (v : Verification.t)
    (uid : string) :
  let run := OpayService.handlePaymentSuccess params env db in
  result run = Ok tt ->
  result (OpayService.verifyPayment (transactionId params) env db) = Ok v ->
  meta_field Metadata.userId (Verification.metadata v) = Some uid ->
  exists payment tier fee,
    paymentHistory_rows (database run) = paymentHistory_rows db ++ [payment]
    /\ meta_field Metadata.planTier (Verification.metadata v) = Some tier
    /\ PaymentHistory.userId payment = Some uid
    /\ PaymentHistory.status payment = succeeded
    /\ PaymentHistory.currency payment = "bdt"
    /\ PaymentHistory.paymentProvider payment = opaybd
    /\ PaymentHistory.description payment
       = Some ("Subscription payment for " +:+ tier +:+ " plan")
    /\ PaymentHistory.opayTransactionId payment = Some (transactionId params)
    /\ PaymentHistory.opayPaymentMethod payment = Some (paymentMethod params)
    /\ PaymentHistory.paidAt payment = Some (now env)
    /\ Js.Math_round (Js.times (paymentAmount params) 100) = Some (PaymentHistory.amount payment)
    /\ Js.Math_round (Js.times (paymentFee params) 100) = Some fee
    /\ PaymentHistory.opayPaymentFee payment = Some fee
    /\ Db.int4 (PaymentHistory.amount payment) = true
    /\ Db.int4 fee = true
    /\ ((length (List.filter (OpayService.is_opay_subscription_of uid)
                   (subscriptions_rows db)) <= 1)%nat ->
        exists s,
          List.filter (OpayService.is_opay_subscription_of uid)
            (subscriptions_rows (database run)) = [s]
          /\ PaymentHistory.subscriptionId payment
             = (if String.eqb (Subscription.id s) "" then None else Some (Subscription.id s))).
Proof.
  intros run Hok Hv Huid. subst run.
  pose proof (handlePaymentSuccess_at_most_one params env db uid) as Hmost.
  destruct (handlePaymentSuccess_ok _ _ _ _ Hok Hv)
    as (m & uid' & tier & Hm & Hu & Ht & Htruthy & Hcredit & Hdb).
  rewrite Hm in Huid. cbn [meta_field] in Huid. rewrite Hu in Huid. injection Huid as ->.
  rewrite Hdb in *. rewrite Hm. cbn [meta_field].
  destruct (credit_ok_subscription _ _ _ _ _ _ Hcredit)
    as (s & rest & amount0 & Hf & _).
  destruct (credit_ok_records _ _ _ _ _ _ Hcredit)
    as (_ & _ & amount & fee & id & Ha & Hfee & Hrows).
  cbv zeta in Hf, Hrows. rewrite Hf in Hrows.
  unfold Db.integer in Ha, Hfee.
  destruct (Js.Math_round (Js.times (paymentAmount params) 100)) as [a|]; [|discriminate].
  destruct (Js.Math_round (Js.times (paymentFee params) 100)) as [f|]; [|discriminate].
  destruct (Db.int4 a) eqn:Hia; [|discriminate]. injection Ha as <-.
  destruct (Db.int4 f) eqn:Hif; [|discriminate]. injection Hfee as <-.
  eexists _, tier, f. split; [exact Hrows|].
  cbn [OpayService.payment_record PaymentHistory.userId PaymentHistory.subscriptionId
       PaymentHistory.status PaymentHistory.currency PaymentHistory.paymentProvider
       PaymentHistory.opayTransactionId PaymentHistory.opayPaymentMethod
       PaymentHistory.description
       PaymentHistory.paidAt PaymentHistory.amount PaymentHistory.opayPaymentFee].
  split; [exact Ht|].
  do 11 (split; [reflexivity|]).
  split; [exact Hia|]. split; [exact Hif|].
  intros Hone. specialize (Hmost Hone). rewrite Hf in Hmost.
  destruct rest as [|s2 rest]; [|simpl in Hmost; lia].
  exists s. split; [exact Hf|].
  unfold Js.truthy. destruct (Subscription.id s =? "")%string; reflexivity.
Qed.

(** Alice's payment of 2200 taka with a fee of 33 is recorded as 220000
    and 3300 hundredths.  A payment of 0.145 with a fee of 1.005 is
    recorded as 14 and 100: the binary64 products are just below 14.5 and
    100.5. *)
Lemma handlePaymentSuccess_records_payment_witness :
  let env := Sample.env_at Sample.jan31 "COMPLETED" true in
  let odd := {| transactionId := "tx1"; paymentMethod := "bKash";
                paymentAmount := JsText.parseFloat "0.145";
                paymentFee := JsText.parseFloat "1.005" |} in
  (exists payment,
     paymentHistory_rows (database (OpayService.handlePaymentSuccess Sample.callback env
                                      Sample.db0)) = [payment]
     /\ PaymentHistory.amount payment = 220000
     /\ PaymentHistory.opayPaymentFee payment = Some 3300
     /\ PaymentHistory.subscriptionId payment = Some "uuid-0")
  /\ (exists payment,
        paymentHistory_rows (database (OpayService.handlePaymentSuccess odd env Sample.db0))
        = [payment]
        /\ PaymentHistory.amount payment = 14
        /\ PaymentHistory.opayPaymentFee payment = Some 100).
Proof.
  intros env odd. split.
  - destruct (handlePaymentSuccess_records_payment Sample.callback env Sample.db0
                (OpayService.with_metadata (MetaObject Sample.meta_pro)
                   (Sample.answer "COMPLETED")) "u1")
      as (payment & tier & fee & Hrows & _ & _ & _ & _ & _ & _ & _ & _ & _ & Ha & Hfee
          & Hstored & _ & _ & Hsub).
    + vm_compute. reflexivity.
    + vm_compute. reflexivity.
    + reflexivity.
    + exists payment. split; [exact Hrows|].
      assert (Hc : Js.Math_round (Js.times (paymentAmount Sample.callback) 100)
                   = Some 220000) by (vm_compute; reflexivity).
      assert (Hc' : Js.Math_round (Js.times (paymentFee Sample.callback) 100)
                    = Some 3300) by (vm_compute; reflexivity).
      rewrite Hc in Ha. injection Ha as <-. rewrite Hc' in Hfee. injection Hfee as <-.
      split; [reflexivity|]. split; [exact Hstored|].
      destruct Hsub as (s & Hs & ->); [simpl; lia|].
      assert (Hid : List.map Subscription.id
                      (List.filter (OpayService.is_opay_subscription_of "u1")
                         (subscriptions_rows
                            (database (OpayService.handlePaymentSuccess Sample.callback env
                                         Sample.db0)))) = ["uuid-0"])
        by (vm_compute; reflexivity).
      rewrite Hs in Hid. injection Hid as ->. reflexivity.
  - destruct (handlePaymentSuccess_records_payment odd env Sample.db0
                (OpayService.with_metadata (MetaObject Sample.meta_pro)
                   (Sample.answer "COMPLETED")) "u1")
      as (payment & tier & fee & Hrows & _ & _ & _ & _ & _ & _ & _ & _ & _ & Ha & Hfee
          & Hstored & _).
    + vm_compute. reflexivity.
    + vm_compute. reflexivity.
    + reflexivity.
    + exists payment. split; [exact Hrows|].
      assert (Hc : Js.Math_round (Js.times (paymentAmount odd) 100) = Some 14)
        by (vm_compute; reflexivity).
      assert (Hc' : Js.Math_round (Js.times (paymentFee odd) 100) = Some 100)
        by (vm_compute; reflexivity).
      rewrite Hc in Ha. injection Ha as <-. rewrite Hc' in Hfee. injection Hfee as <-.
      split; [reflexivity | exact Hstored].
Defined.

(** X3.  A first payment through the gateway -- the user of the metadata
    holds no regional-gateway subscription yet -- that goes through adds
    one subscription row at the end of the table, identified as
    ['opay_' + transactionId] under provider ['opaybd'] for that user, and
    leaves every existing row, a Stripe subscription of the same user
    included, exactly as it was. *)
Theorem handlePaymentSuccess_first_payment
    (params : OpayCallbackParams) (env : Env) (db : Database) (v : Verification.t)
    (uid : string) :
  let run := OpayService.handlePaymentSuccess params env db in
  result run = Ok tt ->
  result (OpayService.verifyPayment (transactionId params) env db) = Ok v ->
  meta_field Metadata.userId (Verification.metadata v) = Some uid ->
  List.filter (OpayService.is_opay_subscription_of uid) (subscriptions_rows db) = [] ->
  exists s,
    subscriptions_rows (database run) = subscriptions_rows db ++ [s]
    /\ Subscription.userId s = uid
    /\ Subscription.paymentProvider s = opaybd
    /\ Subscription.stripeSubscriptionId s = "opay_" +:+ transactionId params
    /\ Subscription.stripePriceId s
       = JsText.or_default (meta_field Metadata.priceId (Verification.metadata v)) ""
    /\ Subscription.previousPlanTier s = None
    /\ Db.user_exists uid db = true.
Proof.
  intros run Hok Hv Huid Hnone. subst run.
  destruct (handlePaymentSuccess_ok _ _ _ _ Hok Hv)
    as (m & uid' & tier & Hm & Hu & Ht & _ & Hcredit & Hdb).
  rewrite Hm in Huid. cbn [meta_field] in Huid. rewrite Hu in Huid. injection Huid as ->.
  rewrite Hdb, Hm. cbn [meta_field].
  destruct (credit_subscriptions params m uid tier env db) as [Hsame|[Hcase|Hcase]];
    cbv zeta in *.
  - exfalso. apply (credit_ok_subscribed _ _ _ _ _ _ Hcredit). rewrite Hsame. exact Hnone.
  - destruct Hcase as (existing & rest & amount & Hf & _). congruence.
  - destruct Hcase as (row & amount & _ & _ & Hrow & _ & Hux & Hrows).
    exists row. split; [exact Hrows|].
    unfold OpayService.fresh_subscription in Hrow.
    destruct (Metadata.priceId m) as [pid|] eqn:Hp; [|discriminate].
    injection Hrow as <-. cbn.
    repeat (split; [reflexivity|]).
    split; [|split; [reflexivity | exact Hux]].
    unfold JsText.or_default, Js.truthy.
    destruct (String.eqb_spec pid ""); [subst; reflexivity | reflexivity].
Qed.

(** Alice already holds a Stripe subscription when she pays through the
    gateway: the Stripe row stays first and unchanged, the new one
    follows. *)
Lemma handlePaymentSuccess_first_payment_witness :
  let stripe_row := Sample.subscription_of "s-stripe" "u1" stripe false Sample.feb01 in
  let run := OpayService.handlePaymentSuccess Sample.callback
               (Sample.env_at Sample.jan31 "COMPLETED" true)
               (Sample.with_subscriptions [stripe_row]) in
  exists s,
    subscriptions_rows (database run) = [stripe_row; s]
    /\ Subscription.stripeSubscriptionId s = "opay_tx1".
Proof.
  intros stripe_row run.
  destruct (handlePaymentSuccess_first_payment Sample.callback
              (Sample.env_at Sample.jan31 "COMPLETED" true)
              (Sample.with_subscriptions [stripe_row])
              (OpayService.with_metadata (MetaObject Sample.meta_pro)
                 (Sample.answer "COMPLETED")) "u1")
    as (s & Hrows & _ & _ & Hid & _).
  - vm_compute. reflexivity.
  - vm_compute. reflexivity.
  - reflexivity.
  - reflexivity.
  - exists s. split; [exact Hrows | exact Hid].
Defined.

(** ** Invariants and the renewal cycle *)

Lemma filter_andb {A} (p q : A -> bool) (l : list A) :
  List.filter (fun x => p x && q x) l = List.filter q (List.filter p l).
Proof.
  induction l as [|a l IH]; simpl; [reflexivity|].
  destruct (p a); simpl; [destruct (q a); rewrite IH; reflexivity | exact IH].
Qed.

(** ** The length of a paid period *)

(** [civil_from_days] inverts [days_from_civil]. *)
Lemma civil_from_days_spec z :
  let '(y, m, d) := Js.civil_from_days z in
  1 <= m <= 12 /\ 1 <= d <= 31 /\ Js.days_from_civil y m d = z.
Proof.
  unfold Js.civil_from_days, Js.days_from_civil. cbv zeta.
  set (z' := z + 719468).
  set (era := z' / 146097).
  set (doe := z' - era * 146097).
  assert (Hdoe : 0 <= doe < 146097) by (subst doe era; Z.div_mod_to_equations; lia).
  set (yoe := (doe - doe / 1460 + doe / 36524 - doe / 146096) / 365).
  set (doy := doe - (365 * yoe + yoe / 4 - yoe / 100)).
  assert (Hy : 0 <= yoe <= 399 /\ 0 <= doy <= 365)
    by (subst doy yoe; Z.div_mod_to_equations; lia).
  set (mp := (5 * doy + 2) / 153).
  assert (Hmp : 0 <= mp <= 11) by (subst mp; Z.div_mod_to_equations; lia).
  assert (Hd : 1 <= doy - (153 * mp + 2) / 5 + 1 <= 31)
    by (subst mp; Z.div_mod_to_equations; lia).
  destruct (Z.ltb_spec mp 10).
  - assert (Hm : (mp + 3 <=? 2) = false) by (apply Z.leb_gt; lia). rewrite Hm.
    assert (H2 : (2 <? mp + 3) = true) by (apply Z.ltb_lt; lia). rewrite H2.
    split; [lia|]. split; [exact Hd|].
    replace (mp + 3 - 3) with mp by lia.
    replace ((yoe + era * 400) / 400) with era by (Z.div_mod_to_equations; lia).
    replace (yoe + era * 400 - era * 400) with yoe by lia.
    subst doy z'. lia.
  - assert (Hm : (mp - 9 <=? 2) = true) by (apply Z.leb_le; lia). rewrite Hm.
    assert (H2 : (2 <? mp - 9) = false) by (apply Z.ltb_ge; lia). rewrite H2.
    split; [lia|]. split; [exact Hd|].
    replace (mp - 9 + 9) with mp by lia.
    replace (yoe + era * 400 + 1 - 1) with (yoe + era * 400) by lia.
    replace ((yoe + era * 400) / 400) with era by (Z.div_mod_to_equations; lia).
    replace (yoe + era * 400 - era * 400) with yoe by lia.
    subst doy z'. lia.
Qed.

(** From the first of a month to the first of the next. *)
Lemma month_length y m :
  1 <= m <= 12 ->
  28 <= Js.days_from_civil (y + m / 12) (m mod 12 + 1) 1 - Js.days_from_civil y m 1 <= 31.
Proof.
  intros Hm. unfold Js.days_from_civil. cbv zeta.
  assert (Hc : m <= 11 /\ m / 12 = 0 /\ m mod 12 = m \/ m = 12 /\ m / 12 = 1 /\ m mod 12 = 0)
    by (Z.div_mod_to_equations; lia).
  destruct Hc as [(Hle & -> & ->)|(-> & -> & ->)].
  - replace (y + 0) with y by lia.
    destruct (Z.leb_spec m 2); destruct (Z.ltb_spec 2 m); try (exfalso; lia);
      destruct (Z.leb_spec (m + 1) 2); destruct (Z.ltb_spec 2 (m + 1)); try (exfalso; lia).
    + assert (m = 1) by lia. subst m. Z.div_mod_to_equations; lia.
    + assert (m = 2) by lia. subst m. Z.div_mod_to_equations; lia.
    + replace (m + 1 - 3) with (m - 3 + 1) by lia.
      assert (Hq : 28 <= (153 * (m - 3 + 1) + 2) / 5 - (153 * (m - 3) + 2) / 5 <= 31).
      { assert (m = 3 \/ m = 4 \/ m = 5 \/ m = 6 \/ m = 7 \/ m = 8 \/ m = 9 \/ m = 10
                \/ m = 11) as Hc by lia.
        repeat (destruct Hc as [->|Hc]); try subst m; cbv; split; discriminate. }
      lia.
  - change (12 <=? 2) with false. change (2 <? 12) with true.
    change (0 + 1 <=? 2) with true. change (2 <? 0 + 1) with false. cbv iota.
    replace (y + 1 - 1) with y by lia. Z.div_mod_to_equations; lia.
Qed.

(** From a day of a year to the same day of the next. *)
Lemma year_length y m :
  1 <= m <= 12 ->
  365 <= Js.days_from_civil (y + 1) m 1 - Js.days_from_civil y m 1 <= 366.
Proof.
  intros Hm. unfold Js.days_from_civil. cbv zeta.
  destruct (m <=? 2); destruct (2 <? m); Z.div_mod_to_equations; lia.
Qed.

Lemma days_from_civil_day y m d :
  Js.days_from_civil y m d = Js.days_from_civil y m 1 + d - 1.
Proof. unfold Js.days_from_civil. cbv zeta. lia. Qed.

Lemma period_end_length now interval :
  let length := OpayService.period_end now interval - now in
  (if JsText.strict_eq interval "year"
   then 365 * 86400000 <= length <= 366 * 86400000
   else 28 * 86400000 <= length <= 31 * 86400000)
  /\ Js.TimeWithinDay (OpayService.period_end now interval) = Js.TimeWithinDay now.
Proof.
  cbv zeta.
  pose proof (civil_from_days_spec (Js.Day now)) as Hc.
  assert (Hnow : now = Js.Day now * 86400000 + Js.TimeWithinDay now).
  { unfold Js.Day, Js.TimeWithinDay, Js.msPerDay. Z.div_mod_to_equations. lia. }
  assert (Htime : 0 <= Js.TimeWithinDay now < 86400000).
  { unfold Js.TimeWithinDay, Js.msPerDay. Z.div_mod_to_equations. lia. }
  assert (Hmonth :
            28 * 86400000 <= Js.setMonth now (Js.getMonth now + 1) - now <= 31 * 86400000
            /\ Js.TimeWithinDay (Js.setMonth now (Js.getMonth now + 1)) = Js.TimeWithinDay now).
  { unfold Js.setMonth, Js.getMonth, Js.getFullYear, Js.getDate, Js.MakeDate, Js.MakeDay.
    destruct (Js.civil_from_days (Js.Day now)) as [[y m] d]. cbn [fst snd].
    destruct Hc as (Hm & Hd & Hday). rewrite days_from_civil_day in Hday.
    replace (m - 1 + 1) with m by lia.
    pose proof (month_length y m Hm) as Hlen. cbv zeta.
    set (first' := Js.days_from_civil (y + m / 12) (m mod 12 + 1) 1) in *.
    set (first := Js.days_from_civil y m 1) in *.
    split; [change Js.msPerDay with 86400000; lia|].
    unfold Js.TimeWithinDay at 1. unfold Js.msPerDay at 1 2.
    rewrite Z.add_comm, Z.mod_add by lia.
    unfold Js.TimeWithinDay, Js.msPerDay. apply Z.mod_mod. lia. }
  assert (Hyear :
            365 * 86400000 <= Js.setFullYear now (Js.getFullYear now + 1) - now
            <= 366 * 86400000
            /\ Js.TimeWithinDay (Js.setFullYear now (Js.getFullYear now + 1))
               = Js.TimeWithinDay now).
  { unfold Js.setFullYear, Js.getMonth, Js.getFullYear, Js.getDate, Js.MakeDate, Js.MakeDay.
    destruct (Js.civil_from_days (Js.Day now)) as [[y m] d]. cbn [fst snd].
    destruct Hc as (Hm & Hd & Hday). rewrite days_from_civil_day in Hday.
    cbv zeta.
    replace ((m - 1) / 12) with 0 by (Z.div_mod_to_equations; lia).
    replace ((m - 1) mod 12 + 1) with m by (Z.div_mod_to_equations; lia).
    replace (y + 1 + 0) with (y + 1) by lia.
    pose proof (year_length y m Hm) as Hlen.
    set (first' := Js.days_from_civil (y + 1) m 1) in *.
    set (first := Js.days_from_civil y m 1) in *.
    split; [change Js.msPerDay with 86400000; lia|].
    unfold Js.TimeWithinDay at 1. unfold Js.msPerDay at 1 2.
    rewrite Z.add_comm, Z.mod_add by lia.
    unfold Js.TimeWithinDay, Js.msPerDay. apply Z.mod_mod. lia. }
  unfold OpayService.period_end, JsText.strict_eq.
  destruct interval as [i|]; [|exact Hmonth].
  destruct (i =? "year")%string; [exact Hyear | exact Hmonth].
Qed.



(** X4.  [handlePaymentSuccess] keeps the invariant that no user holds two
    regional-gateway subscriptions, whether it returns or throws: it
    inserts a row only for a user who has none, and a renewal changes
    neither owner nor provider of a row. *)
Theorem handlePaymentSuccess_one_subscription_each
    (params : OpayCallbackParams) (env : Env) (db : Database) :
  one_opay_subscription_each (subscriptions_rows db) ->
  one_opay_subscription_each
    (subscriptions_rows (database (OpayService.handlePaymentSuccess params env db))).
Proof.
  intros Hinv u. apply handlePaymentSuccess_at_most_one, Hinv.
Qed.

(** From a table without subscriptions, a payment leaves at most one per
    user. *)
Lemma handlePaymentSuccess_one_subscription_each_witness :
  one_opay_subscription_each
    (subscriptions_rows
       (database (OpayService.handlePaymentSuccess Sample.callback
                    (Sample.env_at Sample.jan31 "COMPLETED" true) Sample.db0))).
Proof.
  apply handlePaymentSuccess_one_subscription_each.
  intros uid. simpl. lia.
Defined.

(** X5.  After a payment that went through, the gateway's
    [getActiveSubscription] finds, whatever the clock, a subscription of
    the user that is active and of provider ['opaybd'].  If the user held
    at most one regional-gateway subscription before the payment, the one
    found is the paid one -- its period starts at the payment and its tier
    is the paid tier -- and [checkRenewalRequired] has nothing left to
    report: paying clears the renewal notice. *)
Theorem handlePaymentSuccess_then_lookups
    (params : OpayCallbackParams) (env env' : Env) (db : Database) (v : Verification.t)
    (uid : string) :
  let after := database (OpayService.handlePaymentSuccess params env db) in
  result (OpayService.handlePaymentSuccess params env db) = Ok tt ->
  result (OpayService.verifyPayment (transactionId params) env db) = Ok v ->
  meta_field Metadata.userId (Verification.metadata v) = Some uid ->
  exists found,
    result (OpayService.getActiveSubscription uid env' after) = Ok (Some found)
    /\ Subscription.userId (subscription found) = uid
    /\ Subscription.paymentProvider (subscription found) = opaybd
    /\ Subscription.status (subscription found) = active
    /\ ((length (List.filter (OpayService.is_opay_subscription_of uid) (subscriptions_rows db))
         <= 1)%nat ->
        List.filter (OpayService.is_opay_subscription_of uid) (subscriptions_rows after)
        = [subscription found]
        /\ Subscription.currentPeriodStart (subscription found) = now env
        /\ Some (Subscription.planTier (subscription found))
           = meta_field Metadata.planTier (Verification.metadata v)
        /\ Subscription.renewalRequired (subscription found) = Some false
        /\ Subscription.opayTransactionId (subscription found) = Some (transactionId params)
        /\ result (PaymentRouter.checkRenewalRequired uid env' after) = Ok None).
Proof.
  intros after Hok Hv Huid. subst after.
  pose proof (handlePaymentSuccess_at_most_one params env db uid) as Hmost.
  destruct (handlePaymentSuccess_ok _ _ _ _ Hok Hv)
    as (m & uid' & tier & Hm & Hu & Ht & _ & Hcredit & Hdb).
  rewrite Hm in Huid |- *. cbn [meta_field] in Huid |- *.
  rewrite Hu in Huid. injection Huid as ->. rewrite Hdb in *.
  destruct (credit_ok_subscription _ _ _ _ _ _ Hcredit)
    as (s & rest & amount & Hf & _ & Hst & Hrr & Htier & Hstart & _ & Htx & _).
  assert (Hs : OpayService.is_opay_subscription_of uid s = true).
  { assert (Hin : In s (s :: rest)) by (left; reflexivity).
    rewrite <- Hf in Hin. apply List.filter_In in Hin. apply Hin. }
  unfold OpayService.is_opay_subscription_of in Hs.
  apply andb_true_iff in Hs. destruct Hs as [Hs Hp].
  apply String.eqb_eq in Hs. apply provider_eqb_eq in Hp.
  rewrite OpayService_getActiveSubscription_unfold.
  change (OpayService.is_active_opay_subscription_of uid)
    with (fun x => OpayService.is_opay_subscription_of uid x
                   && status_eqb (Subscription.status x) active).
  rewrite filter_andb, Hf. simpl. rewrite Hst. simpl.
  eexists. split; [reflexivity|]. cbn [subscription].
  split; [exact Hs|]. split; [exact Hp|]. split; [exact Hst|].
  intros Hone. specialize (Hmost Hone). rewrite Hf in Hmost.
  destruct rest as [|s2 rest]; [|simpl in Hmost; lia].
  split; [reflexivity|]. split; [exact Hstart|].
  split; [rewrite Ht, Htier; reflexivity|]. split; [exact Hrr|].
  split; [exact Htx|].
  rewrite checkRenewalRequired_unfold. unfold result. simpl.
  change (OpayService.needs_renewal uid)
    with (fun x => OpayService.is_opay_subscription_of uid x
                   && match Subscription.renewalRequired x with
                      | Some b => b
                      | None => false
                      end
                   && status_eqb (Subscription.status x) active).
  rewrite (filter_andb (fun x => OpayService.is_opay_subscription_of uid x
                                 && match Subscription.renewalRequired x with
                                    | Some b => b
                                    | None => false
                                    end)).
  rewrite (filter_andb (OpayService.is_opay_subscription_of uid)).
  rewrite Hf. simpl. rewrite Hrr. reflexivity.
Qed.

(** After Alice's payment the gateway finds her subscription, of tier
    ['pro'] and starting at the payment, and no renewal is due. *)
Lemma handlePaymentSuccess_then_lookups_witness :
  let env := Sample.env_at Sample.jan31 "COMPLETED" true in
  let after := database (OpayService.handlePaymentSuccess Sample.callback env Sample.db0) in
  result (PaymentRouter.checkRenewalRequired "u1" env after) = Ok None
  /\ exists found,
       result (OpayService.getActiveSubscription "u1" env after) = Ok (Some found)
       /\ Subscription.userId (subscription found) = "u1"
       /\ Subscription.status (subscription found) = active
       /\ Subscription.planTier (subscription found) = "pro"
       /\ Subscription.currentPeriodStart (subscription found) = Sample.jan31.
Proof.
  intros env after.
  destruct (handlePaymentSuccess_then_lookups Sample.callback env env Sample.db0
              (OpayService.with_metadata (MetaObject Sample.meta_pro)
                 (Sample.answer "COMPLETED")) "u1")
    as (found & Hfound & Huser & _ & Hactive & Hone).
  - vm_compute. reflexivity.
  - vm_compute. reflexivity.
  - reflexivity.
  - destruct Hone as (_ & Hstart & Htier & _ & _ & Hnone); [simpl; lia|].
    split; [exact Hnone|]. exists found.
    split; [exact Hfound|]. split; [exact Huser|]. split; [exact Hactive|].
    split; [|exact Hstart].
    injection Htier as ->. reflexivity.
Defined.

Lemma needs_renewal_filter uid (l : list Subscription.t) :
  List.filter (OpayService.needs_renewal uid) l
  = List.filter (fun x => status_eqb (Subscription.status x) active)
      (List.filter (fun x => match Subscription.renewalRequired x with
                             | Some b => b
                             | None => false
                             end)
         (List.filter (OpayService.is_opay_subscription_of uid) l)).
Proof.
  change (OpayService.needs_renewal uid)
    with (fun x => OpayService.is_opay_subscription_of uid x
                   && match Subscription.renewalRequired x with
                      | Some b => b
                      | None => false
                      end
                   && status_eqb (Subscription.status x) active).
  rewrite (filter_andb (fun x => OpayService.is_opay_subscription_of uid x
                                 && match Subscription.renewalRequired x with
                                    | Some b => b
                                    | None => false
                                    end)).
  rewrite (filter_andb (OpayService.is_opay_subscription_of uid)).
  reflexivity.
Qed.

(** X6.  The sweep feeds the renewal notice.  A user who holds a
    subscription that [markExpiredSubscriptionsForRenewal] finds expired
    is, once the sweep has run, told by [checkRenewalRequired] to renew;
    if that subscription is the user's only regional-gateway one, the
    notice carries its period end, counts no day as remaining from the
    time of the sweep on, and was not shown before the sweep. *)
Theorem markExpiredSubscriptionsForRenewal_then_notice
    (uid : string) (env env' : Env) (db : Database) (s : Subscription.t) :
  let swept := database (OpayService.markExpiredSubscriptionsForRenewal env db) in
  In s (subscriptions_rows db) ->
  Subscription.userId s = uid ->
  OpayService.expired (now env) s = true ->
  exists info,
    result (PaymentRouter.checkRenewalRequired uid env' swept) = Ok (Some info)
    /\ (List.filter (OpayService.is_opay_subscription_of uid) (subscriptions_rows db) = [s] ->
        expiresAt info = Subscription.currentPeriodEnd s
        /\ (now env <= now env' -> daysRemaining info <= 0)
        /\ result (PaymentRouter.checkRenewalRequired uid env' db) = Ok None).
Proof.
  intros swept Hin Huid Hexp. subst swept.
  destruct (markExpiredSubscriptionsForRenewal_effect env db) as [_ ->].
  rewrite !checkRenewalRequired_unfold. unfold result. cbn [fst].
  cbn [subscriptions_rows Db.with_subscriptions].
  pose proof Hexp as Hdue. apply expired_true in Hdue.
  destruct Hdue as (Hp & Hst & Hrr & Hend).
  assert (Hflag : In (OpayService.flag (now env) s)
                    (List.filter (OpayService.needs_renewal uid)
                       (Db.set_where (OpayService.expired (now env))
                          (OpayService.flag (now env)) (subscriptions_rows db)))).
  { apply List.filter_In. split.
    - unfold Db.set_where. apply in_map_iff. exists s. rewrite Hexp. split; [reflexivity|exact Hin].
    - apply needs_renewal_true. cbn. repeat split; assumption. }
  destruct (List.filter (OpayService.needs_renewal uid)
              (Db.set_where (OpayService.expired (now env))
                 (OpayService.flag (now env)) (subscriptions_rows db)))
    as [|sub others] eqn:Hf; [destruct Hflag|].
  eexists. split; [reflexivity|]. cbn [expiresAt daysRemaining].
  intros Honly.
  rewrite needs_renewal_filter in Hf.
  rewrite filter_set_where in Hf by (intros x; reflexivity).
  rewrite Honly in Hf. unfold Db.set_where in Hf. cbn [List.map] in Hf.
  rewrite Hexp in Hf. cbn in Hf. rewrite Hst in Hf. cbn in Hf.
  injection Hf as <- _. cbn [OpayService.flag Subscription.currentPeriodEnd].
  split; [reflexivity|]. split.
  - intros Hlater.
    pose proof (proj1 (Math_ceil_div_spec (Subscription.currentPeriodEnd s - now env')
                         (1000 * 60 * 60 * 24) _ ltac:(lia)) eq_refl) as Hd.
    nia.
  - rewrite needs_renewal_filter, Honly. cbn. rewrite Hrr. reflexivity.
Qed.

(** Bob's subscription ran out on 31 January; swept on 1 February, the
    notice shows no day remaining. *)
Lemma markExpiredSubscriptionsForRenewal_then_notice_witness :
  let row := Sample.subscription_of "s1" "u1" opaybd false Sample.jan31 in
  let env := Sample.env_at Sample.feb01 "COMPLETED" true in
  exists info,
    result (PaymentRouter.checkRenewalRequired "u1" env
              (database (OpayService.markExpiredSubscriptionsForRenewal env
                           (Sample.with_subscriptions [row]))))
    = Ok (Some info)
    /\ daysRemaining info <= 0.
Proof.
  intros row env.
  destruct (markExpiredSubscriptionsForRenewal_then_notice "u1" env env
              (Sample.with_subscriptions [row]) row)
    as (info & Hinfo & Honly).
  - left. reflexivity.
  - reflexivity.
  - vm_compute. reflexivity.
  - exists info. split; [exact Hinfo|].
    apply Honly; [reflexivity | lia].
Defined.

(** X7.  The sweep revokes nothing.  The gateway's
    [getActiveSubscription] answers before and after
    [markExpiredSubscriptionsForRenewal]; it serves a user after the sweep
    exactly when it served the user before, and what it serves after is an
    active subscription of the user with provider ['opaybd'].  For a user
    with at most one active regional-gateway subscription it serves the
    same row -- at most flagged for renewal -- with the same plan. *)
Theorem markExpiredSubscriptionsForRenewal_keeps_access
    (uid : string) (env env' : Env) (db : Database) :
  let swept := database (OpayService.markExpiredSubscriptionsForRenewal env db) in
  let mark a :=
    {| subscription := if OpayService.expired (now env) (subscription a)
                       then OpayService.flag (now env) (subscription a)
                       else subscription a;
       plan := plan a |} in
  exists before after,
    result (OpayService.getActiveSubscription uid env' db) = Ok before
    /\ result (OpayService.getActiveSubscription uid env' swept) = Ok after
    /\ (before = None <-> after = None)
    /\ (forall a, after = Some a ->
          Subscription.userId (subscription a) = uid
          /\ Subscription.paymentProvider (subscription a) = opaybd
          /\ Subscription.status (subscription a) = active)
    /\ ((length (List.filter (OpayService.is_active_opay_subscription_of uid)
                   (subscriptions_rows db)) <= 1)%nat ->
        after = option_map mark before
        /\ forall a, before = Some a ->
             Subscription.id (subscription (mark a)) = Subscription.id (subscription a)
             /\ Subscription.planTier (subscription (mark a))
                = Subscription.planTier (subscription a)
             /\ Subscription.currentPeriodStart (subscription (mark a))
                = Subscription.currentPeriodStart (subscription a)
             /\ Subscription.currentPeriodEnd (subscription (mark a))
                = Subscription.currentPeriodEnd (subscription a)
             /\ Subscription.renewalRequired (subscription (mark a))
                = (if OpayService.expired (now env) (subscription a) then Some true
                   else Subscription.renewalRequired (subscription a))).
Proof.
  intros swept mark. subst swept mark.
  destruct (markExpiredSubscriptionsForRenewal_effect env db) as [_ ->].
  rewrite !OpayService_getActiveSubscription_unfold.
  cbn [subscriptions_rows pricingPlans_rows Db.with_subscriptions].
  rewrite filter_set_where by (intros x; reflexivity).
  destruct (List.filter (OpayService.is_active_opay_subscription_of uid)
              (subscriptions_rows db)) as [|sub others] eqn:Hf.
  - exists None, None. cbn. split; [reflexivity|]. split; [reflexivity|].
    split; [tauto|]. split; [intros; discriminate|].
    intros _. split; [reflexivity | intros; discriminate].
  - assert (Hact : OpayService.is_active_opay_subscription_of uid sub = true).
    { assert (Hin : In sub (sub :: others)) by (left; reflexivity).
      rewrite <- Hf in Hin. apply List.filter_In in Hin. apply Hin. }
    apply is_active_opay_subscription_of_true in Hact. destruct Hact as (Hu & Hp & Hst).
    eexists _, _. split; [reflexivity|]. unfold Db.set_where. cbn [List.map result fst].
    split; [reflexivity|].
    split; [split; intros; discriminate|].
    split.
    + intros a0 Ha. injection Ha as <-. cbn [subscription plan].
      destruct (OpayService.expired (now env) sub); cbn; repeat split; assumption.
    + intros _. cbn [option_map subscription plan]. split.
      * destruct (OpayService.expired (now env) sub); reflexivity.
      * intros a0 Ha. injection Ha as <-. cbn [subscription plan].
        destruct (OpayService.expired (now env) sub); cbn; repeat split; reflexivity.
Qed.

(** Alice's lapsed subscription is flagged by the sweep and still
    served. *)
Lemma markExpiredSubscriptionsForRenewal_keeps_access_witness :
  let row := Sample.subscription_of "s1" "u1" opaybd false Sample.jan31 in
  let env := Sample.env_at Sample.feb01 "COMPLETED" true in
  exists served,
    result (OpayService.getActiveSubscription "u1" env
              (database (OpayService.markExpiredSubscriptionsForRenewal env
                           (Sample.with_subscriptions [row]))))
    = Ok (Some served)
    /\ Subscription.id (subscription served) = "s1"
    /\ Subscription.renewalRequired (subscription served) = Some true
    /\ plan served = Some Sample.pro.
Proof.
  intros row env.
  destruct (markExpiredSubscriptionsForRenewal_keeps_access "u1" env env
              (Sample.with_subscriptions [row]))
    as (before & after & Hbefore & Hafter & _ & _ & Hone).
  assert (Hb : result (OpayService.getActiveSubscription "u1" env
                         (Sample.with_subscriptions [row]))
               = Ok (Some {| subscription := row; plan := Some Sample.pro |}))
    by (vm_compute; reflexivity).
  rewrite Hb in Hbefore. injection Hbefore as <-.
  destruct Hone as [-> _]; [simpl; lia|].
  eexists. split; [exact Hafter|]. repeat split; reflexivity.
Defined.

(** ** Starting a payment *)

(** X8.  [createPayment] reads and asks, it never writes: the database
    is the one it found whatever the outcome.  It fails with
    ['User not found'] after one query when no user has the identifier,
    and with ['Pricing plan not found'] after two when the user exists but
    no plan does; an unconfigured gateway is never contacted; and when it
    returns, it returns the body the gateway answered with [status] true
    to a request whose metadata name the paying user, the plan and the
    plan's tier. *)
Theorem createPayment_outcomes (params : OpayPaymentCreateParams) (env : Env) (db : Database) :
  let run := OpayService.createPayment params env db in
  let found_users := List.filter (fun u => String.eqb (User.id u) (cp_userId params))
                 (users_rows db) in
  let found_plans := List.filter (fun p => String.eqb (PricingPlan.id p) (cp_planId params))
                 (pricingPlans_rows db) in
  database run = db
  /\ no_db_write (events run)
  /\ (found_users = [] ->
      result run = Throw (Error "User not found") /\ events run = [db_select users])
  /\ (found_users <> [] -> found_plans = [] ->
      result run = Throw (Error "Pricing plan not found")
      /\ events run = [db_select users; db_select pricingPlans])
  /\ (result (OpayService.isConfigured env db) = Ok false ->
      List.filter is_network (events run) = [] /\ exists e, result run = Throw e)
  /\ (forall data, result run = Ok data ->
      CreateResponse.status data = true
      /\ exists plan rest body,
           found_plans = plan :: rest
           /\ opay_create env body = HttpOk data
           /\ In (http_post (OPAY_API_BASE +:+ "/create") (CreateBody body)) (events run)
           /\ CreateRequest.success_url body = cp_successUrl params
           /\ Metadata.userId (CreateRequest.meta_data body) = Some (cp_userId params)
           /\ Metadata.planId (CreateRequest.meta_data body) = Some (cp_planId params)
           /\ Metadata.priceId (CreateRequest.meta_data body) = Some (cp_priceId params)
           /\ Metadata.planTier (CreateRequest.meta_data body) = Some (PricingPlan.tier plan)
           /\ Metadata.billingInterval (CreateRequest.meta_data body)
              = Some (PricingPlan.billingInterval plan)).
Proof.
  intros run found_users found_plans. subst run found_users found_plans.
  rewrite isConfigured_spec.
  unfold OpayService.createPayment, OpayService.getHeaders, Db.select_users,
    Db.select_pricingPlans, no_db_write.
  run.
  destruct (List.filter _ (users_rows db)) as [|user users']; simpl.
  { repeat split; intros; try congruence; try discriminate; repeat constructor; eauto. }
  destruct (List.filter _ (pricingPlans_rows db)) as [|plan plans']; simpl.
  { repeat split; intros; try congruence; try discriminate; repeat constructor; eauto. }
  destruct (PricingPlan.priceAmountBdt plan) as [bdt|]; simpl;
  (destruct (opaySettings env) as [[[key|]]|e] eqn:Hs; simpl;
   [destruct (negb (key =? ""))%string eqn:Hk; simpl;
    [destruct (URL_origin env (cp_successUrl params)) as [origin|] eqn:Ho; simpl;
     [match goal with
      | |- context [opay_create env ?b] =>
          destruct (opay_create env b) as [r|c t|d|r] eqn:Hc; simpl;
          [| | destruct (CreateResponse.status d) eqn:Hd; simpl |]
      end
     |]
    |]
   | |]);
  (split; [reflexivity|]);
  (split; [repeat constructor|]);
  (split; [intros; discriminate|]);
  (split; [intros; congruence|]);
  (split; [intros Hcfg; try (split; [reflexivity|eauto]);
           try (injection Hcfg as Hcfg; unfold Js.truthy in Hcfg; congruence)|]);
  intros data Hdata; try discriminate.
  all: injection Hdata as <-; (split; [exact Hd|]).
  all: eexists plan, plans', _; (split; [reflexivity|]); (split; [exact Hc|]).
  all: split; [simpl; tauto|]; repeat split.
Qed.

(** Nobody is registered: the request for user [u1] fails at once. *)
Lemma createPayment_outcomes_witness :
  let run := OpayService.createPayment (Sample.pay_for "plan-pro" "price_pro")
               (Sample.env_at Sample.jan31 "COMPLETED" true)
               (Db.with_users [] Sample.db0) in
  result run = Throw (Error "User not found") /\ events run = [db_select users].
Proof.
  intros run.
  apply (createPayment_outcomes (Sample.pay_for "plan-pro" "price_pro")
           (Sample.env_at Sample.jan31 "COMPLETED" true) (Db.with_users [] Sample.db0)).
  reflexivity.
Defined.

(** The one request [createPayment] sends when it returns. *)
Lemma createPayment_sent params env db data body :
  result (OpayService.createPayment params env db) = Ok data ->
  In (http_post (OPAY_API_BASE +:+ "/create") (CreateBody body))
     (events (OpayService.createPayment params env db)) ->
  exists plan rest,
    List.filter (fun p => String.eqb (PricingPlan.id p) (cp_planId params))
      (pricingPlans_rows db) = plan :: rest
    /\ CreateRequest.meta_data body
       = {| Metadata.userId := Some (cp_userId params);
            Metadata.planId := Some (cp_planId params);
            Metadata.priceId := Some (cp_priceId params);
           Metadata.priceId_is_null := false;
            Metadata.planTier := Some (PricingPlan.tier plan);
            Metadata.originalAmountCents := Some (PricingPlan.priceAmount plan);
            Metadata.billingInterval := Some (PricingPlan.billingInterval plan) |}.
Proof.
  unfold OpayService.createPayment, OpayService.getHeaders, Db.select_users,
    Db.select_pricingPlans.
  run.
  destruct (List.filter _ (users_rows db)) as [|user users']; simpl; [discriminate|].
  destruct (List.filter _ (pricingPlans_rows db)) as [|plan plans']; simpl; [discriminate|].
  intros Hok Hin. exists plan, plans'. split; [reflexivity|].
  revert Hok Hin.
  destruct (PricingPlan.priceAmountBdt plan) as [bdt|]; simpl;
  (destruct (opaySettings env) as [[[key|]]|e] eqn:Hs; simpl; try discriminate;
   destruct (negb (key =? ""))%string eqn:Hk; simpl; try discriminate;
   destruct (URL_origin env (cp_successUrl params)) as [origin|] eqn:Ho; simpl;
     try discriminate;
   match goal with
   | |- context [opay_create env ?b] =>
       destruct (opay_create env b) as [r|c t|d|r] eqn:Hc; simpl; try discriminate;
       destruct (CreateResponse.status d) eqn:Hd; simpl; try discriminate
   end).
  all: intros _ Hin.
  all: repeat (destruct Hin as [Hin|Hin]; try discriminate); try contradiction.
  all: injection Hin as <-; reflexivity.
Qed.

(** X9.  What [createPayment] sends, [handlePaymentSuccess] honours.
    When the gateway, asked about a transaction, echoes the metadata of
    the request a [createPayment] sent and reports it ['COMPLETED'], a
    [handlePaymentSuccess] that returns has given the user the payment was
    started for an ['active'] subscription on the tier of the plan the
    payment was started for, lasting the plan's billing interval from the
    time of the credit. *)
Theorem createPayment_then_handlePaymentSuccess
    (order : OpayPaymentCreateParams) (env0 : Env) (db0 : Database)
    (data : CreateResponse.t) (body : CreateRequest.t)
    (params : OpayCallbackParams) (env : Env) (db : Database) (v : Verification.t) :
  result (OpayService.createPayment order env0 db0) = Ok data ->
  In (http_post (OPAY_API_BASE +:+ "/create") (CreateBody body))
     (events (OpayService.createPayment order env0 db0)) ->
  result (OpayService.verifyPayment (transactionId params) env db) = Ok v ->
  Verification.metadata v = MetaObject (CreateRequest.meta_data body) ->
  result (OpayService.handlePaymentSuccess params env db) = Ok tt ->
  exists plan s rest,
    In plan (pricingPlans_rows db0)
    /\ PricingPlan.id plan = cp_planId order
    /\ List.filter (OpayService.is_opay_subscription_of (cp_userId order))
         (subscriptions_rows (database (OpayService.handlePaymentSuccess params env db)))
       = s :: rest
    /\ Subscription.status s = active
    /\ Subscription.planTier s = PricingPlan.tier plan
    /\ Subscription.currentPeriodStart s = now env
    /\ Subscription.currentPeriodEnd s
       = (if String.eqb (PricingPlan.billingInterval plan) "year"
          then Js.setFullYear (now env) (Js.getFullYear (now env) + 1)
          else Js.setMonth (now env) (Js.getMonth (now env) + 1))
    /\ (List.filter (OpayService.is_opay_subscription_of (cp_userId order))
          (subscriptions_rows db) = [] ->
        Subscription.stripePriceId s = cp_priceId order).
Proof.
  intros Hcreated Hsent Hv Hecho Hok.
  destruct (createPayment_sent _ _ _ _ _ Hcreated Hsent) as (plan & plans' & Hplan & Hmeta).
  destruct (handlePaymentSuccess_ok _ _ _ _ Hok Hv)
    as (m & uid & tier & Hm & Hu & Ht & _ & Hcredit & Hdb).
  rewrite Hecho in Hm. injection Hm as <-. rewrite Hmeta in *. cbn in Hu, Ht.
  injection Hu as <-. injection Ht as <-.
  assert (Hin : In plan (List.filter (fun p => String.eqb (PricingPlan.id p) (cp_planId order))
                           (pricingPlans_rows db0))) by (rewrite Hplan; left; reflexivity).
  apply List.filter_In in Hin. destruct Hin as [Hin Hid]. apply String.eqb_eq in Hid.
  rewrite Hdb.
  destruct (credit_ok_subscription _ _ _ _ _ _ Hcredit)
    as (s & rest & amount & Hf & _ & Hst & _ & Htier & Hstart & Hend & _ & _ & Hcase).
  exists plan, s, rest.
  repeat (split; [assumption|]).
  intros Hnone.
  match type of Hcredit with
  | result (OpayService.credit _ ?m _ _ _ _) = _ =>
      destruct (credit_subscriptions params m (cp_userId order) (PricingPlan.tier plan) env db)
        as [Hsame|[Hc|Hc]]; cbv zeta in *
  end.
  - exfalso. rewrite Hsame, Hnone in Hf. discriminate.
  - destruct Hc as (existing & others & amount' & Hex & _). congruence.
  - destruct Hc as (row & amount' & _ & _ & Hrow & _ & _ & Hrows).
    rewrite Hrows, List.filter_app, Hnone in Hf. cbn [app List.filter] in Hf.
    unfold OpayService.fresh_subscription in Hrow. cbn [Metadata.priceId] in Hrow.
    injection Hrow as <-.
    unfold OpayService.is_opay_subscription_of in Hf.
    cbn [List.filter Subscription.userId Subscription.paymentProvider] in Hf.
    rewrite String.eqb_refl in Hf. cbn [provider_eqb andb] in Hf.
    injection Hf as <- _. cbn [Subscription.stripePriceId].
    unfold JsText.or_default, Js.truthy.
    destruct (String.eqb_spec (cp_priceId order) "") as [->|]; reflexivity.
Qed.

(** Alice orders the Pro plan; the gateway echoes the order's metadata;
    her subscription is on tier [pro]. *)
Lemma createPayment_then_handlePaymentSuccess_witness :
  let env := Sample.env_at Sample.jan31 "COMPLETED" true in
  exists s rest,
    List.filter (OpayService.is_opay_subscription_of "u1")
      (subscriptions_rows
         (database (OpayService.handlePaymentSuccess Sample.callback env Sample.db0)))
    = s :: rest
    /\ Subscription.planTier s = "pro"
    /\ Subscription.stripePriceId s = "price_pro".
Proof.
  intros env.
  destruct (createPayment_then_handlePaymentSuccess
              (Sample.pay_for "plan-pro" "price_pro") env Sample.db0
              {| CreateResponse.status := true; CreateResponse.message := None;
                 CreateResponse.payment_url := "https://pay.opaybd.com/p/1" |}
              {| CreateRequest.cus_name := "Alice";
                 CreateRequest.cus_email := Some "alice@example.com";
                 CreateRequest.amount := (inject_Z 220000 / inject_Z 100)%Q;
                 CreateRequest.success_url := "https://app.example.com/api/opaybd/callback";
                 CreateRequest.cancel_url :=
                   "https://app.example.com/settings/billing?canceled=true&provider=opaybd";
                 CreateRequest.webhook_url := "https://app.example.com/api/opaybd/webhook";
                 CreateRequest.meta_data := Sample.meta_pro |}
              Sample.callback env Sample.db0
              (OpayService.with_metadata (MetaObject Sample.meta_pro)
                 (Sample.answer "COMPLETED")))
    as (plan & s & rest & Hin & Hid & Hf & _ & Htier & _ & _ & Hprice).
  - vm_compute. reflexivity.
  - vm_compute. right. right. left. reflexivity.
  - vm_compute. reflexivity.
  - reflexivity.
  - vm_compute. reflexivity.
  - exists s, rest. split; [exact Hf|].
    split; [|apply Hprice; reflexivity].
    rewrite Htier.
    destruct Hin as [<-|[<-|[]]]; [reflexivity | discriminate Hid].
Defined.

(** A [createPayment] that returns: the request it sent and the answer it
    got. *)
Lemma createPayment_ok params env db data :
  result (OpayService.createPayment params env db) = Ok data ->
  database (OpayService.createPayment params env db) = db
  /\ exists body,
       opay_create env body = HttpOk data
       /\ In (http_post (OPAY_API_BASE +:+ "/create") (CreateBody body))
            (events (OpayService.createPayment params env db))
       /\ CreateRequest.success_url body = cp_successUrl params
       /\ CreateRequest.cancel_url body = cp_cancelUrl params
       /\ (exists origin, URL_origin env (cp_successUrl params) = Some origin
                          /\ CreateRequest.webhook_url body = origin +:+ "/api/opaybd/webhook")
       /\ Metadata.userId (CreateRequest.meta_data body) = Some (cp_userId params)
       /\ Metadata.planId (CreateRequest.meta_data body) = Some (cp_planId params)
       /\ Metadata.priceId (CreateRequest.meta_data body) = Some (cp_priceId params).
Proof.
  unfold OpayService.createPayment, OpayService.getHeaders, Db.select_users,
    Db.select_pricingPlans.
  run.
  destruct (List.filter _ (users_rows db)) as [|user users']; simpl; [discriminate|].
  destruct (List.filter _ (pricingPlans_rows db)) as [|plan plans']; simpl; [discriminate|].
  destruct (PricingPlan.priceAmountBdt plan) as [bdt|]; simpl;
  (destruct (opaySettings env) as [[[key|]]|e] eqn:Hs; simpl; try discriminate;
   destruct (negb (key =? ""))%string eqn:Hk; simpl; try discriminate;
   destruct (URL_origin env (cp_successUrl params)) as [origin|] eqn:Ho; simpl;
     try discriminate;
   match goal with
   | |- context [opay_create env ?b] =>
       destruct (opay_create env b) as [r|c t|d|r] eqn:Hc; simpl; try discriminate;
       destruct (CreateResponse.status d) eqn:Hd; simpl; try discriminate
   end).
  all: intros Hok; injection Hok as <-; split; [reflexivity|].
  all: eexists; split; [exact Hc|]; split; [simpl; tauto|].
  all: cbn; repeat split; eauto.
Qed.

Lemma split_head_app (sep o rest : string) :
  clear_of sep o rest = true ->
  Js.is_prefix sep rest = true ->
  Js.split_head sep (o +:+ rest) = o.
Proof.
  intros Hclear Hsep. induction o as [|c o IH].
  - change (EmptyString +:+ rest) with rest.
    destruct rest as [|c r]; [reflexivity|].
    unfold Js.split_head. rewrite Hsep. reflexivity.
  - cbn [clear_of] in Hclear. apply andb_true_iff in Hclear. destruct Hclear as [Hhere Hclear].
    apply negb_true_iff in Hhere.
    change (String c o +:+ rest) with (String c (o +:+ rest)) in *.
    cbn [Js.split_head]. rewrite Hhere, (IH Hclear). reflexivity.
Qed.

(** X10.  What the router asks of the regional gateway.  With
    ['opaybd'] selected and a success URL of the form
    [o + '/settings/billing' + rest], where ['/settings/billing'] does
    not begin earlier, a [createCheckoutSession] that returns has sent
    the gateway one request whose success URL is [o + '/api/opaybd/callback']
    and whose cancel URL is [o + '/settings/billing?canceled=true&provider=opaybd']
    -- the caller's cancel URL is not used -- with the caller's user, plan
    and price in the metadata; the payment URL it returns is the one of the
    gateway's answer, and the database is untouched. *)
Theorem createCheckoutSession_opaybd_request
    (params : CreateCheckoutParams) (env : Env) (db : Database)
    (o rest : string) (r : CheckoutResult) :
  let run := PaymentRouter.createCheckoutSession params env db in
  activePaymentProvider env = "opaybd" ->
  successUrl params = o +:+ "/settings/billing" +:+ rest ->
  clear_of "/settings/billing" o ("/settings/billing" +:+ rest) = true ->
  result run = Ok r ->
  database run = db
  /\ exists body data,
       In (http_post (OPAY_API_BASE +:+ "/create") (CreateBody body)) (events run)
       /\ opay_create env body = HttpOk data
       /\ paymentUrl r = Some (CreateResponse.payment_url data)
       /\ CreateRequest.success_url body = o +:+ "/api/opaybd/callback"
       /\ CreateRequest.cancel_url body
          = o +:+ "/settings/billing?canceled=true&provider=opaybd"
       /\ Metadata.userId (CreateRequest.meta_data body) = Some (userId params)
       /\ Metadata.planId (CreateRequest.meta_data body) = Some (planId params)
       /\ Metadata.priceId (CreateRequest.meta_data body) = Some (priceId params).
Proof.
  intros run Hprov Hurl Hclear. subst run.
  rewrite createCheckoutSession_unfold. cbv zeta.
  rewrite Hprov, Hurl. cbn [String.eqb Ascii.eqb Bool.eqb].
  rewrite (split_head_app _ _ _ Hclear) by reflexivity.
  destruct (negb _); [discriminate|].
  match goal with
  | |- context [OpayService.createPayment ?p env db] =>
      pose proof (createPayment_ok p env db) as Hcp;
      destruct (OpayService.createPayment p env db) as [[[data|e] db1] ev]
  end; [|discriminate].
  unfold result, database, events in *. cbn [fst snd] in *.
  intros Hr. injection Hr as <-.
  destruct (Hcp data eq_refl) as (-> & body & Hc & Hin & Hs & Hcancel & _ & Hu & Hp & Hprice).
  split; [reflexivity|].
  exists body, data. cbn [paymentUrl cp_successUrl cp_cancelUrl cp_userId cp_planId cp_priceId] in *.
  split; [right; exact Hin|]. repeat (split; [assumption || reflexivity|]). assumption.
Qed.

(** The billing page of [app.example.com] sends the gateway back to
    [https://app.example.com/api/opaybd/callback]. *)
Lemma createCheckoutSession_opaybd_request_witness :
  let run := PaymentRouter.createCheckoutSession Sample.checkout
               (Sample.env_at Sample.jan31 "COMPLETED" true) Sample.db0 in
  exists body,
    In (http_post (OPAY_API_BASE +:+ "/create") (CreateBody body)) (events run)
    /\ CreateRequest.success_url body = "https://app.example.com/api/opaybd/callback".
Proof.
  intros run.
  destruct (createCheckoutSession_opaybd_request Sample.checkout
              (Sample.env_at Sample.jan31 "COMPLETED" true) Sample.db0
              "https://app.example.com" "?session_id={CHECKOUT_SESSION_ID}"
              {| provider := opaybd; clientSecret := None; sessionId := None;
                 paymentUrl := Some "https://pay.opaybd.com/p/1" |})
    as (_ & body & data & Hin & _ & _ & Hs & _).
  - reflexivity.
  - reflexivity.
  - vm_compute. reflexivity.
  - vm_compute. reflexivity.
  - exists body. split; [exact Hin | exact Hs].
Defined.

(** ** The gateway's callback *)

Lemma handlePaymentSuccess_unverified params env db e :
  result (OpayService.verifyPayment (transactionId params) env db) = Throw e ->
  database (OpayService.handlePaymentSuccess params env db) = db
  /\ result (OpayService.handlePaymentSuccess params env db) = Throw e.
Proof.
  intros Hv.
  pose proof (verifyPayment_database (transactionId params) env db) as Hdb.
  rewrite handlePaymentSuccess_unfold. cbv zeta.
  destruct (OpayService.verifyPayment (transactionId params) env db) as [[r db1] ev].
  unfold result, database in *. cbn [fst snd] in *. subst. split; reflexivity.
Qed.

Lemma handlePaymentSuccess_incomplete params env db v :
  result (OpayService.verifyPayment (transactionId params) env db) = Ok v ->
  Verification.status v <> "COMPLETED" ->
  database (OpayService.handlePaymentSuccess params env db) = db.
Proof.
  intros Hv Hs.
  pose proof (verifyPayment_database (transactionId params) env db) as Hdb.
  rewrite handlePaymentSuccess_unfold. cbv zeta.
  destruct (OpayService.verifyPayment (transactionId params) env db) as [[r db1] ev].
  unfold result, database in *. cbn [fst snd] in *. subst.
  apply String.eqb_neq in Hs. rewrite Hs. reflexivity.
Qed.

Lemma GET_present searchParams env db tx :
  PlanAdmin.get searchParams "transactionId" = Some tx ->
  tx <> "" ->
  let run := OpayCallback.GET searchParams env db in
  let status := PlanAdmin.get searchParams "status" in
  result run = Throw (Redirect 302 OpayCallback.failed_url)
  /\ database run
     = (if JsText.strict_eq status "success"
        then database (OpayService.handlePaymentSuccess
                         (callback_params searchParams tx) env db)
        else if JsText.strict_eq status "failed" then db
        else match result (OpayService.verifyPayment tx env db) with
             | Ok v =>
                 if String.eqb (Verification.status v) "COMPLETED"
                 then database (OpayService.handlePaymentSuccess
                                  (verified_params searchParams tx v) env db)
                 else db
             | Throw _ => db
             end).
Proof.
  intros Hget Htx run status. subst run status.
  unfold OpayCallback.GET, OpayCallback.redirect. rewrite Hget.
  unfold Js.truthy. apply String.eqb_neq in Htx. rewrite Htx.
  cbv beta iota zeta delta [negb].
  fold (callback_params searchParams tx).
  pose proof (verifyPayment_database tx env db) as Hdb.
  destruct (JsText.strict_eq (PlanAdmin.get searchParams "status") "success");
    [|destruct (JsText.strict_eq (PlanAdmin.get searchParams "status") "failed")].
  - step.
    destruct (OpayService.verifyPayment tx env db) as [[[v|e] db1] ev] eqn:Hv;
      unfold database in Hdb; cbn [fst snd] in Hdb; subst db1; cbn [fst snd].
    + destruct (OpayService.handlePaymentSuccess (callback_params searchParams tx) env db)
        as [[[[]|e] db2] ev2]; split; reflexivity.
    + split; [reflexivity|]. symmetry.
      apply (handlePaymentSuccess_unverified (callback_params searchParams tx) env db e).
      cbn [transactionId callback_params]. rewrite Hv. reflexivity.
  - step. split; reflexivity.
  - step.
    destruct (OpayService.verifyPayment tx env db) as [[[v|e] db1] ev] eqn:Hv;
      unfold database in Hdb; cbn [fst snd] in Hdb; subst db1; cbn [fst snd];
      [|split; reflexivity].
    fold (verified_params searchParams tx v).
    destruct (Verification.status v =? "COMPLETED")%string.
    + destruct (OpayService.handlePaymentSuccess (verified_params searchParams tx v) env db)
        as [[[[]|e] db2] ev2]; split; reflexivity.
    + destruct (Verification.status v =? "ERROR")%string; split; reflexivity.
Qed.

Lemma GET_failed searchParams env db tx :
  PlanAdmin.get searchParams "transactionId" = Some tx ->
  tx <> "" ->
  PlanAdmin.get searchParams "status" = Some "failed" ->
  OpayCallback.GET searchParams env db
  = (Throw (Redirect 302 OpayCallback.failed_url), db,
     [console_log "Opaybd callback received:";
      console_log ("Opaybd payment failed: " +:+ tx);
      console_error "Error processing Opaybd callback:"]).
Proof.
  intros Hget Htx Hstatus.
  unfold OpayCallback.GET, OpayCallback.redirect. rewrite Hget, Hstatus.
  unfold Js.truthy. apply String.eqb_neq in Htx. rewrite Htx.
  reflexivity.
Qed.

(** X11.  Where the callback sends the browser.  [GET] never returns: it
    always ends in a redirect with status 302.  Without a [transactionId]
    in the query (absent or empty) it goes to the missing-transaction
    page, having contacted nobody and changed nothing.  With one, every
    redirect of the handler's [try] block is thrown inside that block and
    caught by its [catch], so the browser is sent to
    ['/settings/billing?opay_failed=true'] whatever the [status] of the
    query and whatever the gateway answers. *)
Theorem GET_redirects (searchParams : OpayCallback.SearchParams) (env : Env) (db : Database) :
  let run := OpayCallback.GET searchParams env db in
  let transactionId := PlanAdmin.get searchParams "transactionId" in
  result run
  = Throw (Redirect 302
             (if Js.truthy transactionId
              then "/settings/billing?opay_failed=true"
              else "/settings/billing?error=missing_transaction&provider=opaybd"))
  /\ (Js.truthy transactionId = false ->
      database run = db
      /\ events run = [console_log "Opaybd callback received:";
                       console_error "Opaybd callback missing transactionId"]).
Proof.
  intros run transactionId. subst run transactionId.
  destruct (PlanAdmin.get searchParams "transactionId") as [tx|] eqn:Hget.
  - unfold Js.truthy. destruct (String.eqb_spec tx "") as [->|Hne]; cbn [negb].
    + unfold OpayCallback.GET, OpayCallback.redirect. rewrite Hget.
      split; [reflexivity|]. intros _. split; reflexivity.
    + split; [|discriminate].
      apply (GET_present searchParams env db tx Hget Hne).
  - unfold OpayCallback.GET, OpayCallback.redirect. rewrite Hget.
    split; [reflexivity|]. intros _. split; reflexivity.
Qed.

(** A callback without parameters contacts nobody. *)
Lemma GET_redirects_witness :
  events (OpayCallback.GET [] (Sample.env_at Sample.jan31 "COMPLETED" true) Sample.db0)
  = [console_log "Opaybd callback received:";
     console_error "Opaybd callback missing transactionId"].
Proof.
  apply (GET_redirects [] (Sample.env_at Sample.jan31 "COMPLETED" true) Sample.db0).
  reflexivity.
Defined.

(** X12.  What the callback does to the database.  With [status=failed]
    in the query it contacts nobody and changes nothing.  Otherwise it
    changes the database only through one [handlePaymentSuccess] for the
    transaction of the query, so only if the gateway reports the
    transaction ['COMPLETED']; with [status=success] the payment credited
    is the one the query describes, and it stays credited although the
    browser is sent to the failure page. *)
Theorem GET_database
    (searchParams : OpayCallback.SearchParams) (env : Env) (db : Database) (tx : string) :
  let run := OpayCallback.GET searchParams env db in
  let status := PlanAdmin.get searchParams "status" in
  PlanAdmin.get searchParams "transactionId" = Some tx ->
  tx <> "" ->
  (status = Some "failed" ->
   database run = db /\ List.filter is_network (events run) = [] /\ no_db_write (events run))
  /\ ((forall v, result (OpayService.verifyPayment tx env db) = Ok v ->
                 Verification.status v <> "COMPLETED") ->
      database run = db)
  /\ (status = Some "success" ->
      database run
      = database (OpayService.handlePaymentSuccess
                    {| transactionId := tx;
                       paymentMethod :=
                         JsText.or_default (PlanAdmin.get searchParams "paymentMethod")
                           "unknown";
                       paymentAmount :=
                         JsText.parseFloat
                           (JsText.or_default (PlanAdmin.get searchParams "paymentAmount") "0");
                       paymentFee :=
                         JsText.parseFloat
                           (JsText.or_default (PlanAdmin.get searchParams "paymentFee") "0") |}
                    env db)
      /\ result run = Throw (Redirect 302 "/settings/billing?opay_failed=true"))
  /\ (exists params,
        transactionId params = tx
        /\ (database run = db
            \/ database run = database (OpayService.handlePaymentSuccess params env db))).
Proof.
  intros run status Hget Htx. subst run status.
  destruct (GET_present searchParams env db tx Hget Htx) as [Hres Hdb]. cbv zeta in Hres, Hdb.
  split; [|split; [|split]].
  - intros Hfailed. rewrite (GET_failed searchParams env db tx Hget Htx Hfailed).
    split; [reflexivity|]. split; [reflexivity|]. repeat constructor.
  - intros Hnot. rewrite Hdb.
    destruct (JsText.strict_eq (PlanAdmin.get searchParams "status") "success").
    + destruct (result (OpayService.verifyPayment tx env db)) as [v|e] eqn:Hv.
      * apply (handlePaymentSuccess_incomplete (callback_params searchParams tx) env db v);
          [exact Hv | apply Hnot; reflexivity].
      * apply (handlePaymentSuccess_unverified (callback_params searchParams tx) env db e).
        exact Hv.
    + destruct (JsText.strict_eq (PlanAdmin.get searchParams "status") "failed");
        [reflexivity|].
      destruct (result (OpayService.verifyPayment tx env db)) as [v|e] eqn:Hv;
        [|reflexivity].
      destruct (String.eqb_spec (Verification.status v) "COMPLETED") as [Hc|_];
        [|reflexivity].
      exfalso. exact (Hnot v eq_refl Hc).
  - intros Hsuccess. rewrite Hsuccess in Hdb. cbn [JsText.strict_eq String.eqb Ascii.eqb
      Bool.eqb] in Hdb. split; [exact Hdb | exact Hres].
  - rewrite Hdb.
    destruct (JsText.strict_eq (PlanAdmin.get searchParams "status") "success").
    + exists (callback_params searchParams tx). split; [reflexivity | right; reflexivity].
    + destruct (JsText.strict_eq (PlanAdmin.get searchParams "status") "failed").
      * exists (callback_params searchParams tx). split; [reflexivity | left; reflexivity].
      * destruct (result (OpayService.verifyPayment tx env db)) as [v|e].
        -- destruct (Verification.status v =? "COMPLETED")%string.
           ++ exists (verified_params searchParams tx v).
              split; [reflexivity | right; reflexivity].
           ++ exists (callback_params searchParams tx).
              split; [reflexivity | left; reflexivity].
        -- exists (callback_params searchParams tx). split; [reflexivity | left; reflexivity].
Qed.

(** The gateway calls back with [status=success] for Alice's payment:
    she is subscribed, and the browser is sent to the failure page. *)
Lemma GET_database_witness :
  let run := OpayCallback.GET
               [("transactionId", "tx1"); ("paymentMethod", "bKash");
                ("paymentAmount", "2200"); ("paymentFee", "33"); ("status", "success")]
               (Sample.env_at Sample.jan31 "COMPLETED" true) Sample.db0 in
  List.map Subscription.planTier (subscriptions_rows (database run)) = ["pro"]
  /\ result run = Throw (Redirect 302 "/settings/billing?opay_failed=true").
Proof.
  intros run.
  destruct (GET_database
              [("transactionId", "tx1"); ("paymentMethod", "bKash");
               ("paymentAmount", "2200"); ("paymentFee", "33"); ("status", "success")]
              (Sample.env_at Sample.jan31 "COMPLETED" true) Sample.db0 "tx1")
    as (_ & _ & Hsuccess & _).
  - reflexivity.
  - discriminate.
  - destruct (Hsuccess eq_refl) as [Hdb Hres].
    split; [|exact Hres].
    subst run. rewrite Hdb. vm_compute. reflexivity.
Defined.

(** ** The verification endpoint *)

(** [POST] for an authenticated user and a transaction id, in terms of
    what [verifyPayment] and [handlePaymentSuccess] do. *)
Lemma POST_present user tx env db :
  user <> "" -> tx <> "" ->
  let run := OpayVerify.POST (Some user) (Some (Some tx)) env db in
  match result (OpayService.verifyPayment tx env db) with
  | Throw _ => result run = server_error /\ database run = db
  | Ok v =>
      if String.eqb (Verification.status v) "COMPLETED" then
        if JsText.strict_eq (meta_field Metadata.userId (Verification.metadata v)) user then
          database run = database (OpayService.handlePaymentSuccess (endpoint_params tx v) env db)
          /\ result run
             = match result (OpayService.handlePaymentSuccess (endpoint_params tx v) env db) with
               | Ok _ =>
                   Ok {| OpayVerify.status := "success";
                         OpayVerify.message := "Payment verified and processed successfully";
                         OpayVerify.planTier :=
                           meta_field Metadata.planTier (Verification.metadata v) |}
               | Throw _ => server_error
               end
        else result run = server_error /\ database run = db
      else
        database run = db
        /\ result run
           = Ok (if String.eqb (Verification.status v) "PENDING"
                 then {| OpayVerify.status := "pending";
                         OpayVerify.message :=
                           "Payment is still pending. Please try again later.";
                         OpayVerify.planTier := None |}
                 else {| OpayVerify.status := "failed";
                         OpayVerify.message := "Payment verification failed or was rejected.";
                         OpayVerify.planTier := None |})
  end.
Proof.
  intros Huser Htx run. subst run.
  unfold OpayVerify.POST, OpayVerify.error, server_error.
  unfold Js.truthy. apply String.eqb_neq in Huser, Htx. rewrite Huser, Htx.
  cbv beta iota zeta delta [negb].
  pose proof (verifyPayment_database tx env db) as Hdb.
  step.
  destruct (OpayService.verifyPayment tx env db) as [[[v|e] db1] ev] eqn:Hv;
    unfold database in Hdb; cbn [fst snd] in Hdb; subst db1; cbn [fst snd];
    [|split; reflexivity].
  fold (endpoint_params tx v).
  destruct (Verification.status v =? "COMPLETED")%string.
  - destruct (JsText.strict_eq _ user); cbn [negb]; [|split; reflexivity].
    destruct (OpayService.handlePaymentSuccess (endpoint_params tx v) env db)
      as [[[[]|e] db2] ev2]; split; reflexivity.
  - destruct (Verification.status v =? "PENDING")%string; split; reflexivity.
Qed.

(** X13.  How the verification endpoint can end.  Without a signed-in
    user it throws 401, having done nothing.  For a signed-in user it
    returns one of the answers ['success'], ['pending'] and ['failed'] or
    throws 500 with the generic message -- never anything else: the 400
    for a missing transaction id and the 403 for a foreign payment are
    thrown inside the [try] block and leave as that 500, with the database
    as it was. *)
Theorem POST_outcomes
    (sessionUserId : option string) (body : option (option string))
    (env : Env) (db : Database) :
  let run := OpayVerify.POST sessionUserId body env db in
  (Js.truthy sessionUserId = false ->
   run = (Throw (HttpError 401 "Unauthorized"), db, []))
  /\ (Js.truthy sessionUserId = true ->
      (result run = Throw (HttpError 500 "Failed to verify payment. Please try again later.")
       \/ exists a, result run = Ok a
                    /\ (OpayVerify.status a = "success" \/ OpayVerify.status a = "pending"
                        \/ OpayVerify.status a = "failed"))
      /\ (body = None \/ body = Some None \/ body = Some (Some "") ->
          run = (Throw (HttpError 500 "Failed to verify payment. Please try again later."),
                 db, [console_error "Error verifying Opaybd payment:"]))
      /\ (forall tx v user,
            body = Some (Some tx) -> tx <> "" -> sessionUserId = Some user ->
            result (OpayService.verifyPayment tx env db) = Ok v ->
            Verification.status v = "COMPLETED" ->
            meta_field Metadata.userId (Verification.metadata v) <> Some user ->
            result run
            = Throw (HttpError 500 "Failed to verify payment. Please try again later.")
            /\ database run = db)).
Proof.
  intros run. subst run. split.
  - intros Hs. unfold OpayVerify.POST, OpayVerify.error.
    destruct sessionUserId as [user|]; [|reflexivity].
    rewrite Hs. reflexivity.
  - intros Hs. destruct sessionUserId as [user|]; [|discriminate].
    assert (Huser : user <> "").
    { unfold Js.truthy in Hs. apply negb_true_iff in Hs. apply String.eqb_neq. exact Hs. }
    assert (Hmissing : forall b,
               b = None \/ b = Some None \/ b = Some (Some "") ->
               OpayVerify.POST (Some user) b env db
               = (Throw (HttpError 500 OpayVerify.generic_failure), db,
                  [console_error "Error verifying Opaybd payment:"])).
    { intros b Hb. unfold OpayVerify.POST, OpayVerify.error. rewrite Hs.
      destruct Hb as [->|[->| ->]]; reflexivity. }
    split; [|split].
    + destruct body as [[tx|]|]; try (left; rewrite Hmissing by tauto; reflexivity).
      destruct (String.eqb_spec tx "") as [->|Htx];
        [left; rewrite Hmissing by tauto; reflexivity|].
      pose proof (POST_present user tx env db Huser Htx) as H. cbv zeta in H.
      destruct (result (OpayService.verifyPayment tx env db)) as [v|e];
        [|left; apply H].
      destruct (Verification.status v =? "COMPLETED")%string.
      * destruct (JsText.strict_eq _ user); [|left; apply H].
        destruct H as [_ ->].
        destruct (result (OpayService.handlePaymentSuccess _ env db));
          [right; eexists; split; [reflexivity | left; reflexivity] | left; reflexivity].
      * destruct H as [_ ->]. right. eexists. split; [reflexivity|].
        destruct (Verification.status v =? "PENDING")%string;
          [right; left; reflexivity | right; right; reflexivity].
    + intros Hb. apply Hmissing. exact Hb.
    + intros tx v user' -> Htx Hu Hv Hc Hforeign. injection Hu as <-.
      pose proof (POST_present user tx env db Huser Htx) as H. cbv zeta in H.
      rewrite Hv, Hc in H. cbn [String.eqb Ascii.eqb Bool.eqb] in H.
      destruct (meta_field Metadata.userId (Verification.metadata v)) as [owner|];
        cbn [JsText.strict_eq] in H.
      * destruct (String.eqb_spec owner user) as [->|_]; [congruence | exact H].
      * exact H.
Qed.

(** A request without a session is refused before anything is read. *)
Lemma POST_outcomes_witness :
  OpayVerify.POST None (Some (Some "tx1"))
    (Sample.env_at Sample.jan31 "COMPLETED" true) Sample.db0
  = (Throw (HttpError 401 "Unauthorized"), Sample.db0, []).
Proof.
  apply (POST_outcomes None (Some (Some "tx1"))
           (Sample.env_at Sample.jan31 "COMPLETED" true) Sample.db0).
  reflexivity.
Defined.

(** X14.  A ['success'] answer of the verification endpoint is earned:
    it is given only when the gateway reported the transaction
    ['COMPLETED'] with the signed-in user in its metadata, and then that
    user holds an ['active'] regional-gateway subscription, not flagged
    for renewal, on the plan tier the answer names, stamped with the
    transaction. *)
Theorem POST_success
    (user tx : string) (env : Env) (db : Database) (a : OpayVerify.Answer) :
  let run := OpayVerify.POST (Some user) (Some (Some tx)) env db in
  result run = Ok a ->
  OpayVerify.status a = "success" ->
  exists v tier s rest,
    result (OpayService.verifyPayment tx env db) = Ok v
    /\ Verification.status v = "COMPLETED"
    /\ meta_field Metadata.userId (Verification.metadata v) = Some user
    /\ OpayVerify.planTier a = Some tier
    /\ List.filter (OpayService.is_opay_subscription_of user)
         (subscriptions_rows (database run)) = s :: rest
    /\ Subscription.status s = active
    /\ Subscription.renewalRequired s = Some false
    /\ Subscription.planTier s = tier
    /\ Subscription.opayTransactionId s = Some tx.
Proof.
  intros run Hok Hsuccess. subst run.
  assert (Huser : user <> "").
  { intros ->. discriminate Hok. }
  assert (Htx : tx <> "").
  { intros ->. unfold OpayVerify.POST in Hok. unfold Js.truthy in Hok.
    apply String.eqb_neq in Huser. rewrite Huser in Hok. discriminate Hok. }
  pose proof (POST_present user tx env db Huser Htx) as H. cbv zeta in H.
  destruct (result (OpayService.verifyPayment tx env db)) as [v|e] eqn:Hv;
    [|destruct H as [H _]; rewrite H in Hok; discriminate].
  destruct (String.eqb_spec (Verification.status v) "COMPLETED") as [Hc|_].
  - destruct (JsText.strict_eq (meta_field Metadata.userId (Verification.metadata v)) user)
      eqn:Howner; [|destruct H as [H _]; rewrite H in Hok; discriminate].
    destruct H as [Hdb Hres]. rewrite Hdb.
    destruct (result (OpayService.handlePaymentSuccess (endpoint_params tx v) env db))
      as [[]|e] eqn:Hpaid; [|rewrite Hres in Hok; discriminate].
    destruct (handlePaymentSuccess_ok (endpoint_params tx v) env db v Hpaid Hv)
      as (m & uid & tier & Hm & Hu & Ht & _ & Hcredit & Hdb').
    rewrite Hm in Howner, Hres. cbn [meta_field] in Howner, Hres.
    rewrite Hu in Howner. cbn [JsText.strict_eq] in Howner.
    apply String.eqb_eq in Howner. subst uid.
    destruct (credit_ok_subscription _ _ _ _ _ _ Hcredit)
      as (s & rest & amount & Hf & _ & Hst & Hrr & Htier & _ & _ & Hstamp & _).
    exists v, tier, s, rest. rewrite Hdb', Hm. cbn [meta_field].
    rewrite Hres in Hok. injection Hok as <-. cbn [OpayVerify.planTier].
    repeat (split; [assumption || reflexivity|]). exact Hstamp.
  - destruct H as [_ H]. rewrite H in Hok. injection Hok as <-.
    destruct (Verification.status v =? "PENDING")%string; discriminate Hsuccess.
Qed.

(** Alice asks about her completed payment and is subscribed to Pro. *)
Lemma POST_success_witness :
  let run := OpayVerify.POST (Some "u1") (Some (Some "tx1"))
               (Sample.env_at Sample.jan31 "COMPLETED" true) Sample.db0 in
  exists s rest,
    List.filter (OpayService.is_opay_subscription_of "u1")
      (subscriptions_rows (database run)) = s :: rest
    /\ Subscription.planTier s = "pro".
Proof.
  intros run.
  destruct (POST_success "u1" "tx1" (Sample.env_at Sample.jan31 "COMPLETED" true) Sample.db0
              {| OpayVerify.status := "success";
                 OpayVerify.message := "Payment verified and processed successfully";
                 OpayVerify.planTier := Some "pro" |})
    as (v & tier & s & rest & _ & _ & _ & Ha & Hf & _ & _ & Htier & _).
  - vm_compute. reflexivity.
  - reflexivity.
  - exists s, rest. split; [exact Hf|].
    cbn [OpayVerify.planTier] in Ha. injection Ha as <-. exact Htier.
Defined.

(** ** Administration of the pricing plans *)

Lemma one_of_In options s : PlanAdmin.one_of options s = true -> In s options.
Proof.
  unfold PlanAdmin.one_of. intros H. apply List.existsb_exists in H.
  destruct H as (x & Hin & Heq). apply String.eqb_eq in Heq. subst. exact Hin.
Qed.

(** What [validate] lets through, and how it refuses. *)
Lemma validate_sound data :
  match PlanAdmin.validate data with
  | inl failure => PlanAdmin.fail_status failure = 400
  | inr v =>
      PlanAdmin.v_name v <> "" /\ PlanAdmin.v_stripePriceId v <> ""
      /\ In (PlanAdmin.v_tier v) ["free"; "starter"; "pro"; "advanced"]
      /\ In (PlanAdmin.v_billingInterval v) ["month"; "year"]
      /\ 0 <= PlanAdmin.v_priceAmount v
      /\ (forall bdt, PlanAdmin.v_priceAmountBdt v = Some bdt -> 0 <= bdt)
  end.
Proof.
  unfold PlanAdmin.validate.
  destruct (PlanAdmin.get data "name") as [name|]; [|reflexivity].
  destruct (PlanAdmin.get data "tier") as [tier|]; [|reflexivity].
  destruct (PlanAdmin.get data "stripePriceId") as [price|]; [|reflexivity].
  destruct (PlanAdmin.get data "priceAmount") as [amount|]; [|reflexivity].
  destruct (PlanAdmin.get data "billingInterval") as [interval|]; [|reflexivity].
  unfold Js.truthy.
  destruct (String.eqb_spec name "") as [|Hne_name]; [reflexivity|].
  destruct (String.eqb_spec tier "") as [|Hne_tier]; [reflexivity|].
  destruct (String.eqb_spec price "") as [|Hne_price]; [reflexivity|].
  destruct (String.eqb_spec amount "") as [|Hne_amount]; [reflexivity|].
  destruct (String.eqb_spec interval "") as [|Hne_interval]; [reflexivity|].
  cbn [negb orb].
  destruct (PlanAdmin.one_of _ tier) eqn:Htier; [|reflexivity].
  destruct (PlanAdmin.one_of _ interval) eqn:Hint; [|reflexivity].
  cbn [negb].
  destruct (Js.parseInt amount) as [cents|]; [|reflexivity].
  destruct (Z.ltb_spec cents 0) as [|Hcents]; [reflexivity|].
  destruct (PlanAdmin.parse_priceAmountBdt (PlanAdmin.get data "priceAmountBdt"))
    as [e|bdt] eqn:Hbdt; [reflexivity|].
  cbn.
  split; [assumption|]. split; [assumption|].
  split; [exact (one_of_In _ _ Htier)|]. split; [exact (one_of_In _ _ Hint)|].
  split; [assumption|].
  intros b ->. unfold PlanAdmin.parse_priceAmountBdt in Hbdt.
  destruct (PlanAdmin.get data "priceAmountBdt") as [s|]; [|discriminate].
  destruct (_ && _); [|discriminate].
  destruct (Js.nan_or_negative (Js.parseInt s)) eqn:Hn; [discriminate|].
  injection Hbdt as Hbdt. rewrite Hbdt in Hn. unfold Js.nan_or_negative in Hn.
  apply Z.ltb_ge in Hn. exact Hn.
Qed.

(** X15.  Action [create] ends in one of two ways.  Either it leaves
    with the redirect to the plan list, and then exactly one plan was
    appended to the table -- under a fresh identifier, active, created and
    updated now, with a tier and a billing interval from the allowed
    lists, a price that is not negative and a BDT price that is absent or
    not negative -- and no existing plan changed.  Or it returns a failure
    with status 400, 403 or 500 and the table is as it was; in demo mode
    that is the 403, before anything is read or written. *)
Theorem create_outcomes (data : PlanAdmin.FormData) (env : Env) (db : Database) :
  let run := PlanAdmin.create data env db in
  (demoMode env = true ->
   run = (Ok (Some {| PlanAdmin.fail_status := 403;
                      PlanAdmin.fail_error := ADMIN_SAVE_DISABLED env |}), db, []))
  /\ users_rows (database run) = users_rows db
  /\ subscriptions_rows (database run) = subscriptions_rows db
  /\ ((exists plan,
         result run = Throw (Redirect 303 "/admin/settings/plans")
         /\ pricingPlans_rows (database run) = pricingPlans_rows db ++ [plan]
         /\ (forall p, In p (pricingPlans_rows db) ->
               PricingPlan.id p <> PricingPlan.id plan
               /\ PricingPlan.stripePriceId p <> PricingPlan.stripePriceId plan)
         /\ PricingPlan.id plan = randomUUID env (uuids_drawn db)
         /\ PricingPlan.isActive plan = true
         /\ PricingPlan.createdAt plan = now env /\ PricingPlan.updatedAt plan = now env
         /\ In (PricingPlan.tier plan) ["free"; "starter"; "pro"; "advanced"]
         /\ In (PricingPlan.billingInterval plan) ["month"; "year"]
         /\ 0 <= PricingPlan.priceAmount plan <= 2147483647
         /\ (forall bdt, PricingPlan.priceAmountBdt plan = Some bdt -> 0 <= bdt <= 2147483647))
      \/ (exists failure,
            result run = Ok (Some failure)
            /\ pricingPlans_rows (database run) = pricingPlans_rows db
            /\ In (PlanAdmin.fail_status failure) [400; 403; 500])).
Proof.
  intros run. subst run. rewrite create_unfold.
  destruct (demoMode env).
  { split; [reflexivity|]. split; [reflexivity|]. split; [reflexivity|].
    right. eexists. split; [reflexivity|]. split; [reflexivity|]. simpl; tauto. }
  split; [discriminate|].
  pose proof (validate_sound data) as Hv.
  destruct (PlanAdmin.validate data) as [failure|v].
  { split; [reflexivity|]. split; [reflexivity|].
    right. exists failure. split; [reflexivity|]. split; [reflexivity|].
    rewrite Hv. simpl; tauto. }
  destruct Hv as (_ & _ & Htier & Hint & Hprice & Hbdt).
  cbv zeta.
  destruct (Db.plan_in_range _) eqn:Hrange; cbn [negb];
    [|split; [reflexivity|]; split; [reflexivity|];
      right; eexists; split; [reflexivity|]; split; [reflexivity|]; simpl; tauto].
  destruct (List.existsb (fun p => String.eqb (PricingPlan.id p) _) _) eqn:Hid;
    [split; [reflexivity|]; split; [reflexivity|];
     right; eexists; split; [reflexivity|]; split; [reflexivity|]; simpl; tauto|].
  destruct (List.existsb (fun p => String.eqb (PricingPlan.stripePriceId p) _) _) eqn:Hpid;
    [split; [reflexivity|]; split; [reflexivity|];
     right; eexists; split; [reflexivity|]; split; [reflexivity|]; simpl; tauto|].
  split; [reflexivity|]. split; [reflexivity|].
  left. eexists. split; [reflexivity|]. split; [reflexivity|].
  split.
  { intros p Hin. split; intros Heq.
    - assert (Hex : List.existsb
                      (fun q => String.eqb (PricingPlan.id q)
                                  (PricingPlan.id
                                     (PlanAdmin.new_plan v (now env)
                                        (randomUUID env (uuids_drawn db)))))
                      (pricingPlans_rows (Db.with_uuids_drawn (S (uuids_drawn db)) db)) = true).
      { apply List.existsb_exists. exists p. split; [exact Hin|]. apply String.eqb_eq, Heq. }
      congruence.
    - assert (Hex : List.existsb
                      (fun q => String.eqb (PricingPlan.stripePriceId q)
                                  (PricingPlan.stripePriceId
                                     (PlanAdmin.new_plan v (now env)
                                        (randomUUID env (uuids_drawn db)))))
                      (pricingPlans_rows (Db.with_uuids_drawn (S (uuids_drawn db)) db)) = true).
      { apply List.existsb_exists. exists p. split; [exact Hin|]. apply String.eqb_eq, Heq. }
      congruence. }
  unfold Db.plan_in_range in Hrange.
  cbn [PlanAdmin.new_plan PricingPlan.id PricingPlan.isActive PricingPlan.createdAt
       PricingPlan.updatedAt PricingPlan.tier PricingPlan.billingInterval
       PricingPlan.priceAmount PricingPlan.priceAmountBdt PricingPlan.textGenerationLimit
       PricingPlan.imageGenerationLimit PricingPlan.videoGenerationLimit
       PricingPlan.audioGenerationLimit] in *.
  repeat (apply andb_true_iff in Hrange; destruct Hrange as [Hrange ?]).
  repeat (split; [reflexivity || assumption|]).
  split.
  - unfold Db.int4 in Hrange. lia.
  - intros bdt Hb. specialize (Hbdt bdt Hb).
    match goal with H : Db.int4_opt (PlanAdmin.v_priceAmountBdt v) = true |- _ =>
      rewrite Hb in H; unfold Db.int4_opt, Db.int4 in H; lia end.
Qed.

(** The form for the Basic plan, submitted once. *)
Lemma create_outcomes_witness :
  let run := PlanAdmin.create Sample.basic_form
               (Sample.env_at Sample.jan31 "COMPLETED" true) Sample.db0 in
  users_rows (database run) = users_rows Sample.db0
  /\ List.map PricingPlan.name (pricingPlans_rows (database run)) = ["Pro"; "Starter"; "Basic"].
Proof.
  intros run. split.
  - apply (create_outcomes Sample.basic_form
             (Sample.env_at Sample.jan31 "COMPLETED" true) Sample.db0).
  - vm_compute. reflexivity.
Defined.

(** X16.  When action [update] leaves with the redirect, the form passed
    the validations and its integers fit their columns; the plans other
    than [params.id] are exactly as they were, in the same places; the
    plan [params.id] keeps its identifier and its creation time, takes
    name, tier, price identifier, prices, currency, interval, limits and
    features from the validated form, is updated now, and is active only
    if the form carries [isActive=on]; users and subscriptions are
    untouched.  The redirect does not witness a change: for an identifier
    that no plan carries, the table is as it was. *)
Theorem update_edits_one_plan
    (id : option string) (data : PlanAdmin.FormData) (env : Env) (db : Database)
    (status : Z) (location : string) :
  let run := PlanAdmin.update id data env db in
  result run = Throw (Redirect status location) ->
  exists planId v,
    id = Some planId
    /\ PlanAdmin.validate data = inr v
    /\ demoMode env = false
    /\ 0 <= PlanAdmin.v_priceAmount v <= 2147483647
    /\ users_rows (database run) = users_rows db
    /\ subscriptions_rows (database run) = subscriptions_rows db
    /\ Forall2
         (fun old new =>
            (PricingPlan.id old <> planId -> new = old)
            /\ (PricingPlan.id old = planId ->
                PricingPlan.id new = planId
                /\ PricingPlan.createdAt new = PricingPlan.createdAt old
                /\ PricingPlan.updatedAt new = now env
                /\ PricingPlan.name new = PlanAdmin.v_name v
                /\ PricingPlan.tier new = PlanAdmin.v_tier v
                /\ PricingPlan.stripePriceId new = PlanAdmin.v_stripePriceId v
                /\ PricingPlan.priceAmount new = PlanAdmin.v_priceAmount v
                /\ PricingPlan.priceAmountBdt new = PlanAdmin.v_priceAmountBdt v
                /\ PricingPlan.currency new = PlanAdmin.v_currency v
                /\ PricingPlan.billingInterval new = PlanAdmin.v_billingInterval v
                /\ PricingPlan.textGenerationLimit new = PlanAdmin.v_textLimit v
                /\ PricingPlan.imageGenerationLimit new = PlanAdmin.v_imageLimit v
                /\ PricingPlan.videoGenerationLimit new = PlanAdmin.v_videoLimit v
                /\ PricingPlan.audioGenerationLimit new = PlanAdmin.v_audioLimit v
                /\ PricingPlan.features new = PlanAdmin.v_features v
                /\ PricingPlan.isActive new
                   = JsText.strict_eq (PlanAdmin.get data "isActive") "on"))
         (pricingPlans_rows db) (pricingPlans_rows (database run))
    /\ ((forall p, In p (pricingPlans_rows db) -> PricingPlan.id p <> planId) ->
        pricingPlans_rows (database run) = pricingPlans_rows db).
Proof.
  intros run. subst run. rewrite update_unfold.
  destruct (demoMode env); [discriminate|].
  destruct id as [planId|]; [|discriminate].
  destruct (negb (Js.truthy (Some planId))); [discriminate|].
  pose proof (validate_sound data) as Hsound.
  destruct (PlanAdmin.validate data) as [failure|v]; [discriminate|].
  destruct Hsound as (_ & _ & _ & _ & Hprice & _).
  cbv zeta.
  destruct (PlanAdmin.values_in_range v) eqn:Hrange; cbn [negb]; [|discriminate].
  destruct (negb _ && _); [discriminate|].
  intros _. exists planId, v.
  split; [reflexivity|]. split; [reflexivity|]. split; [reflexivity|].
  split.
  { unfold PlanAdmin.values_in_range in Hrange.
    do 5 (apply andb_true_iff in Hrange; destruct Hrange as [Hrange _]).
    unfold Db.int4 in Hrange. apply andb_true_iff in Hrange.
    destruct Hrange as [_ Hmax]. apply Z.leb_le in Hmax. lia. }
  split; [reflexivity|]. split; [reflexivity|].
  unfold database. cbn [fst snd pricingPlans_rows Db.with_pricingPlans].
  split.
  - unfold Db.set_where. induction (pricingPlans_rows db) as [|p rows IH]; cbn [List.map].
    + constructor.
    + constructor; [|exact IH].
      destruct (String.eqb_spec (PricingPlan.id p) planId) as [Heq|Hne].
      * split; [contradiction|]. intros _. cbn.
        repeat (split; [reflexivity || assumption|]).
        unfold JsText.strict_eq. destruct (PlanAdmin.get data "isActive"); reflexivity.
      * split; [reflexivity | contradiction].
  - intros Hnone. apply set_where_none.
    apply filter_nil_iff. intros p Hin. apply String.eqb_neq. exact (Hnone p Hin).
Qed.

(** The Starter plan edited with the form for Basic: the Pro plan stays,
    the Starter plan carries the form's name, price identifier and price,
    loses its BDT price and, the form having no [isActive], is switched
    off. *)
Lemma update_edits_one_plan_witness :
  let run := PlanAdmin.update (Some "plan-starter") Sample.basic_form
               (Sample.env_at Sample.jan31 "COMPLETED" true) Sample.db0 in
  result run = Throw (Redirect 303 "/admin/settings/plans")
  /\ exists edited,
       pricingPlans_rows (database run) = [Sample.pro; edited]
       /\ PricingPlan.id edited = "plan-starter"
       /\ PricingPlan.name edited = "Basic"
       /\ PricingPlan.stripePriceId edited = "price_basic"
       /\ PricingPlan.priceAmount edited = 500
       /\ PricingPlan.audioGenerationLimit edited = Some 5
       /\ PricingPlan.isActive edited = false
       /\ PricingPlan.updatedAt edited = Sample.jan31.
Proof.
  intros run.
  assert (Hr : result run = Throw (Redirect 303 "/admin/settings/plans"))
    by (vm_compute; reflexivity).
  split; [exact Hr|].
  destruct (update_edits_one_plan (Some "plan-starter") Sample.basic_form
              (Sample.env_at Sample.jan31 "COMPLETED" true) Sample.db0
              303 "/admin/settings/plans" Hr)
    as (planId & v & Hid & Hv & _ & _ & _ & _ & Hrows & _).
  injection Hid as <-.
  assert (Hvalues : v = Sample.basic_values).
  { assert (Hb : PlanAdmin.validate Sample.basic_form = inr Sample.basic_values)
      by (vm_compute; reflexivity).
    rewrite Hb in Hv. injection Hv as <-. reflexivity. }
  subst v. fold run in Hrows.
  change (pricingPlans_rows Sample.db0) with [Sample.pro; Sample.starter] in Hrows.
  destruct (pricingPlans_rows (database run)) as [|first rest] eqn:Hall;
    [inversion Hrows|].
  apply Forall2_cons_iff in Hrows. destruct Hrows as [[Hpro _] Hrows].
  destruct rest as [|edited rest]; [inversion Hrows|].
  apply Forall2_cons_iff in Hrows. destruct Hrows as [[_ Hstarter] Hrows].
  destruct rest as [|extra rest]; [|inversion Hrows].
  rewrite (Hpro ltac:(discriminate)).
  destruct (Hstarter eq_refl)
    as (H1 & _ & H3 & H4 & _ & H6 & H7 & _ & _ & _ & _ & _ & _ & H14 & _ & H16).
  exists edited. split; [reflexivity|].
  split; [exact H1|]. split; [exact H4|]. split; [exact H6|]. split; [exact H7|].
  split; [exact H14|]. split; [exact H16|]. exact H3.
Defined.

(** X17.  The free plan is seeded once.  After a [seedFreePlan] that
    left with its redirect, the table ends with the free plan -- tier
    ['free'], price 0, price identifier ['free_plan_default'] -- and any
    later [seedFreePlan] outside demo mode returns the failure 500
    ['Failed to seed free plan'] and leaves the plans as they are: the
    database refuses a second row with that price identifier. *)
Theorem seedFreePlan_once (env env' : Env) (db : Database) (status : Z) (location : string) :
  let first := PlanList.seedFreePlan env db in
  let second := PlanList.seedFreePlan env' (database first) in
  result first = Throw (Redirect status location) ->
  demoMode env' = false ->
  pricingPlans_rows (database first)
  = pricingPlans_rows db ++ [PlanList.free_plan (now env) (randomUUID env (uuids_drawn db))]
  /\ result second = Ok (Some {| PlanAdmin.fail_status := 500;
                                 PlanAdmin.fail_error := "Failed to seed free plan" |})
  /\ pricingPlans_rows (database second) = pricingPlans_rows (database first).
Proof.
  intros first second Hfirst Hdemo. subst first second.
  assert (Hrows : pricingPlans_rows (database (PlanList.seedFreePlan env db))
                  = pricingPlans_rows db
                    ++ [PlanList.free_plan (now env) (randomUUID env (uuids_drawn db))]).
  { revert Hfirst. unfold PlanList.seedFreePlan, Db.insert_pricingPlans, Db.draw_uuid,
      PlanAdmin.on_error. run.
    destruct (demoMode env); [discriminate|]. simpl.
    repeat match goal with
           | |- context [if ?b then _ else _] => destruct b; simpl; try discriminate
           end.
    reflexivity. }
  split; [exact Hrows|].
  assert (Htaken : List.existsb
                     (fun p => String.eqb (PricingPlan.stripePriceId p) "free_plan_default")
                     (pricingPlans_rows (database (PlanList.seedFreePlan env db))) = true).
  { rewrite Hrows. apply List.existsb_exists. eexists. split.
    - apply in_or_app. right. left. reflexivity.
    - reflexivity. }
  revert Htaken.
  generalize (database (PlanList.seedFreePlan env db)). intros db1 Htaken.
  clear Hfirst Hrows.
  unfold PlanList.seedFreePlan, Db.insert_pricingPlans, Db.draw_uuid, PlanAdmin.on_error.
  unfold bind, try_catch, ret, throw, emit, ask, get_db, put_db, lift_res, result, database.
  rewrite Hdemo. simpl. rewrite Htaken. clear Htaken.
  match goal with
  | |- context [if ?b then _ else _] => destruct b
  end; simpl; split; reflexivity.
Qed.

(** Seeding the sample database twice. *)
Lemma seedFreePlan_once_witness :
  let env := Sample.env_at Sample.jan31 "COMPLETED" true in
  result (PlanList.seedFreePlan env (database (PlanList.seedFreePlan env Sample.db0)))
  = Ok (Some {| PlanAdmin.fail_status := 500;
                PlanAdmin.fail_error := "Failed to seed free plan" |}).
Proof.
  intros env.
  apply (seedFreePlan_once env env Sample.db0 303 "/admin/settings/plans").
  - vm_compute. reflexivity.
  - reflexivity.
Defined.

(** ** Payment settings *)

Lemma shouldSaveValue_true newValue currentValue :
  PaymentMethodsAdmin.shouldSaveValue newValue currentValue = true ->
  Js.trim (PaymentMethodsAdmin.or_empty newValue) <> ""
  /\ Js.trim (PaymentMethodsAdmin.or_empty newValue)
     <> Js.trim (PaymentMethodsAdmin.or_empty currentValue).
Proof.
  unfold PaymentMethodsAdmin.shouldSaveValue, Js.truthy. intros H.
  apply andb_true_iff in H. destruct H as [H1 H2].
  apply negb_true_iff in H1, H2. apply String.eqb_neq in H1, H2. split; assumption.
Qed.

(** X18.  Action [update] of the payment settings saves changes only.
    Every entry of [settingsToSave] has a value that is not empty and
    differs from the value stored under its key (secrets compared after
    trimming), so a field left blank never erases a stored secret; no key
    is listed twice; and a form that repeats the stored values saves
    nothing. *)
Theorem settingsToSave_changes_only
    (f : PaymentMethodsAdmin.Form) (cur : PaymentMethodsAdmin.Current) :
  (forall key value,
     In (key, value) (PaymentMethodsAdmin.settingsToSave f cur) ->
     value <> ""
     /\ exists stored, current_of cur key = Some stored /\ value <> stored)
  /\ List.NoDup (List.map fst (PaymentMethodsAdmin.settingsToSave f cur))
  /\ (PaymentMethodsAdmin.activeProvider f = Some (PaymentMethodsAdmin.cur_activeProvider cur) ->
      PaymentMethodsAdmin.environment f = PaymentMethodsAdmin.cur_environment cur ->
      PaymentMethodsAdmin.stripePublishableKey f
      = PaymentMethodsAdmin.cur_stripe_publishable_key cur ->
      PaymentMethodsAdmin.stripeSecretKey f = PaymentMethodsAdmin.cur_stripe_secret_key cur ->
      PaymentMethodsAdmin.stripeWebhookSecret f
      = PaymentMethodsAdmin.cur_stripe_webhook_secret cur ->
      PaymentMethodsAdmin.opayApiKey f = PaymentMethodsAdmin.cur_opay_api_key cur ->
      PaymentMethodsAdmin.settingsToSave f cur = []).
Proof.
  unfold PaymentMethodsAdmin.settingsToSave, PaymentMethodsAdmin.save_if.
  split; [|split].
  - intros key value Hin.
    repeat (apply in_app_or in Hin; destruct Hin as [Hin|Hin]);
      match type of Hin with
      | In _ (if ?b then _ else _) => destruct b eqn:Hb; [|destruct Hin]
      end;
      (destruct Hin as [Hin|[]]); injection Hin as <- <-;
      try (apply shouldSaveValue_true in Hb; destruct Hb as [Hne Hdiff];
           split; [exact Hne|]; eexists; split; [reflexivity | exact Hdiff]).
    + apply andb_true_iff in Hb. destruct Hb as [Ht Hd].
      apply negb_true_iff, String.eqb_neq in Hd.
      destruct (PaymentMethodsAdmin.activeProvider f) as [p|]; [|discriminate].
      unfold PaymentMethodsAdmin.or_empty, JsText.or_default in *. rewrite Ht in *.
      split; [|eexists; split; [reflexivity | exact Hd]].
      unfold Js.truthy in Ht. apply negb_true_iff, String.eqb_neq in Ht. exact Ht.
    + apply andb_true_iff in Hb. destruct Hb as [Ht Hd].
      apply negb_true_iff, String.eqb_neq in Hd.
      destruct (PaymentMethodsAdmin.environment f) as [p|]; [|discriminate].
      assert (Hp : PaymentMethodsAdmin.or_empty (Some p) = p).
      { unfold PaymentMethodsAdmin.or_empty, JsText.or_default. rewrite Ht. reflexivity. }
      rewrite Hp in *.
      split; [|eexists; split; [reflexivity | exact Hd]].
      unfold Js.truthy in Ht. apply negb_true_iff, String.eqb_neq in Ht. exact Ht.
  - repeat match goal with
           | |- context [if ?b then _ else _] => destruct b
           end; cbn; repeat (apply List.NoDup_cons;
        [cbn; intros Hin; repeat (destruct Hin as [Hin|Hin]; [discriminate Hin|]);
         destruct Hin|]);
      apply List.NoDup_nil.
  - intros Hp He H1 H2 H3 H4. rewrite Hp, He, H1, H2, H3, H4.
    unfold PaymentMethodsAdmin.shouldSaveValue.
    rewrite !String.eqb_refl.
    assert (Hown : (PaymentMethodsAdmin.or_empty
                      (Some (PaymentMethodsAdmin.cur_activeProvider cur))
                    =? PaymentMethodsAdmin.cur_activeProvider cur)%string
                   = true \/ Js.truthy (Some (PaymentMethodsAdmin.cur_activeProvider cur))
                             = false).
    { unfold PaymentMethodsAdmin.or_empty, JsText.or_default.
      destruct (Js.truthy _); [left; apply String.eqb_refl | right; reflexivity]. }
    cbn [negb]. rewrite !andb_false_r.
    destruct Hown as [-> | ->]; cbn [negb andb]; rewrite ?andb_false_r; reflexivity.
Qed.

(** The stored settings resubmitted: nothing to save. *)
Lemma settingsToSave_changes_only_witness :
  PaymentMethodsAdmin.settingsToSave
    {| PaymentMethodsAdmin.activeProvider := Some "opaybd";
       PaymentMethodsAdmin.environment := Some "test";
       PaymentMethodsAdmin.stripePublishableKey := None;
       PaymentMethodsAdmin.stripeSecretKey := None;
       PaymentMethodsAdmin.stripeWebhookSecret := None;
       PaymentMethodsAdmin.opayApiKey := Some "key" |}
    {| PaymentMethodsAdmin.cur_activeProvider := "opaybd";
       PaymentMethodsAdmin.cur_environment := Some "test";
       PaymentMethodsAdmin.cur_stripe_publishable_key := None;
       PaymentMethodsAdmin.cur_stripe_secret_key := None;
       PaymentMethodsAdmin.cur_stripe_webhook_secret := None;
       PaymentMethodsAdmin.cur_opay_api_key := Some "key" |}
  = [].
Proof.
  apply settingsToSave_changes_only; reflexivity.
Defined.

(** ** The gateway's credentials and answers *)

(** X19.  Without credentials the gateway is never contacted.  When
    [isConfigured] answers false, [verifyPayment] throws before any
    request -- the ['... not configured ...'] error when the settings
    could be read -- and [handlePaymentSuccess] throws the same having
    logged one line; neither touches the database.  When it answers
    true, [verifyPayment] sends exactly one request, a POST of the
    transaction id to [/verify]. *)
Theorem verifyPayment_credentials
    (tx : string) (params : OpayCallbackParams) (env : Env) (db : Database) :
  (result (OpayService.isConfigured env db) = Ok false ->
   events (OpayService.verifyPayment tx env db) = []
   /\ (exists e,
         result (OpayService.verifyPayment tx env db) = Throw e
         /\ result (OpayService.handlePaymentSuccess params env db) = Throw e
         /\ (forall s, opaySettings env = Ok s -> e = Error OpayService.not_configured))
   /\ database (OpayService.handlePaymentSuccess params env db) = db
   /\ List.filter is_network (events (OpayService.handlePaymentSuccess params env db)) = [])
  /\ (result (OpayService.isConfigured env db) = Ok true ->
      List.filter is_network (events (OpayService.verifyPayment tx env db))
      = [http_post (OPAY_API_BASE +:+ "/verify") (VerifyBody tx)]).
Proof.
  assert (Hres : result (OpayService.isConfigured env db)
                 = Ok (match opaySettings env with
                       | Ok s => Js.truthy (apiKey s)
                       | Throw _ => false
                       end)) by (rewrite isConfigured_spec; reflexivity).
  rewrite Hres. clear Hres.
  assert (Hv : forall t,
             match opaySettings env with
             | Ok s => Js.truthy (apiKey s)
             | Throw _ => false
             end = false ->
             exists e,
               OpayService.verifyPayment t env db = (Throw e, db, [])
               /\ (forall s, opaySettings env = Ok s -> e = Error OpayService.not_configured)).
  { intros t Hc. unfold OpayService.verifyPayment, OpayService.getHeaders. run.
    destruct (opaySettings env) as [[[key|]]|e]; simpl in *.
    - rewrite Hc. simpl. eexists. split; [reflexivity|]. reflexivity.
    - eexists. split; [reflexivity|]. reflexivity.
    - exists e. split; [reflexivity|]. intros s Hs. discriminate Hs. }
  split.
  - intros Hc. injection Hc as Hc.
    destruct (Hv tx Hc) as (e & Hrun & He).
    destruct (Hv (transactionId params) Hc) as (e' & Hrun' & He').
    assert (e' = e).
    { destruct (opaySettings env) as [s|x] eqn:Hs.
      - rewrite (He s eq_refl), (He' s eq_refl). reflexivity.
      - clear -Hrun Hrun' Hs. revert Hrun Hrun'.
        unfold OpayService.verifyPayment, OpayService.getHeaders. run.
        rewrite Hs. simpl. congruence. }
    subst e'.
    rewrite handlePaymentSuccess_unfold. cbv zeta. rewrite Hrun, Hrun'.
    split; [reflexivity|]. split; [|split; reflexivity].
    exists e. split; [reflexivity|]. split; [reflexivity | exact He].
  - intros Hc. injection Hc as Hc.
    unfold OpayService.verifyPayment, OpayService.getHeaders. run.
    destruct (opaySettings env) as [[[key|]]|e]; simpl in *; try discriminate.
    rewrite Hc. simpl.
    destruct (opay_verify env tx) as [r|c t|d|r]; simpl; try reflexivity.
    destruct (Verification.metadata d) as [m|raw|]; simpl; try reflexivity.
    destruct (JSON_parse env raw); reflexivity.
Qed.

(** A deployment without an API key: the callback for [tx1] sends
    nothing. *)
Lemma verifyPayment_credentials_witness :
  events (OpayService.verifyPayment "tx1"
            (Sample.deployment "opaybd" None None None Sample.jan31 "COMPLETED" true)
            Sample.db0) = [].
Proof.
  apply (verifyPayment_credentials "tx1" Sample.callback
           (Sample.deployment "opaybd" None None None Sample.jan31 "COMPLETED" true)
           Sample.db0).
  reflexivity.
Defined.



(** ** The checkout endpoint *)

Lemma createCheckoutSession_provider params env db r :
  result (PaymentRouter.createCheckoutSession params env db) = Ok r ->
  match provider r with
  | opaybd => activePaymentProvider env = "opaybd" /\ exists url, paymentUrl r = Some url
  | stripe => activePaymentProvider env <> "opaybd" /\ exists id, sessionId r = Some id
  end.
Proof.
  rewrite createCheckoutSession_unfold. cbv zeta.
  destruct (String.eqb_spec (activePaymentProvider env) "opaybd") as [Hp|Hp].
  - destruct (negb _); [discriminate|].
    destruct (OpayService.createPayment _ env db) as [[[data|e] db1] ev]; [|discriminate].
    intros H. injection H as <-. cbn. split; [exact Hp | eexists; reflexivity].
  - destruct (stripe_createCheckoutSession env _) as [session|e]; [|discriminate].
    intros H. injection H as <-. cbn. split; [exact Hp | eexists; reflexivity].
Qed.

(** X21.  How the checkout endpoint can end, whatever the price lookups
    do.  It either returns an answer or throws 500
    ['Failed to create checkout session'] -- never 401 or 400: those are
    thrown inside the [try] block and leave as the 500.  Without a
    signed-in user or without a price identifier in the body that happens
    before any lookup, with the database untouched.  An answer for the
    regional gateway is given only when ['opaybd'] is the active provider
    and carries the payment URL; an answer for Stripe only when it is not,
    and carries the session identifier. *)
Theorem Checkout_POST_outcomes
    (isValidPriceId : string -> M bool)
    (getPlanByPriceId : string -> M (option PricingPlan.t))
    (sessionUserId : option string) (body : option (option string)) (origin : string)
    (env : Env) (db : Database) :
  let run := Checkout.POST isValidPriceId getPlanByPriceId sessionUserId body origin env db in
  (result run = Throw (HttpError 500 "Failed to create checkout session")
   \/ exists a, result run = Ok a)
  /\ (Js.truthy sessionUserId = false
      \/ body = None \/ body = Some None \/ body = Some (Some "") ->
      run = (Throw (HttpError 500 "Failed to create checkout session"), db,
             [console_error "Error creating checkout session:"]))
  /\ (forall a, result run = Ok a ->
      match a with
      | Checkout.to_opaybd url =>
          activePaymentProvider env = "opaybd" /\ exists u, url = Some u
      | Checkout.to_stripe secret id =>
          activePaymentProvider env <> "opaybd" /\ exists i, id = Some i
      end).
Proof.
  intros run. subst run. unfold Checkout.POST, Checkout.error, Checkout.failure.
  destruct sessionUserId as [user|];
    [|split; [left; reflexivity|]; split; [reflexivity | discriminate]].
  unfold Js.truthy.
  destruct (String.eqb_spec user "") as [->|Huser]; cbn [negb].
  { split; [left; reflexivity|]. split; [|discriminate].
    intros _. destruct body as [[p|]|]; reflexivity. }
  destruct body as [[priceId|]|];
    [|split; [left; reflexivity|]; split; [reflexivity | discriminate]
     |split; [left; reflexivity|]; split; [reflexivity | discriminate]].
  destruct (String.eqb_spec priceId "") as [->|Hprice]; cbn [negb];
    [split; [left; reflexivity|]; split; [reflexivity | discriminate]|].
  assert (Hno : ~ (true = false \/ Some (Some priceId) = None
                   \/ Some (Some priceId) = Some None
                   \/ Some (Some priceId) = Some (Some ""))).
  { intros [H|[H|[H|H]]]; try discriminate. injection H as H. contradiction. }
  step.
  destruct (isValidPriceId priceId env db) as [[[[|]|e] db1] ev1]; cbn [negb];
    try (split; [left; reflexivity|]; split; [intros H; destruct (Hno H) | discriminate]).
  destruct (getPlanByPriceId priceId env db1) as [[[[plan|]|e] db2] ev2];
    try (split; [left; reflexivity|]; split; [intros H; destruct (Hno H) | discriminate]).
  match goal with
  | |- context [PaymentRouter.createCheckoutSession ?p env db2] =>
      pose proof (createCheckoutSession_provider p env db2) as Hprov;
      destruct (PaymentRouter.createCheckoutSession p env db2) as [[[r|e] db3] ev3]
  end;
    try (split; [left; reflexivity|]; split; [intros H; destruct (Hno H) | discriminate]).
  specialize (Hprov r eq_refl).
  destruct (provider r).
  - split; [right; eexists; reflexivity|]. split; [intros H; destruct (Hno H)|].
    intros a Ha. injection Ha as <-. exact Hprov.
  - split; [right; eexists; reflexivity|]. split; [intros H; destruct (Hno H)|].
    intros a Ha. injection Ha as <-. exact Hprov.
Qed.

(** A request without a session: the price lookups are not consulted. *)
Lemma Checkout_POST_outcomes_witness :
  Checkout.POST (fun _ => ret true) (fun _ => ret (Some Sample.pro)) None
    (Some (Some "price_pro")) "https://app.example.com"
    (Sample.env_at Sample.jan31 "COMPLETED" true) Sample.db0
  = (Throw (HttpError 500 "Failed to create checkout session"), Sample.db0,
     [console_error "Error creating checkout session:"]).
Proof.
  apply (Checkout_POST_outcomes (fun _ => ret true) (fun _ => ret (Some Sample.pro)) None
           (Some (Some "price_pro")) "https://app.example.com"
           (Sample.env_at Sample.jan31 "COMPLETED" true) Sample.db0).
  left. reflexivity.
Defined.

(** X22.  How long a payment buys.  The period [handlePaymentSuccess]
    sets runs from the time of the credit to the same time of day 365 or
    366 days later when the metadata give the billing interval ['year'],
    and 28 to 31 days later otherwise -- [setMonth] on a day the next
    month lacks rolls over into the month after, never past 31 days.  So
    the subscription of a payment that went through ends in the future. *)
Theorem handlePaymentSuccess_period
    (params : OpayCallbackParams) (env : Env) (db : Database) (v : Verification.t) :
  let run := OpayService.handlePaymentSuccess params env db in
  result run = Ok tt ->
  result (OpayService.verifyPayment (transactionId params) env db) = Ok v ->
  exists uid s rest,
    meta_field Metadata.userId (Verification.metadata v) = Some uid
    /\ List.filter (OpayService.is_opay_subscription_of uid) (subscriptions_rows (database run))
       = s :: rest
    /\ Subscription.currentPeriodStart s = now env
    /\ (if JsText.strict_eq (meta_field Metadata.billingInterval (Verification.metadata v))
             "year"
        then 365 * 86400000 <= Subscription.currentPeriodEnd s - now env <= 366 * 86400000
        else 28 * 86400000 <= Subscription.currentPeriodEnd s - now env <= 31 * 86400000)
    /\ Subscription.currentPeriodEnd s mod 86400000 = now env mod 86400000
    /\ OpayService.expired (now env) s = false.
Proof.
  intros run Hok Hv. subst run.
  destruct (handlePaymentSuccess_ok _ _ _ _ Hok Hv)
    as (m & uid & tier & Hm & Hu & Ht & _ & Hcredit & Hdb).
  rewrite Hdb, Hm. cbn [meta_field].
  destruct (credit_ok_subscription _ _ _ _ _ _ Hcredit)
    as (s & rest & amount & Hf & _ & Hst & Hrr & _ & Hstart & Hend & _).
  destruct (period_end_length (now env) (Metadata.billingInterval m)) as [Hlen Htime].
  cbv zeta in Hlen. rewrite <- Hend in Hlen, Htime.
  exists uid, s, rest.
  split; [exact Hu|]. split; [exact Hf|]. split; [exact Hstart|]. split; [exact Hlen|].
  split; [exact Htime|].
  unfold OpayService.expired.
  assert (Hfuture : (Subscription.currentPeriodEnd s <? now env) = false).
  { apply Z.ltb_ge. destruct (JsText.strict_eq _ "year"); lia. }
  rewrite Hfuture. apply andb_false_r.
Qed.

(** Alice pays on 31 January 2024: February has no 31st, and her month
    ends on 2 March, 31 days later. *)
Lemma handlePaymentSuccess_period_witness :
  let run := OpayService.handlePaymentSuccess Sample.callback
               (Sample.env_at Sample.jan31 "COMPLETED" true) Sample.db0 in
  List.map Subscription.currentPeriodEnd (subscriptions_rows (database run))
  = [Sample.jan31 + 31 * 86400000]
  /\ exists s rest,
       List.filter (OpayService.is_opay_subscription_of "u1")
         (subscriptions_rows (database run)) = s :: rest
       /\ OpayService.expired Sample.jan31 s = false.
Proof.
  intros run.
  split; [vm_compute; reflexivity|].
  destruct (handlePaymentSuccess_period Sample.callback
              (Sample.env_at Sample.jan31 "COMPLETED" true) Sample.db0
              (OpayService.with_metadata (MetaObject Sample.meta_pro)
                 (Sample.answer "COMPLETED")))
    as (uid & s & rest & Hu & Hf & _ & _ & _ & Hexp).
  - vm_compute. reflexivity.
  - vm_compute. reflexivity.
  - injection Hu as <-. exists s, rest. split; [exact Hf | exact Hexp].
Defined.

(** X23.  A fresh payment survives the sweep.  With local time zone UTC,
    where a paid period is at least 28 days long: after a payment that
    went through for a user with at most one regional-gateway
    subscription, a [markExpiredSubscriptionsForRenewal] run any time in
    the next 28 days leaves that user's subscription as it is, and
    [checkRenewalRequired] then reports nothing to renew. *)
Theorem handlePaymentSuccess_then_sweep
    (params : OpayCallbackParams) (env env' : Env) (db : Database) (v : Verification.t)
    (uid : string) :
  let paid := database (OpayService.handlePaymentSuccess params env db) in
  let swept := database (OpayService.markExpiredSubscriptionsForRenewal env' paid) in
  result (OpayService.handlePaymentSuccess params env db) = Ok tt ->
  result (OpayService.verifyPayment (transactionId params) env db) = Ok v ->
  meta_field Metadata.userId (Verification.metadata v) = Some uid ->
  (length (List.filter (OpayService.is_opay_subscription_of uid) (subscriptions_rows db))
   <= 1)%nat ->
  now env' <= now env + 28 * 86400000 ->
  List.filter (OpayService.is_opay_subscription_of uid) (subscriptions_rows swept)
  = List.filter (OpayService.is_opay_subscription_of uid) (subscriptions_rows paid)
  /\ result (PaymentRouter.checkRenewalRequired uid env' swept) = Ok None.
Proof.
  intros paid swept Hok Hv Huid Hone Hsoon. subst swept.
  assert (Hleq : (length (List.filter (OpayService.is_opay_subscription_of uid)
                            (subscriptions_rows paid)) <= 1)%nat)
    by (apply handlePaymentSuccess_at_most_one, Hone).
  destruct (handlePaymentSuccess_ok _ _ _ _ Hok Hv)
    as (m & uid' & tier & Hm & Hu & Ht & _ & Hcredit & Hdb).
  rewrite Hm in Huid. cbn [meta_field] in Huid. rewrite Hu in Huid. injection Huid as ->.
  destruct (credit_ok_subscription _ _ _ _ _ _ Hcredit)
    as (s & rest & amount & Hf & _ & Hst & Hrr & _ & _ & Hend & _).
  cbv zeta in Hf. rewrite <- Hdb in Hf. fold paid in Hf.
  rewrite Hf in Hleq. destruct rest as [|s2 rest]; [|simpl in Hleq; lia].
  destruct (period_end_length (now env) (Metadata.billingInterval m)) as [Hlen _].
  cbv zeta in Hlen. rewrite <- Hend in Hlen.
  assert (Hfresh : OpayService.expired (now env') s = false).
  { unfold OpayService.expired.
    assert (Hfuture : (Subscription.currentPeriodEnd s <? now env') = false).
    { apply Z.ltb_ge. destruct (JsText.strict_eq _ "year"); lia. }
    rewrite Hfuture. apply andb_false_r. }
  destruct (markExpiredSubscriptionsForRenewal_effect env' paid) as [_ ->].
  cbn [subscriptions_rows Db.with_subscriptions].
  assert (Hkept : List.filter (OpayService.is_opay_subscription_of uid)
                    (Db.set_where (OpayService.expired (now env'))
                       (OpayService.flag (now env')) (subscriptions_rows paid))
                  = [s]).
  { rewrite filter_set_where by (intros x; reflexivity).
    rewrite Hf. unfold Db.set_where. cbn [List.map]. rewrite Hfresh. reflexivity. }
  split; [rewrite Hkept, Hf; reflexivity|].
  rewrite checkRenewalRequired_unfold. unfold result. cbn [fst].
  cbn [subscriptions_rows Db.with_subscriptions].
  rewrite needs_renewal_filter, Hkept. cbn. rewrite Hrr. reflexivity.
Qed.

(** Alice pays on 31 January; the sweep of 1 February leaves her alone. *)
Lemma handlePaymentSuccess_then_sweep_witness :
  let paid := database (OpayService.handlePaymentSuccess Sample.callback
                          (Sample.env_at Sample.jan31 "COMPLETED" true) Sample.db0) in
  let later := Sample.env_at Sample.feb01 "COMPLETED" true in
  result (PaymentRouter.checkRenewalRequired "u1" later
            (database (OpayService.markExpiredSubscriptionsForRenewal later paid)))
  = Ok None.
Proof.
  intros paid later.
  apply (handlePaymentSuccess_then_sweep Sample.callback
           (Sample.env_at Sample.jan31 "COMPLETED" true) later Sample.db0
           (OpayService.with_metadata (MetaObject Sample.meta_pro)
              (Sample.answer "COMPLETED")) "u1").
  - vm_compute. reflexivity.
  - vm_compute. reflexivity.
  - reflexivity.
  - simpl. lia.
  - vm_compute. discriminate.
Defined.

(** ** Flags are set on expired subscriptions only *)

(** X24.  An invariant of the renewal cycle: every subscription flagged
    for renewal ended in the past.  [markExpiredSubscriptionsForRenewal]
    keeps it, since it flags only what has ended;
    [handlePaymentSuccess] keeps it whatever its outcome, since a renewal
    clears the flag and a new row carries none; and under it the notice of
    [checkRenewalRequired] never counts a day as remaining, so the notice
    always reports a subscription that has expired. *)
Theorem renewal_flags_are_past :
  (forall env db t,
     flagged_are_past t (subscriptions_rows db) -> t <= now env ->
     flagged_are_past (now env)
       (subscriptions_rows (database (OpayService.markExpiredSubscriptionsForRenewal env db))))
  /\ (forall params env db t,
        flagged_are_past t (subscriptions_rows db) ->
        flagged_are_past t
          (subscriptions_rows (database (OpayService.handlePaymentSuccess params env db))))
  /\ (forall uid env db t info,
        flagged_are_past t (subscriptions_rows db) -> t <= now env ->
        result (PaymentRouter.checkRenewalRequired uid env db) = Ok (Some info) ->
        daysRemaining info <= 0 /\ expiresAt info < now env).
Proof.
  split; [|split].
  - intros env db t Hinv Ht.
    destruct (markExpiredSubscriptionsForRenewal_effect env db) as [_ ->].
    cbn [subscriptions_rows Db.with_subscriptions].
    intros s' Hin Hflag. unfold Db.set_where in Hin. apply in_map_iff in Hin.
    destruct Hin as (s & <- & Hin).
    destruct (OpayService.expired (now env) s) eqn:Hexp.
    + apply expired_true in Hexp. destruct Hexp as (_ & _ & _ & Hend). exact Hend.
    + specialize (Hinv s Hin Hflag). lia.
  - intros params env db t Hinv.
    destruct (handlePaymentSuccess_database params env db) as [->|(m & uid & tier & ->)];
      [exact Hinv|].
    destruct (credit_subscriptions params m uid tier env db) as [Hsame|[Hcase|Hcase]];
      cbv zeta in *.
    + rewrite Hsame. exact Hinv.
    + destruct Hcase as (existing & rest & amount & _ & _ & ->).
      intros s' Hin Hflag. unfold Db.set_where in Hin. apply in_map_iff in Hin.
      destruct Hin as (s & <- & Hin).
      destruct (Subscription.id s =? Subscription.id existing)%string.
      * unfold flagged in Hflag. cbn in Hflag. rewrite andb_false_r in Hflag. discriminate.
      * exact (Hinv s Hin Hflag).
    + destruct Hcase as (row & amount & _ & _ & Hrow & _ & _ & ->).
      intros s' Hin Hflag. apply in_app_or in Hin. destruct Hin as [Hin|[<-|[]]].
      * exact (Hinv s' Hin Hflag).
      * unfold OpayService.fresh_subscription in Hrow.
        destruct (Metadata.priceId m); [|discriminate]. injection Hrow as <-.
        unfold flagged in Hflag. cbn in Hflag. discriminate.
  - intros uid env db t info Hinv Ht. rewrite checkRenewalRequired_unfold.
    unfold result. cbn [fst].
    destruct (List.filter (OpayService.needs_renewal uid) (subscriptions_rows db))
      as [|sub others] eqn:Hf; [discriminate|].
    intros H. injection H as <-. cbn [daysRemaining expiresAt].
    assert (Hin : In sub (sub :: others)) by (left; reflexivity).
    rewrite <- Hf in Hin. apply List.filter_In in Hin. destruct Hin as [Hin Hneeds].
    apply needs_renewal_true in Hneeds. destruct Hneeds as (_ & Hp & Hrr & Hst).
    assert (Hflag : flagged sub = true).
    { unfold flagged. rewrite Hp, Hrr, Hst. reflexivity. }
    specialize (Hinv sub Hin Hflag).
    split; [|lia].
    pose proof (proj1 (Math_ceil_div_spec (Subscription.currentPeriodEnd sub - now env)
                         (1000 * 60 * 60 * 24) _ ltac:(lia)) eq_refl) as Hd.
    nia.
Qed.

(** A table swept on 1 February holds no flag on a running period, so the
    notice for Alice's lapsed subscription counts no day. *)
Lemma renewal_flags_are_past_witness :
  let env := Sample.env_at Sample.feb01 "COMPLETED" true in
  let swept :=
    database (OpayService.markExpiredSubscriptionsForRenewal env
                (Sample.with_subscriptions
                   [Sample.subscription_of "s1" "u1" opaybd false Sample.jan31])) in
  exists info,
    result (PaymentRouter.checkRenewalRequired "u1" env swept) = Ok (Some info)
    /\ daysRemaining info <= 0.
Proof.
  intros env swept.
  assert (Hr : exists info,
             result (PaymentRouter.checkRenewalRequired "u1" env swept) = Ok (Some info))
    by (eexists; vm_compute; reflexivity).
  destruct Hr as [info Hr]. exists info. split; [exact Hr|].
  destruct renewal_flags_are_past as (Hsweep & _ & Hnotice).
  apply (Hnotice "u1" env swept (now env) info); [|lia|exact Hr].
  apply (Hsweep env _ 0); [|vm_compute; discriminate].
  intros s [<-|[]] Hflag. discriminate Hflag.
Defined.

(** X25.  What the validations of the payment settings guarantee.  A
    form that passes names ['stripe'] or ['opaybd'] as provider and
    ['test'] or ['live'] as environment; each Stripe key it carries is
    empty or starts with the prefix of that environment ([pk_], [sk_]
    followed by [test_] or [live_]; [whsec_] for the webhook secret); and
    with ['opaybd'] as provider it carries a non-empty gateway key.  A form
    that does not pass is refused with one of eight messages. *)
Theorem payment_settings_validate (f : PaymentMethodsAdmin.Form) :
  match PaymentMethodsAdmin.validate f with
  | None =>
      exists provider environment,
        PaymentMethodsAdmin.activeProvider f = Some provider
        /\ In provider ["stripe"; "opaybd"]
        /\ PaymentMethodsAdmin.environment f = Some environment
        /\ In environment ["test"; "live"]
        /\ (forall key, PaymentMethodsAdmin.stripePublishableKey f = Some key -> key <> "" ->
              Js.is_prefix ("pk_" +:+ environment +:+ "_") key = true)
        /\ (forall key, PaymentMethodsAdmin.stripeSecretKey f = Some key -> key <> "" ->
              Js.is_prefix ("sk_" +:+ environment +:+ "_") key = true)
        /\ (forall key, PaymentMethodsAdmin.stripeWebhookSecret f = Some key -> key <> "" ->
              Js.is_prefix "whsec_" key = true)
        /\ (provider = "opaybd" ->
            exists key, PaymentMethodsAdmin.opayApiKey f = Some key /\ key <> "")
  | Some message =>
      In message
        ["Invalid payment provider selection"; "Invalid Stripe environment selection";
         "Stripe publishable key must start with pk_test_";
         "Stripe publishable key must start with pk_live_";
         "Stripe secret key must start with sk_test_";
         "Stripe secret key must start with sk_live_";
         "Stripe webhook secret must start with whsec_";
         "Opaybd API Key is required when Opaybd is the active provider"]
  end.
Proof.
  unfold PaymentMethodsAdmin.validate.
  destruct (PaymentMethodsAdmin.activeProvider f) as [provider|]; [|simpl; tauto].
  destruct (negb (Js.truthy (Some provider))); [simpl; tauto|]. cbn [orb].
  destruct (PlanAdmin.one_of ["stripe"; "opaybd"] provider) eqn:Hp; [|simpl; tauto].
  cbn [negb].
  destruct (PaymentMethodsAdmin.environment f) as [environment|]; [|simpl; tauto].
  destruct (negb (Js.truthy (Some environment))); [simpl; tauto|]. cbn [orb].
  destruct (PlanAdmin.one_of ["test"; "live"] environment) eqn:He; [|simpl; tauto].
  cbn [negb].
  pose proof (one_of_In _ _ Hp) as Hprovider. pose proof (one_of_In _ _ He) as Henv.
  assert (Hprefix : forall key prefix k,
             PaymentMethodsAdmin.bad_prefix key prefix = false ->
             key = Some k -> k <> "" -> Js.is_prefix prefix k = true).
  { intros key prefix k Hbad -> Hk. unfold PaymentMethodsAdmin.bad_prefix, Js.truthy in Hbad.
    apply String.eqb_neq in Hk. rewrite Hk in Hbad. cbn in Hbad.
    apply negb_false_iff in Hbad. exact Hbad. }
  destruct Henv as [<-|[<-|[]]]; cbn [String.eqb Ascii.eqb Bool.eqb];
    (destruct (PaymentMethodsAdmin.bad_prefix (PaymentMethodsAdmin.stripePublishableKey f) _)
       eqn:Hpk; [simpl; tauto|];
     destruct (PaymentMethodsAdmin.bad_prefix (PaymentMethodsAdmin.stripeSecretKey f) _)
       eqn:Hsk; [simpl; tauto|];
     destruct (PaymentMethodsAdmin.bad_prefix (PaymentMethodsAdmin.stripeWebhookSecret f) _)
       eqn:Hwh; [simpl; tauto|];
     destruct ((provider =? "opaybd")%string
               && negb (Js.truthy (PaymentMethodsAdmin.opayApiKey f))) eqn:Ho;
       [simpl; tauto|];
     eexists provider, _; split; [reflexivity|]; split; [exact Hprovider|];
     split; [reflexivity|]; split; [simpl; tauto|];
     split; [intros key Hkey Hne; exact (Hprefix _ _ key Hpk Hkey Hne)|];
     split; [intros key Hkey Hne; exact (Hprefix _ _ key Hsk Hkey Hne)|];
     split; [intros key Hkey Hne; exact (Hprefix _ _ key Hwh Hkey Hne)|];
     intros ->; cbn in Ho; apply negb_false_iff in Ho;
     destruct (PaymentMethodsAdmin.opayApiKey f) as [key|]; [|discriminate];
     exists key; split; [reflexivity|];
     unfold Js.truthy in Ho; apply negb_true_iff, String.eqb_neq in Ho; exact Ho).
Qed.

(** A form that selects the gateway without a key is refused. *)
Lemma payment_settings_validate_witness :
  PaymentMethodsAdmin.validate
    (PaymentMethodsAdmin.read [("activeProvider", "opaybd"); ("environment", "live")])
  = Some "Opaybd API Key is required when Opaybd is the active provider".
Proof.
  pose proof (payment_settings_validate
                (PaymentMethodsAdmin.read
                   [("activeProvider", "opaybd"); ("environment", "live")])) as H.
  destruct (PaymentMethodsAdmin.validate _) as [message|] eqn:Hv.
  - vm_compute in Hv. symmetry. exact Hv.
  - destruct H as (provider & environment & Hp & _ & _ & _ & _ & _ & _ & Hkey).
    injection Hp as <-. destruct (Hkey eq_refl) as (key & Hk & _). discriminate Hk.
Defined.
